(** * git-istage: the staging front-end of [main.go], embedded and verified

    The development follows the latest revision of [main.go] (the one with
    the scrollable diff viewer: [getMaxScroll], [moveCursorUp],
    [moveCursorDown]).  The first revision of the same file, which has no
    diff mode and whose cursor wraps around, is embedded in [Module Legacy]
    for comparison.

    Conventions.
    - Go's [int] is 64 bits wide.  Every [int] of this program is a slice
      index, a slice length, a line count or a terminal height, none of
      which comes near [2^63]; they are modelled in [Z].  [/] on [int]
      rounds towards zero: [Z.quot].  A run-time panic (index or slice
      bounds out of range) is modelled by [None].
    - A Go [string] is a sequence of bytes: Rocq's [string] of [ascii].
    - The external world (the [git] executable, the terminal styles of
      lipgloss) is a collaborator: see [Collaborators]. *)

From Stdlib Require Import ZArith String Ascii List Lia DecimalString.
From stdpp Require Import base list strings.

Open Scope Z_scope.

(** ** Data model *)

(** [type StagingStatus int] with its three constants. *)
Inductive StagingStatus := Unstaged | Staged | PartiallyStaged.

#[global] Instance StagingStatus_eq_dec : EqDecision StagingStatus.
Proof. solve_decision. Defined.

(** What [exec.Command(name, arg...)] fixes of an [exec.Cmd]: the program
    and its arguments. *)
Inductive Cmd := Command (name : string) (arg : list string).

#[global] Instance Cmd_eq_dec : EqDecision Cmd.
Proof. solve_decision. Defined.

(** [stageCmd] and [unstageCmd] are pointers to two [exec.Cmd] objects,
    built once when the entry is loaded and owned by the entry alone.  Such
    an object can be started only once: [stageStarted] and
    [unstageStarted] say whether the object pointed to has been started (its
    [Process] is set). *)
Record fileEntry := mkFileEntry {
  name : string;
  status : StagingStatus;
  stageCmd : Cmd;
  unstageCmd : Cmd;
  stageStarted : bool;
  unstageStarted : bool
}.

Record model := mkModel {
  files : list fileEntry;
  cursor : Z;
  quitting : bool;
  diffMode : bool;
  diffContent : string;
  scrollOffset : Z;
  viewportHeight : Z
}.

(** [len(m.files)] *)
Definition len {A} (l : list A) : Z := Z.of_nat (length l).

(** [m.files[i]]: [None] is the index-out-of-range panic. *)
Definition index {A} (l : list A) (i : Z) : option A :=
  if 0 <=? i then l !! Z.to_nat i else None.

(** Field updates of the [model] value the method works on. *)
Definition set_files (m : model) (v : list fileEntry) : model :=
  mkModel v (cursor m) (quitting m) (diffMode m) (diffContent m)
          (scrollOffset m) (viewportHeight m).
Definition set_cursor (m : model) (v : Z) : model :=
  mkModel (files m) v (quitting m) (diffMode m) (diffContent m)
          (scrollOffset m) (viewportHeight m).
Definition set_quitting (m : model) (v : bool) : model :=
  mkModel (files m) (cursor m) v (diffMode m) (diffContent m)
          (scrollOffset m) (viewportHeight m).
Definition set_diffMode (m : model) (v : bool) : model :=
  mkModel (files m) (cursor m) (quitting m) v (diffContent m)
          (scrollOffset m) (viewportHeight m).
Definition set_diffContent (m : model) (v : string) : model :=
  mkModel (files m) (cursor m) (quitting m) (diffMode m) v
          (scrollOffset m) (viewportHeight m).
Definition set_scrollOffset (m : model) (v : Z) : model :=
  mkModel (files m) (cursor m) (quitting m) (diffMode m) (diffContent m)
          v (viewportHeight m).
Definition set_viewportHeight (m : model) (v : Z) : model :=
  mkModel (files m) (cursor m) (quitting m) (diffMode m) (diffContent m)
          (scrollOffset m) v.
Definition set_status (f : fileEntry) (v : StagingStatus) : fileEntry :=
  mkFileEntry (name f) v (stageCmd f) (unstageCmd f)
              (stageStarted f) (unstageStarted f).
Definition set_stageStarted (f : fileEntry) (v : bool) : fileEntry :=
  mkFileEntry (name f) (status f) (stageCmd f) (unstageCmd f)
              v (unstageStarted f).
Definition set_unstageStarted (f : fileEntry) (v : bool) : fileEntry :=
  mkFileEntry (name f) (status f) (stageCmd f) (unstageCmd f)
              (stageStarted f) v.

(** ** Status interpreter *)

Definition git_add (filename : string) : Cmd :=
  Command "git" ["add"; filename].
Definition git_rm_cached (filename : string) : Cmd :=
  Command "git" ["rm"; "--cached"; filename].
Definition git_restore_staged (filename : string) : Cmd :=
  Command "git" ["restore"; "--staged"; filename].

Definition neqb (a b : ascii) : bool := negb (Ascii.eqb a b).

(** The [switch] of [interpretGitStatus] on the two bytes [x], [y]: the
    cases are tried from top to bottom. *)
Definition interpretXY (x y : ascii) (filename : string)
  : StagingStatus * Cmd * Cmd :=
  if Ascii.eqb x "?" && Ascii.eqb y "?" then
    (Unstaged, git_add filename, git_rm_cached filename)
  else if Ascii.eqb x "A" && neqb y " " then
    (PartiallyStaged, git_add filename, git_rm_cached filename)
  else if neqb x " " && neqb y " " then
    (PartiallyStaged, git_add filename, git_restore_staged filename)
  else if Ascii.eqb x "A" then
    (Staged, git_add filename, git_rm_cached filename)
  else if neqb x " " then
    (Staged, git_add filename, git_restore_staged filename)
  else
    (Unstaged, git_add filename, git_restore_staged filename).

(** [interpretGitStatus]: [x, y := xy[0], xy[1]] panics on a string shorter
    than two bytes. *)
Definition interpretGitStatus (xy filename : string)
  : option (StagingStatus * Cmd * Cmd) :=
  match String.get 0 xy, String.get 1 xy with
  | Some x, Some y => Some (interpretXY x y filename)
  | _, _ => None
  end.

(** *** The decision table of the specification, section 4.1

    This second definition follows the words of the table, row by row; the
    rows are read in the order of the table and the first one that applies
    is taken.  It is compared with [interpretGitStatus] below. *)

Inductive action := AddFile | RemoveFromIndex | RevertIndexToHEAD.

Inductive charPattern := Exactly (c : ascii) | NonSpace | Space.

Definition matches (p : charPattern) (c : ascii) : bool :=
  match p with
  | Exactly d => Ascii.eqb c d
  | NonSpace => neqb c " "
  | Space => Ascii.eqb c " "
  end.

Record tableRow := mkRow {
  row_x : charPattern;
  row_y : charPattern;
  row_classification : StagingStatus;
  row_stage : action;
  row_unstage : action
}.

Definition decisionTable : list tableRow :=
  [ mkRow (Exactly "?") (Exactly "?") Unstaged AddFile RemoveFromIndex;
    mkRow (Exactly "A") NonSpace PartiallyStaged AddFile RemoveFromIndex;
    mkRow NonSpace NonSpace PartiallyStaged AddFile RevertIndexToHEAD;
    mkRow (Exactly "A") Space Staged AddFile RemoveFromIndex;
    mkRow NonSpace Space Staged AddFile RevertIndexToHEAD;
    mkRow Space NonSpace Unstaged AddFile RevertIndexToHEAD ].

Fixpoint firstRow (rows : list tableRow) (x y : ascii) : option tableRow :=
  match rows with
  | [] => None
  | r :: rest =>
      if matches (row_x r) x && matches (row_y r) y then Some r
      else firstRow rest x y
  end.

(** The collaborator invocation that realises an action of the table
    (section 6: add path to index; remove path from index; restore the
    index entry from HEAD). *)
Definition invocation (a : action) (filename : string) : Cmd :=
  match a with
  | AddFile => git_add filename
  | RemoveFromIndex => git_rm_cached filename
  | RevertIndexToHEAD => git_restore_staged filename
  end.

Definition realise (r : tableRow) (filename : string)
  : StagingStatus * Cmd * Cmd :=
  (row_classification r, invocation (row_stage r) filename,
   invocation (row_unstage r) filename).

(** ** Collaborators and library functions *)

(** The fate of a spawned process: it ran and exited with a code, or it
    could not be run at all. *)
Inductive ExitStatus := Exited (code : Z) | NotStarted (reason : string).

(** What [os/exec] hands back once the process is over. [combined] is the
    interleaving of standard output and standard error that
    [CombinedOutput] captures. *)
Record Completed := mkCompleted {
  stdout : string;
  combined : string;
  exit : ExitStatus
}.

(** Go [error] values met in this program. *)
Inductive error := ExitError (code : Z) | ErrorString (msg : string).

(** [%d] of an [int]. *)
Definition showInt (z : Z) : string := NilZero.string_of_int (Z.to_int z).

(** [err.Error()], which is also what [%v] and [fmt.Println] show. *)
Definition Error (e : error) : string :=
  match e with
  | ExitError c => "exit status " +:+ showInt c
  | ErrorString s => s
  end.

(** The [err] result of [Run], [Output] and [CombinedOutput]: [nil] exactly
    when the process ran and exited with code 0. *)
Definition errOf (st : ExitStatus) : option error :=
  match st with
  | Exited c => if c =? 0 then None else Some (ExitError c)
  | NotStarted r => Some (ErrorString r)
  end.

Inductive Style := cursorStyle | stagedStyle | unstagedStyle.

(** Everything outside the program: the state of the outside world (the
    repository, the file system), what spawning a command does to it and
    returns, [strings.TrimSpace] (Unicode-aware in Go; left abstract here)
    and lipgloss's [Style.Render]. *)
Class Collaborators := {
  World : Type;
  spawn : Cmd -> World -> Completed * World;
  TrimSpace : string -> string;
  Render : Style -> string -> string
}.

Definition LF : ascii := Ascii.ascii_of_nat 10.

(** [strings.Split(s, sep)] for a separator of one byte: one more piece than
    there are separators, so never an empty slice. *)
Fixpoint Split (s : string) (sep : ascii) : list string :=
  match s with
  | EmptyString => [EmptyString]
  | String c rest =>
      if Ascii.eqb c sep then EmptyString :: Split rest sep
      else match Split rest sep with
           | piece :: pieces => String c piece :: pieces
           | [] => [String c EmptyString]
           end
  end.

(** [strings.Join(elems, sep)] *)
Definition Join (elems : list string) (sep : string) : string :=
  String.concat sep elems.

(** [s[lo:hi]] on a slice whose capacity is its length, as [strings.Split]
    returns it: [None] is the slice-bounds-out-of-range panic. *)
Definition slice {A} (l : list A) (lo hi : Z) : option (list A) :=
  if (0 <=? lo) && (lo <=? hi) && (hi <=? len l)
  then Some (take (Z.to_nat (hi - lo)) (drop (Z.to_nat lo) l))
  else None.

Section Program.
Context {C : Collaborators}.

(** [cmd.Output()] *)
Definition Output (c : Cmd) (w : World) : string * option error * World :=
  let '(r, w') := spawn c w in (stdout r, errOf (exit r), w').

(** [cmd.CombinedOutput()] *)
Definition CombinedOutput (c : Cmd) (w : World)
  : string * option error * World :=
  let '(r, w') := spawn c w in (combined r, errOf (exit r), w').

(** [cmd.Run()] on an [exec.Cmd] that has ([started]) or has not been
    started before.  [Start] refuses an object whose [Process] is set with
    the error "exec: already started", and nothing is spawned; otherwise the
    command is spawned, and [Process] is set unless the process could not
    be started.  The result is the error, whether the object is started
    now, and the world. *)
Definition Run (c : Cmd) (started : bool) (w : World)
  : option error * bool * World :=
  if started then (Some (ErrorString "exec: already started"), true, w)
  else
    let '(r, w') := spawn c w in
    (errOf (exit r),
     match exit r with Exited _ => true | NotStarted _ => false end,
     w').

(** ** Diff fetcher *)

(** The command [getDiff] builds for an entry. [git d] is the alias the
    README asks the user to define for showing a diff. *)
Definition diffCmd (f : fileEntry) : Cmd :=
  match status f with
  | Staged => Command "git" ["d"; "--staged"; name f]
  | Unstaged => Command "git" ["d"; name f]
  | PartiallyStaged => Command "git" ["d"; "HEAD"; name f]
  end.

Definition getDiff (f : fileEntry) (w : World) : string * World :=
  let '(out, err, w') := CombinedOutput (diffCmd f) w in
  match err with
  | Some e => ("Failed to show diff: " +:+ Error e, w')
  | None => (out, w')
  end.

(** ** Repository snapshot loader *)

(** The body of the [for _, line := range lines] loop; [None] would be the
    panic of [interpretGitStatus]. *)
Fixpoint loadLines (lines : list string) (acc : list fileEntry)
  : option (list fileEntry) :=
  match lines with
  | [] => Some acc
  | line :: rest =>
      if Z.of_nat (String.length line) <? 4 then loadLines rest acc
      else
        let status := substring 0 2 line in
        let filename := TrimSpace (substring 3 (String.length line - 3) line) in
        match interpretGitStatus status filename with
        | Some (stagingStatus, stageCmd, unstageCmd) =>
            loadLines rest
              (acc ++ [mkFileEntry filename stagingStatus stageCmd unstageCmd
                                   false false])
        | None => None
        end
  end.

Definition getGitChanges (w : World)
  : option (list fileEntry * option error * World) :=
  let checkCmd := Command "git" ["rev-parse"; "--is-inside-work-tree"] in
  let '(checkOutput, err, w1) := Output checkCmd w in
  if bool_decide (err <> None) || negb (TrimSpace checkOutput =? "true")%string
  then Some ([], Some (ErrorString "Not inside a git repository"), w1)
  else
    let cmd := Command "git" ["status"; "--porcelain"] in
    let '(out, err, w2) := Output cmd w1 in
    match err with
    | Some e => Some ([], Some e, w2)
    | None =>
        match loadLines (Split out LF) [] with
        | Some files => Some (files, None, w2)
        | None => None
        end
    end.

(** ** Interaction state machine *)

Definition lineCount (m : model) : Z := len (Split (diffContent m) LF).

Definition getMaxScroll (m : model) : Z :=
  let lines := lineCount m in
  if lines >? viewportHeight m then lines - viewportHeight m else 0.

Definition moveCursorUp (m : model) : model :=
  if cursor m >? 0
  then set_scrollOffset (set_cursor m (cursor m - 1)) 0
  else m.

Definition moveCursorDown (m : model) : model :=
  if cursor m <? len (files m) - 1
  then set_scrollOffset (set_cursor m (cursor m + 1)) 0
  else m.

(** [tea.Msg]: the two kinds of message [Update] looks at, and any other.
    A [KeyMsg] is represented by its [String()]. *)
Inductive Msg :=
| WindowSizeMsg (Width Height : Z)
| KeyMsg (key : string)
| OtherMsg.

(** [tea.Cmd]: [nil] or [tea.Quit]. *)
Inductive teaCmd := NoCmd | Quit.

(** The toggle of the entry under the cursor ([case " "] in browsing
    mode).  The error that [Run] returns is dropped. *)
Definition toggle (m : model) (w : World) : option (model * World) :=
  match index (files m) (cursor m) with
  | None => None
  | Some f =>
      match status f with
      | Staged =>
          let '(_, started, w') := Run (unstageCmd f) (unstageStarted f) w in
          Some (set_files m
                  (<[Z.to_nat (cursor m)
                     := set_status (set_unstageStarted f started) Unstaged]>
                     (files m)), w')
      | PartiallyStaged | Unstaged =>
          let '(_, started, w') := Run (stageCmd f) (stageStarted f) w in
          Some (set_files m
                  (<[Z.to_nat (cursor m)
                     := set_status (set_stageStarted f started) Staged]>
                     (files m)), w')
      end
  end.

(** The inner [switch msg.String()] for the keys other than the quit keys. *)
Definition handleKey (m : model) (key : string) (w : World)
  : option (model * World) :=
  if (key =? "up")%string then
    if diffMode m then
      if scrollOffset m >? 0
      then Some (set_scrollOffset m (scrollOffset m - 1), w)
      else Some (moveCursorUp m, w)
    else Some (moveCursorUp m, w)
  else if (key =? "down")%string then
    if diffMode m then
      if scrollOffset m <? getMaxScroll m
      then Some (set_scrollOffset m (scrollOffset m + 1), w)
      else Some (moveCursorDown m, w)
    else Some (moveCursorDown m, w)
  else if (key =? "pgdown")%string then
    if diffMode m then
      let maxScroll := getMaxScroll m in
      let newScrollOffset := scrollOffset m + viewportHeight m ÷ 2 in
      let newScrollOffset :=
        if newScrollOffset >? maxScroll then maxScroll else newScrollOffset in
      Some (set_scrollOffset m newScrollOffset, w)
    else Some (m, w)
  else if (key =? "pgup")%string then
    if diffMode m then
      let newScrollOffset := scrollOffset m - viewportHeight m ÷ 2 in
      let newScrollOffset :=
        if newScrollOffset <? 0 then 0 else newScrollOffset in
      Some (set_scrollOffset m newScrollOffset, w)
    else Some (m, w)
  else if (key =? " ")%string then
    if diffMode m then Some (m, w) else toggle m w
  else if (key =? "d")%string then
    Some (set_diffMode m (negb (diffMode m)), w)
  else if (key =? "g")%string then
    if diffMode m then Some (set_scrollOffset m 0, w) else Some (m, w)
  else if (key =? "G")%string then
    if diffMode m then Some (set_scrollOffset m (getMaxScroll m), w)
    else Some (m, w)
  else Some (m, w).

(** The statement after the inner [switch]: in diff mode the diff of the
    entry under the cursor is fetched again. *)
Definition refreshDiff (m : model) (w : World) : option (model * World) :=
  if diffMode m then
    match index (files m) (cursor m) with
    | Some f => let '(text, w') := getDiff f w in
                Some (set_diffContent m text, w')
    | None => None
    end
  else Some (m, w).

Definition Update (m : model) (msg : Msg) (w : World)
  : option (model * teaCmd * World) :=
  match msg with
  | WindowSizeMsg _ Height =>
      Some (set_viewportHeight m (Height - len (files m) - 1), NoCmd, w)
  | KeyMsg key =>
      if (key =? "ctrl+c")%string || (key =? "q")%string
      then Some (set_quitting m true, Quit, w)
      else
        match handleKey m key w with
        | Some (m1, w1) =>
            match refreshDiff m1 w1 with
            | Some (m2, w2) => Some (m2, NoCmd, w2)
            | None => None
            end
        | None => None
        end
  | OtherMsg => Some (m, NoCmd, w)
  end.

(** ** Renderer *)

Definition checkbox (s : StagingStatus) : string :=
  match s with
  | Staged => Render stagedStyle "[✓]"
  | PartiallyStaged => Render unstagedStyle "[~]"
  | Unstaged => Render unstagedStyle "[ ]"
  end.

Fixpoint viewRows (i : Z) (fs : list fileEntry) (cur : Z) : string :=
  match fs with
  | [] => ""
  | f :: rest =>
      let mark := if i =? cur then Render cursorStyle "> "
                  else Render cursorStyle "  " in
      mark +:+ checkbox (status f) +:+ " " +:+ name f +:+ String LF ""
        +:+ viewRows (i + 1) rest cur
  end.

(** The bounds of [lines[m.scrollOffset:end]] in [View]. *)
Definition visibleEnd (m : model) : Z :=
  let e := scrollOffset m + viewportHeight m in
  if e >? lineCount m then lineCount m else e.

Definition View (m : model) : option string :=
  if quitting m then Some ""
  else if diffMode m then
    let lines := Split (diffContent m) LF in
    match slice lines (scrollOffset m) (visibleEnd m) with
    | Some visibleLines =>
        Some (Join visibleLines (String LF "")
              +:+ String LF "↑/↓/PageUp/PageDown scroll ("
              +:+ showInt (visibleEnd m) +:+ "/" +:+ showInt (len lines)
              +:+ ")  g: top  G: bottom  d: back  q: quit" +:+ String LF "")
    | None => None
    end
  else
    Some (viewRows 0 (files m) (cursor m)
          +:+ String LF "↑/↓: navigate  space: toggle  d: diff  q: quit"
          +:+ String LF "").

(** ** The program *)

(** [model{files: files}]: every other field has its zero value. *)
Definition initialModel (fs : list fileEntry) : model :=
  mkModel fs 0 false false "" 0 0.

(** What [main] does before the event loop takes over: it writes to
    standard output and ends the process with an exit code, or it hands
    the initial model to [tea.NewProgram(m).Run()]. *)
Inductive Startup :=
| Exits (printed : string) (code : Z)
| EntersLoop (m : model).

Definition main (w : World) : option (Startup * World) :=
  match getGitChanges w with
  | None => None
  | Some (files, Some err, w') =>
      Some (Exits ("Error: " +:+ Error err +:+ String LF "") 1, w')
  | Some (files, None, w') =>
      if len files =? 0
      then Some (Exits ("No changes to stage or unstage." +:+ String LF "") 0,
                 w')
      else Some (EntersLoop (initialModel files), w')
  end.

(** The event loop of the terminal framework: each message goes through
    [Update]; the loop ends at [tea.Quit].  [None] is a panic. *)
Fixpoint run (m : model) (msgs : list Msg) (w : World)
  : option (model * World) :=
  match msgs with
  | [] => Some (m, w)
  | msg :: rest =>
      match Update m msg w with
      | Some (m', Quit, w') => Some (m', w')
      | Some (m', NoCmd, w') => run m' rest w'
      | None => None
      end
  end.

End Program.

(** The loop as the terminal sees it: after each message the new model is
    drawn by [View].  One entry per message processed; [None] marks the
    message at which [Update] or [View] panicked, which ends the run. *)
Fixpoint runFrames {C : Collaborators} (m : model) (msgs : list Msg)
    (w : World) : list (option string) :=
  match msgs with
  | [] => []
  | msg :: rest =>
      match Update m msg w with
      | Some (m', cmd, w') =>
          match View m', cmd with
          | Some frame, NoCmd => Some frame :: runFrames m' rest w'
          | Some frame, Quit => [Some frame]
          | None, _ => [None]
          end
      | None => [None]
      end
  end.

(** ** The first revision of [main.go]

    The file list without a diff viewer: three fields, and a cursor that
    wraps around at both ends. *)
Module Legacy.

Record model := mkModel {
  files : list fileEntry;
  cursor : Z;
  quitting : bool
}.

Definition Update {C : Collaborators} (m : model) (msg : Msg) (w : World)
  : option (model * teaCmd * World) :=
  match msg with
  | KeyMsg key =>
      if (key =? "ctrl+c")%string || (key =? "q")%string
      then Some (mkModel (files m) (cursor m) true, Quit, w)
      else if (key =? "up")%string then
        if cursor m >? 0
        then Some (mkModel (files m) (cursor m - 1) (quitting m), NoCmd, w)
        else Some (mkModel (files m) (len (files m) - 1) (quitting m),
                   NoCmd, w)
      else if (key =? "down")%string then
        if cursor m <? len (files m) - 1
        then Some (mkModel (files m) (cursor m + 1) (quitting m), NoCmd, w)
        else Some (mkModel (files m) 0 (quitting m), NoCmd, w)
      else if (key =? " ")%string then
        match index (files m) (cursor m) with
        | None => None
        | Some f =>
            match status f with
            | Staged =>
                let '(_, started, w') :=
                  Run (unstageCmd f) (unstageStarted f) w in
                Some (mkModel
                        (<[Z.to_nat (cursor m)
                           := set_status (set_unstageStarted f started)
                                         Unstaged]> (files m))
                        (cursor m) (quitting m),
                      NoCmd, w')
            | PartiallyStaged | Unstaged =>
                let '(_, started, w') := Run (stageCmd f) (stageStarted f) w in
                Some (mkModel
                        (<[Z.to_nat (cursor m)
                           := set_status (set_stageStarted f started) Staged]>
                           (files m))
                        (cursor m) (quitting m),
                      NoCmd, w')
            end
        end
      else Some (m, NoCmd, w)
  | _ => Some (m, NoCmd, w)
  end.

End Legacy.

(** ** Scripted collaborators

    Concrete worlds on which the program can be run inside Rocq.  The world
    is the log of the commands spawned so far; what a command returns is
    given by a script. *)

Definition isAsciiSpace (c : ascii) : bool :=
  let n := Ascii.nat_of_ascii c in
  ((9 <=? n) && (n <=? 13))%nat || (n =? 32)%nat.

Fixpoint trimLeft (s : string) : string :=
  match s with
  | String c rest => if isAsciiSpace c then trimLeft rest else s
  | EmptyString => EmptyString
  end.

Fixpoint trimRight (s : string) : string :=
  match s with
  | String c rest =>
      match trimRight rest with
      | EmptyString => if isAsciiSpace c then EmptyString
                       else String c EmptyString
      | kept => String c kept
      end
  | EmptyString => EmptyString
  end.

(** [strings.TrimSpace] on strings of ASCII bytes. *)
Definition trimSpaceASCII (s : string) : string := trimRight (trimLeft s).

Definition scripted (respond : Cmd -> Completed) : Collaborators :=
  {| World := list Cmd;
     spawn := fun c w => (respond c, w ++ [c]);
     TrimSpace := trimSpaceASCII;
     Render := fun _ text => text |}.

Definition line (s : string) : string := s +:+ String LF "".

(** A text of [S n] lines. *)
Fixpoint textOfLines (n : nat) : string :=
  match n with
  | O => "+"
  | S k => line "+" +:+ textOfLines k
  end.

Definition succeeds (out : string) : Completed := mkCompleted out out (Exited 0).
Definition fails (code : Z) : Completed :=
  mkCompleted "" "fatal" (Exited code).

(** A repository with four changed paths.  The diff of a path is 30 lines
    long while it is unstaged and 3 lines long once it is staged. *)
Definition demoRepo (c : Cmd) : Completed :=
  match c with
  | Command prog [a; b] =>
      if (a =? "rev-parse")%string then succeeds (line "true")
      else if (a =? "status")%string then
        succeeds (line "?? newfile.txt" +:+ line " M changed.txt"
                  +:+ line "A  added.txt" +:+ line "AM addedmod.txt")
      else if (a =? "d")%string then succeeds (textOfLines 29)
      else succeeds ""
  | Command prog [a; b; c] =>
      if (a =? "d")%string then
        if (b =? "--staged")%string then succeeds (textOfLines 2)
        else succeeds (textOfLines 39)
      else succeeds ""
  | _ => fails 1
  end.

(** Outside of any working tree, or with a repository that cannot be
    used: every command exits with code 128. *)
Definition noRepo (c : Cmd) : Completed := fails 128.

(** A working tree without changes: the status query prints nothing. *)
Definition cleanRepo (c : Cmd) : Completed :=
  match c with
  | Command prog (a :: _) =>
      if (a =? "rev-parse")%string then succeeds (line "true")
      else succeeds ""
  | _ => succeeds ""
  end.

(** A repository in which every diff is five lines long. *)
Definition shortDiffs (c : Cmd) : Completed := succeeds (textOfLines 4).

Definition entry (xy filename : string) : fileEntry :=
  let '(st, stage, unstage) :=
    interpretXY (default " "%char (String.get 0 xy))
                (default " "%char (String.get 1 xy)) filename in
  mkFileEntry filename st stage unstage false false.

Definition demoFiles : list fileEntry :=
  [ entry "??" "newfile.txt"; entry " M" "changed.txt";
    entry "A " "added.txt"; entry "AM" "addedmod.txt" ].

Definition sixFiles : list fileEntry :=
  [ entry " M" "a"; entry " M" "b"; entry " M" "c";
    entry " M" "d"; entry " M" "e"; entry " M" "f" ].

(** ** Vocabulary of the statements *)

(** What a toggle makes of a classification, and the command it runs. *)
Definition toggled (s : StagingStatus) : StagingStatus :=
  match s with
  | Staged => Unstaged
  | PartiallyStaged | Unstaged => Staged
  end.

Definition toggleCmd (f : fileEntry) : Cmd :=
  match status f with
  | Staged => unstageCmd f
  | PartiallyStaged | Unstaged => stageCmd f
  end.

(** Whether the command a toggle runs has been started before, and the
    entry after the toggle, given whether the command is started then. *)
Definition toggleStarted (f : fileEntry) : bool :=
  match status f with
  | Staged => unstageStarted f
  | PartiallyStaged | Unstaged => stageStarted f
  end.

Definition afterToggle (f : fileEntry) (started : bool) : fileEntry :=
  match status f with
  | Staged => set_status (set_unstageStarted f started) Unstaged
  | PartiallyStaged | Unstaged =>
      set_status (set_stageStarted f started) Staged
  end.

(** What [Run] leaves behind: whether the command object is started, and
    the world. *)
Definition startedAfterRun {C : Collaborators} (c : Cmd) (started : bool)
    (w : World) : bool := snd (fst (Run c started w)).
Definition worldAfterRun {C : Collaborators} (c : Cmd) (started : bool)
    (w : World) : World := snd (Run c started w).

(** [n] presses of one key. *)
Definition presses (key : string) (n : nat) : list Msg := repeat (KeyMsg key) n.

(** The scroll events of the diff viewer. *)
Definition scrollKey (key : string) : Prop :=
  key ∈ ["up"; "down"; "pgup"; "pgdown"; "g"; "G"].

(** [scrollOffset] lies in [[0, maxScroll]]. *)
Definition clamped {C : Collaborators} (m : model) : Prop :=
  0 <= scrollOffset m <= getMaxScroll m.

(** The model shows, in diff mode, the diff [diffOf] assigns to the entry
    under its cursor. *)
Definition showsDiff (diffOf : fileEntry -> string) (m : model) : Prop :=
  diffMode m = true /\
  exists f, index (files m) (cursor m) = Some f /\ diffContent m = diffOf f.

(** The fetch of the diff that ends [Update] on a key returns the text
    [diffOf] gives for the entry whose diff is fetched.  Nothing is asked
    of a key after which no diff is fetched. *)
Definition fetchReturns {C : Collaborators} (diffOf : fileEntry -> string)
    (m : model) (key : string) (w : World) : Prop :=
  if (key =? "ctrl+c")%string || (key =? "q")%string then True
  else
    match handleKey m key w with
    | Some (m1, w1) =>
        if diffMode m1 then
          match index (files m1) (cursor m1) with
          | Some f => fst (getDiff f w1) = diffOf f
          | None => True
          end
        else True
    | None => True
    end.

(** The same of every fetch of the run of [keys] from [m] in [w]. *)
Fixpoint everyFetchReturns {C : Collaborators}
    (diffOf : fileEntry -> string) (m : model) (keys : list string)
    (w : World) : Prop :=
  match keys with
  | [] => True
  | key :: rest =>
      fetchReturns diffOf m key w
      /\ match Update m (KeyMsg key) w with
         | Some (m', _, w') => everyFetchReturns diffOf m' rest w'
         | None => True
         end
  end.

(** The world after the commands [cs] have been spawned in turn. *)
Definition spawnAll {C : Collaborators} (cs : list Cmd) (w : World) : World :=
  fold_left (fun w c => snd (spawn c w)) cs w.

(** The third row of the table: both sides dirty. *)
Definition genericDirtyRow : tableRow :=
  mkRow NonSpace NonSpace PartiallyStaged AddFile RevertIndexToHEAD.

(** The two commands of the loader. *)
Definition checkCmd : Cmd :=
  Command "git" ["rev-parse"; "--is-inside-work-tree"].
Definition statusCmd : Cmd := Command "git" ["status"; "--porcelain"].

(** Whether a frame was drawn. *)
Definition drawn (frame : option string) : bool :=
  match frame with Some _ => true | None => false end.

(** ** The revision between the first and the latest

    [src/unnamed/part_000]: the diff viewer without scrolling.  The model
    has no [scrollOffset] and no [viewportHeight]; the diff is fetched again
    after every message that does not quit, whatever its type; [View] shows
    the text as it is. *)
Module Interim.

Record model := mkModel {
  files : list fileEntry;
  cursor : Z;
  quitting : bool;
  diffMode : bool;
  diffContent : string
}.

Section Program.
Context {C : Collaborators}.

(** The inner [switch msg.String()] for the keys other than the quit keys. *)
Definition handleKey (m : model) (key : string) (w : World)
  : option (model * World) :=
  if (key =? "up")%string then
    if cursor m >? 0
    then Some (mkModel (files m) (cursor m - 1) (quitting m) (diffMode m)
                       (diffContent m), w)
    else Some (m, w)
  else if (key =? "down")%string then
    if cursor m <? len (files m) - 1
    then Some (mkModel (files m) (cursor m + 1) (quitting m) (diffMode m)
                       (diffContent m), w)
    else Some (m, w)
  else if (key =? " ")%string then
    if diffMode m then Some (m, w)
    else
      match index (files m) (cursor m) with
      | None => None
      | Some f =>
          match status f with
          | Staged =>
              let '(_, started, w') :=
                Run (unstageCmd f) (unstageStarted f) w in
              Some (mkModel
                      (<[Z.to_nat (cursor m)
                         := set_status (set_unstageStarted f started)
                                       Unstaged]> (files m))
                      (cursor m) (quitting m) (diffMode m)
                      (diffContent m), w')
          | PartiallyStaged | Unstaged =>
              let '(_, started, w') := Run (stageCmd f) (stageStarted f) w in
              Some (mkModel
                      (<[Z.to_nat (cursor m)
                         := set_status (set_stageStarted f started) Staged]>
                         (files m))
                      (cursor m) (quitting m) (diffMode m)
                      (diffContent m), w')
          end
      end
  else if (key =? "d")%string then
    Some (mkModel (files m) (cursor m) (quitting m) (negb (diffMode m))
                  (diffContent m), w)
  else Some (m, w).

(** The statement after the outer [switch]. *)
Definition refreshDiff (m : model) (w : World) : option (model * World) :=
  if diffMode m then
    match index (files m) (cursor m) with
    | Some f => let '(text, w') := getDiff f w in
                Some (mkModel (files m) (cursor m) (quitting m) (diffMode m)
                              text, w')
    | None => None
    end
  else Some (m, w).

(** [return m, nil] after the refresh. *)
Definition afterSwitch (m : model) (w : World)
  : option (model * teaCmd * World) :=
  match refreshDiff m w with
  | Some (m', w') => Some (m', NoCmd, w')
  | None => None
  end.

Definition Update (m : model) (msg : Msg) (w : World)
  : option (model * teaCmd * World) :=
  match msg with
  | KeyMsg key =>
      if (key =? "ctrl+c")%string || (key =? "q")%string
      then Some (mkModel (files m) (cursor m) true (diffMode m)
                         (diffContent m), Quit, w)
      else
        match handleKey m key w with
        | Some (m1, w1) => afterSwitch m1 w1
        | None => None
        end
  | _ => afterSwitch m w
  end.

Definition View (m : model) : string :=
  if quitting m then ""
  else if diffMode m then diffContent m
  else viewRows 0 (files m) (cursor m)
       +:+ String LF "↑/↓: navigate space: toggle d: diff q: quit"
       +:+ String LF "".

End Program.

End Interim.

(** ** Vocabulary of the further properties *)

(** The entry the loader makes of one status line of at least four bytes. *)
Definition entryOfLine {C : Collaborators} (l : string) : fileEntry :=
  let filename := TrimSpace (substring 3 (String.length l - 3) l) in
  let '(st, stage, unstage) :=
    interpretXY (default " "%char (String.get 0 l))
                (default " "%char (String.get 1 l)) filename in
  mkFileEntry filename st stage unstage false false.

(** [len(line) >= 4]: the lines the loader does not skip. *)
Definition longEnough (l : string) : bool :=
  negb (Z.of_nat (String.length l) <? 4).

(** A sequence of messages through the [Update] of the first revision. *)
Fixpoint legacyRun {C : Collaborators} (m : Legacy.model) (msgs : list Msg)
    (w : World) : option (Legacy.model * World) :=
  match msgs with
  | [] => Some (m, w)
  | msg :: rest =>
      match Legacy.Update m msg w with
      | Some (m', Quit, w') => Some (m', w')
      | Some (m', NoCmd, w') => legacyRun m' rest w'
      | None => None
      end
  end.

(** A working tree whose status query fails with exit code 128 (a
    corrupt index, say); the check passes. *)
Definition brokenIndex (c : Cmd) : Completed :=
  match c with
  | Command prog (a :: _) =>
      if (a =? "rev-parse")%string then succeeds (line "true")
      else fails 128
  | _ => fails 128
  end.

(** Two entries with the same name and the same two commands: they differ
    at most in their classification and in whether the commands have been
    started. *)
Definition sameButStatus (f g : fileEntry) : Prop :=
  name f = name g /\ stageCmd f = stageCmd g /\ unstageCmd f = unstageCmd g.

(** The keys [Update] has a case for. *)
Definition boundKeys : list string :=
  ["ctrl+c"; "q"; "up"; "down"; "pgdown"; "pgup"; " "; "d"; "g"; "G"].

(** The part of a model of the latest revision that the interim revision
    has too. *)
Definition forget (m : model) : Interim.model :=
  Interim.mkModel (files m) (cursor m) (quitting m) (diffMode m)
                  (diffContent m).

Definition forgetResult {C : Collaborators}
    (r : option (model * teaCmd * World))
  : option (Interim.model * teaCmd * World) :=
  match r with
  | Some (m, cmd, w) => Some (forget m, cmd, w)
  | None => None
  end.

(** The part of a model of the interim revision that the first revision
    has too. *)
Definition forgetDiff (m : Interim.model) : Legacy.model :=
  Legacy.mkModel (Interim.files m) (Interim.cursor m) (Interim.quitting m).

Definition forgetDiffResult {C : Collaborators}
    (r : option (Interim.model * teaCmd * World))
  : option (Legacy.model * teaCmd * World) :=
  match r with
  | Some (m, cmd, w) => Some (forgetDiff m, cmd, w)
  | None => None
  end.

(** The two commands of an entry act on the entry's own path. *)
Definition commandsNameEntry (f : fileEntry) : Prop :=
  stageCmd f = git_add (name f)
  /\ (unstageCmd f = git_rm_cached (name f)
      \/ unstageCmd f = git_restore_staged (name f)).

(** * Properties *)

(** ** Basic facts about the embedding *)

Lemma len_nonneg {A} (l : list A) : 0 <= len l.
Proof. unfold len. lia. Qed.

Lemma index_Some {A} (l : list A) (i : Z) (a : A) :
  index l i = Some a -> 0 <= i < len l.
Proof.
  unfold index, len. destruct (Z.leb_spec 0 i) as [Hi|Hi]; [|discriminate].
  intros Hl. apply lookup_lt_Some in Hl. lia.
Qed.

Lemma index_in_range {A} (l : list A) (i : Z) :
  0 <= i < len l -> exists a, index l i = Some a.
Proof.
  unfold index, len. intros Hi.
  destruct (Z.leb_spec 0 i) as [_|Hneg]; [|lia].
  destruct (lookup_lt_is_Some_2 l (Z.to_nat i)) as [a Ha]; [lia|].
  exists a. exact Ha.
Qed.

Lemma index_insert_same {A} (l : list A) (i : Z) (a b : A) :
  index l i = Some a -> index (<[Z.to_nat i := b]> l) i = Some b.
Proof.
  intros Hi. pose proof (index_Some _ _ _ Hi) as Hr.
  unfold index, len in *. destruct (Z.leb_spec 0 i); [|lia].
  apply list_lookup_insert_eq. lia.
Qed.

Lemma Split_nonempty (s : string) (sep : ascii) : (1 <= length (Split s sep))%nat.
Proof.
  induction s as [|c s IH]; simpl; [lia|].
  destruct (Ascii.eqb c sep); simpl; [lia|].
  destruct (Split s sep); simpl in *; lia.
Qed.

Section Facts.
Context {C : Collaborators}.

Lemma lineCount_pos (m : model) : 1 <= lineCount m.
Proof.
  unfold lineCount, len. pose proof (Split_nonempty (diffContent m) LF). lia.
Qed.

(** [getMaxScroll] is the [max(0, totalLines - viewportHeight)] of the
    specification. *)
Lemma getMaxScroll_max (m : model) :
  getMaxScroll m = Z.max 0 (lineCount m - viewportHeight m).
Proof.
  unfold getMaxScroll. destruct (Z.gtb_spec (lineCount m) (viewportHeight m)); lia.
Qed.

Lemma getMaxScroll_nonneg (m : model) : 0 <= getMaxScroll m.
Proof. rewrite getMaxScroll_max. lia. Qed.

End Facts.

(** ** C1: the status interpreter and the decision table *)

(** C1. For every pair of bytes [x], [y] and every file name,
    [interpretGitStatus] returns (it does not panic) the classification and
    the stage and unstage commands of the first row of the decision table of
    section 4.1 that applies to [(x, y)]; the only pair to which no row
    applies is two spaces.  The rows for ["??"] and for ['A'] followed by a
    non-space byte come before the generic row for two non-space bytes: a
    code that starts with ['A'] always unstages by removing the path from
    the index; ["AM"] is PartiallyStaged and ["A "] is Staged, both with
    [git rm --cached] as the unstage command.  The generic row applies to
    ["AM"] and to ["??"] as well, and is not the one taken. *)
Theorem interpretGitStatus_matches_table (x y : ascii) (filename : string) :
  match firstRow decisionTable x y with
  | Some r =>
      interpretGitStatus (String x (String y "")) filename
        = Some (realise r filename)
  | None => x = " "%char /\ y = " "%char
  end
  /\ interpretGitStatus "??" filename
     = Some (Unstaged, git_add filename, git_rm_cached filename)
  /\ interpretGitStatus (String "A" (String y "")) filename
     = Some (if Ascii.eqb y " " then Staged else PartiallyStaged,
             git_add filename, git_rm_cached filename)
  /\ interpretGitStatus "AM" filename
     = Some (PartiallyStaged, invocation AddFile filename,
             invocation RemoveFromIndex filename)
  /\ interpretGitStatus "A " filename
     = Some (Staged, invocation AddFile filename,
             invocation RemoveFromIndex filename)
  /\ matches (row_x genericDirtyRow) "A" && matches (row_y genericDirtyRow) "M"
     = true
  /\ matches (row_x genericDirtyRow) "?" && matches (row_y genericDirtyRow) "?"
     = true
  /\ interpretGitStatus "AM" filename <> Some (realise genericDirtyRow filename)
  /\ interpretGitStatus "??" filename <> Some (realise genericDirtyRow filename).
Proof.
  repeat split; try reflexivity; try discriminate.
  - unfold interpretGitStatus, interpretXY, realise, neqb. cbn.
    unfold neqb.
    destruct (Ascii.eqb_spec x "?") as [Hxq|Hxq];
      destruct (Ascii.eqb_spec y "?") as [Hyq|Hyq];
      destruct (Ascii.eqb_spec x "A") as [HxA|HxA];
      destruct (Ascii.eqb_spec y " ") as [Hys|Hys];
      destruct (Ascii.eqb_spec x " ") as [Hxs|Hxs];
      cbn; try reflexivity; try (split; assumption);
      exfalso; congruence.
  - unfold interpretGitStatus, interpretXY, neqb. cbn.
    destruct (Ascii.eqb_spec y " ") as [->|Hys]; cbn; reflexivity.
Qed.

(** ** C2: cursor navigation *)

Section Cursor.
Context {C : Collaborators}.

Lemma Update_up_browsing (m : model) (w : World) :
  diffMode m = false ->
  Update m (KeyMsg "up") w = Some (moveCursorUp m, NoCmd, w).
Proof.
  intros Hb. unfold Update, handleKey. cbn. rewrite Hb.
  unfold refreshDiff, moveCursorUp.
  destruct (cursor m >? 0); cbn; rewrite Hb; reflexivity.
Qed.

Lemma Update_down_browsing (m : model) (w : World) :
  diffMode m = false ->
  Update m (KeyMsg "down") w = Some (moveCursorDown m, NoCmd, w).
Proof.
  intros Hb. unfold Update, handleKey. cbn. rewrite Hb.
  unfold refreshDiff, moveCursorDown.
  destruct (cursor m <? len (files m) - 1); cbn; rewrite Hb; reflexivity.
Qed.

Lemma moveCursorUp_cursor (m : model) :
  0 <= cursor m -> cursor (moveCursorUp m) = Z.max 0 (cursor m - 1).
Proof.
  intros H. unfold moveCursorUp.
  destruct (Z.gtb_spec (cursor m) 0); cbn; lia.
Qed.

Lemma moveCursorDown_cursor (m : model) :
  cursor m < len (files m) ->
  cursor (moveCursorDown m) = Z.min (len (files m) - 1) (cursor m + 1).
Proof.
  intros H. unfold moveCursorDown.
  destruct (Z.ltb_spec (cursor m) (len (files m) - 1)); cbn; lia.
Qed.

Lemma moveCursorUp_keeps (m : model) :
  files (moveCursorUp m) = files m /\ diffMode (moveCursorUp m) = diffMode m.
Proof. unfold moveCursorUp. destruct (cursor m >? 0); split; reflexivity. Qed.

Lemma moveCursorDown_keeps (m : model) :
  files (moveCursorDown m) = files m
  /\ diffMode (moveCursorDown m) = diffMode m.
Proof.
  unfold moveCursorDown.
  destruct (cursor m <? len (files m) - 1); split; reflexivity.
Qed.

(** [k] presses of "up" in browsing mode walk the cursor towards index 0
    and leave it there. *)
Lemma run_ups (k : nat) : forall (m : model) (w : World),
  diffMode m = false -> 0 <= cursor m ->
  exists m', run m (presses "up" k) w = Some (m', w)
    /\ cursor m' = Z.max 0 (cursor m - Z.of_nat k)
    /\ files m' = files m /\ diffMode m' = false.
Proof.
  induction k as [|k IH]; intros m w Hb Hc.
  - exists m. cbn. repeat split; [lia | assumption].
  - unfold presses. cbn [repeat run]. rewrite (Update_up_browsing m w Hb).
    destruct (moveCursorUp_keeps m) as [Hf Hd].
    pose proof (moveCursorUp_cursor m Hc) as Hcur.
    destruct (IH (moveCursorUp m) w) as (m' & Hrun & Hc' & Hf' & Hd').
    { congruence. } { lia. }
    exists m'. repeat split; [exact Hrun | lia | congruence | assumption].
Qed.

Lemma run_downs (k : nat) : forall (m : model) (w : World),
  diffMode m = false -> cursor m < len (files m) ->
  exists m', run m (presses "down" k) w = Some (m', w)
    /\ cursor m' = Z.min (len (files m) - 1) (cursor m + Z.of_nat k)
    /\ files m' = files m /\ diffMode m' = false.
Proof.
  induction k as [|k IH]; intros m w Hb Hc.
  - exists m. cbn. repeat split; [lia | assumption].
  - unfold presses. cbn [repeat run]. rewrite (Update_down_browsing m w Hb).
    destruct (moveCursorDown_keeps m) as [Hf Hd].
    pose proof (moveCursorDown_cursor m Hc) as Hcur.
    destruct (IH (moveCursorDown m) w) as (m' & Hrun & Hc' & Hf' & Hd').
    { congruence. } { rewrite Hf. lia. }
    exists m'. rewrite Hf in Hc'.
    repeat split; [exact Hrun | lia | congruence | assumption].
Qed.

End Cursor.

(** C2, as the code has it. In browsing mode, with [N >= 1] entries and the
    cursor at [c], [0 <= c < N]: "up" moves the cursor to [c - 1] and stops
    at index 0; "down" moves it to [c + 1] and stops at index [N - 1]; there
    is no wrap-around.  [N] presses of "up" end at index 0 and [N] presses
    of "down" at index [N - 1], whatever the starting index; when [N = 1]
    both are the starting index. *)
Theorem cursor_stops_at_both_ends {C : Collaborators} (m : model) (w : World) :
  diffMode m = false ->
  0 <= cursor m < len (files m) ->
  (exists m', Update m (KeyMsg "up") w = Some (m', NoCmd, w)
     /\ cursor m' = (if cursor m =? 0 then 0 else cursor m - 1))
  /\ (exists m', Update m (KeyMsg "down") w = Some (m', NoCmd, w)
     /\ cursor m' = (if cursor m =? len (files m) - 1 then len (files m) - 1
                     else cursor m + 1))
  /\ (exists m', run m (presses "up" (length (files m))) w = Some (m', w)
     /\ cursor m' = 0)
  /\ (exists m', run m (presses "down" (length (files m))) w = Some (m', w)
     /\ cursor m' = len (files m) - 1)
  /\ (len (files m) = 1 ->
      (exists m', run m (presses "up" (length (files m))) w = Some (m', w)
         /\ cursor m' = cursor m)
      /\ (exists m', run m (presses "down" (length (files m))) w = Some (m', w)
         /\ cursor m' = cursor m)).
Proof.
  intros Hb Hc.
  destruct (run_ups (length (files m)) m w Hb) as (mu & Hru & Hcu & _);
    [lia|].
  destruct (run_downs (length (files m)) m w Hb) as (md & Hrd & Hcd & _);
    [lia|].
  split; [|split; [|split; [|split; [|intros HN; split]]]].
  - exists (moveCursorUp m). split; [apply Update_up_browsing, Hb|].
    rewrite moveCursorUp_cursor by lia.
    destruct (Z.eqb_spec (cursor m) 0); lia.
  - exists (moveCursorDown m). split; [apply Update_down_browsing, Hb|].
    rewrite moveCursorDown_cursor by lia.
    destruct (Z.eqb_spec (cursor m) (len (files m) - 1)); lia.
  - exists mu. split; [exact Hru|]. unfold len in *. lia.
  - exists md. split; [exact Hrd|]. unfold len in *. lia.
  - exists mu. split; [exact Hru|]. unfold len in *. lia.
  - exists md. split; [exact Hrd|]. unfold len in *. lia.
Qed.

Lemma cursor_stops_at_both_ends_witness :
  exists m', run (C := scripted demoRepo) (set_cursor (initialModel demoFiles) 2)
               (presses "up" 4) [] = Some (m', []) /\ cursor m' = 0.
Proof.
  apply (cursor_stops_at_both_ends (C := scripted demoRepo)
           (set_cursor (initialModel demoFiles) 2) []).
  - reflexivity.
  - vm_compute. split; discriminate || reflexivity.
Defined.

(** C2, as the specification states it, fails: with four entries, "up" at
    index 0 leaves the cursor at 0, not at [(0 - 1) mod 4 = 3]; "down" at
    index 3 leaves it at 3, not at 0; and four presses of "up" from index 2
    end at index 0. *)
Lemma cursor_does_not_wrap :
  let m0 := initialModel demoFiles in
  let m3 := set_cursor (initialModel demoFiles) 3 in
  let m2 := set_cursor (initialModel demoFiles) 2 in
  len (files m0) = 4
  /\ (cursor m0 - 1) mod len (files m0) = 3
  /\ Update (C := scripted demoRepo) m0 (KeyMsg "up") [] = Some (m0, NoCmd, [])
  /\ (cursor m3 + 1) mod len (files m3) = 0
  /\ Update (C := scripted demoRepo) m3 (KeyMsg "down") []
     = Some (m3, NoCmd, [])
  /\ run (C := scripted demoRepo) m2 (presses "up" 4) [] = Some (m0, []).
Proof. vm_compute. repeat split. Qed.

(** In the first revision of the file, without a diff viewer, the cursor
    did wrap around. *)
Lemma legacy_cursor_wraps {C : Collaborators} (m : Legacy.model) (w : World) :
  0 <= Legacy.cursor m < len (Legacy.files m) ->
  (exists m', Legacy.Update m (KeyMsg "up") w = Some (m', NoCmd, w)
     /\ Legacy.cursor m' = (Legacy.cursor m - 1) mod len (Legacy.files m))
  /\ (exists m', Legacy.Update m (KeyMsg "down") w = Some (m', NoCmd, w)
     /\ Legacy.cursor m' = (Legacy.cursor m + 1) mod len (Legacy.files m)).
Proof.
  intros Hc. split; unfold Legacy.Update; cbn.
  - destruct (Z.gtb_spec (Legacy.cursor m) 0) as [Hpos|Hzero];
      eexists; (split; [reflexivity|]); cbn.
    + rewrite Z.mod_small; lia.
    + replace (Legacy.cursor m) with 0 by lia.
      replace (0 - 1) with (-1 * len (Legacy.files m)
                            + (len (Legacy.files m) - 1)) by lia.
      rewrite Z.add_comm, Z.mod_add by lia. rewrite Z.mod_small; lia.
  - destruct (Z.ltb_spec (Legacy.cursor m) (len (Legacy.files m) - 1))
      as [Hlt|Hlast]; eexists; (split; [reflexivity|]); cbn.
    + rewrite Z.mod_small; lia.
    + replace (Legacy.cursor m + 1) with (len (Legacy.files m)) by lia.
      rewrite Z.mod_same; lia.
Qed.

(** ** C3: the toggle *)

Section Toggle.
Context {C : Collaborators}.

Lemma worldAfterRun_started (c : Cmd) (w : World) :
  worldAfterRun c true w = w.
Proof. reflexivity. Qed.

Lemma worldAfterRun_fresh (c : Cmd) (w : World) :
  worldAfterRun c false w = snd (spawn c w).
Proof. unfold worldAfterRun, Run. destruct (spawn c w). reflexivity. Qed.

Lemma startedAfterRun_started (c : Cmd) (w : World) :
  startedAfterRun c true w = true.
Proof. reflexivity. Qed.

Lemma startedAfterRun_fresh (c : Cmd) (w : World) (code : Z) :
  exit (fst (spawn c w)) = Exited code -> startedAfterRun c false w = true.
Proof.
  unfold startedAfterRun, Run. destruct (spawn c w) as [r w']. cbn.
  intros ->. reflexivity.
Qed.

Lemma afterToggle_status (f : fileEntry) (started : bool) :
  status (afterToggle f started) = toggled (status f).
Proof. unfold afterToggle, toggled. destruct (status f); reflexivity. Qed.

Lemma afterToggle_same (f : fileEntry) (started : bool) :
  sameButStatus f (afterToggle f started).
Proof.
  unfold sameButStatus, afterToggle. destruct (status f); repeat split.
Qed.

Lemma toggle_spec (m : model) (w : World) (f : fileEntry) :
  index (files m) (cursor m) = Some f ->
  toggle m w
  = Some (set_files m
            (<[Z.to_nat (cursor m)
               := afterToggle f
                    (startedAfterRun (toggleCmd f) (toggleStarted f) w)]>
               (files m)),
          worldAfterRun (toggleCmd f) (toggleStarted f) w).
Proof.
  intros Hf. unfold toggle, toggleCmd, toggleStarted, afterToggle,
    startedAfterRun, worldAfterRun. rewrite Hf.
  destruct (status f);
    match goal with |- context [Run ?c ?b w] => destruct (Run c b w) as [[e b'] w'] end;
    reflexivity.
Qed.

Lemma Update_space_browsing (m : model) (w : World) (f : fileEntry) :
  diffMode m = false ->
  index (files m) (cursor m) = Some f ->
  Update m (KeyMsg " ") w
  = Some (set_files m
            (<[Z.to_nat (cursor m)
               := afterToggle f
                    (startedAfterRun (toggleCmd f) (toggleStarted f) w)]>
               (files m)),
          NoCmd, worldAfterRun (toggleCmd f) (toggleStarted f) w).
Proof.
  intros Hb Hf. unfold Update, handleKey. cbn. rewrite Hb.
  rewrite (toggle_spec m w f Hf). unfold refreshDiff. cbn. rewrite Hb.
  reflexivity.
Qed.

Lemma toggled_twice (s : StagingStatus) :
  toggled s = Staged \/ toggled s = Unstaged.
Proof. destruct s; cbn; auto. Qed.

Lemma iter_toggled (n : nat) (s : StagingStatus) :
  Nat.iter n toggled (toggled s) = Staged
  \/ Nat.iter n toggled (toggled s) = Unstaged.
Proof.
  induction n as [|n IH].
  - apply toggled_twice.
  - rewrite Nat.iter_succ. destruct IH as [-> | ->]; cbn; auto.
Qed.

Lemma iter_toggled_shift (n : nat) (s : StagingStatus) :
  Nat.iter n toggled (toggled s) = toggled (Nat.iter n toggled s).
Proof.
  induction n as [|n IH]; [reflexivity|].
  rewrite !Nat.iter_succ. congruence.
Qed.

(** [S n] toggles of the entry under the cursor. *)
Lemma run_toggles (n : nat) : forall (m : model) (w : World) (f : fileEntry),
  diffMode m = false ->
  index (files m) (cursor m) = Some f ->
  exists m' w' f',
    run m (presses " " (S n)) w = Some (m', w')
    /\ diffMode m' = false /\ cursor m' = cursor m
    /\ index (files m') (cursor m') = Some f'
    /\ name f' = name f
    /\ status f' = Nat.iter n toggled (toggled (status f)).
Proof.
  induction n as [|n IH]; intros m w f Hb Hf.
  - unfold presses. cbn [repeat run].
    rewrite (Update_space_browsing m w f Hb Hf).
    eexists _, _, _.
    split; [reflexivity|]. cbn.
    split; [assumption|]. split; [reflexivity|].
    split; [apply (index_insert_same _ _ f), Hf|].
    split; [symmetry; apply afterToggle_same | apply afterToggle_status].
  - unfold presses. cbn [repeat run].
    rewrite (Update_space_browsing m w f Hb Hf).
    set (f1 := afterToggle f
                 (startedAfterRun (toggleCmd f) (toggleStarted f) w)).
    destruct (IH (set_files m (<[Z.to_nat (cursor m) := f1]> (files m)))
                 (worldAfterRun (toggleCmd f) (toggleStarted f) w) f1)
      as (m' & w' & f' & Hrun & Hb' & Hc' & Hf' & Hn' & Hs').
    { exact Hb. }
    { cbn. apply (index_insert_same _ _ f), Hf. }
    exists m', w', f'. split; [exact Hrun|].
    split; [assumption|]. split; [assumption|]. split; [assumption|].
    split.
    + rewrite Hn'. symmetry. apply afterToggle_same.
    + rewrite Hs'. unfold f1. rewrite afterToggle_status.
      rewrite Nat.iter_succ, <- iter_toggled_shift. reflexivity.
Qed.

Lemma index_insert_other {A} (l : list A) (i : Z) (n : nat) (a b : A) :
  index (<[n := b]> l) i = Some a -> Z.to_nat i <> n -> index l i = Some a.
Proof.
  unfold index. destruct (0 <=? i); [|discriminate].
  intros Hl Hne. rewrite list_lookup_insert_ne in Hl by congruence. exact Hl.
Qed.

(** A key either leaves the list of entries alone or toggles the entry
    under the cursor. *)
Lemma handleKey_files (m m1 : model) (key : string) (w w1 : World) :
  handleKey m key w = Some (m1, w1) ->
  files m1 = files m
  \/ exists f started, index (files m) (cursor m) = Some f
       /\ files m1 = <[Z.to_nat (cursor m) := afterToggle f started]> (files m).
Proof.
  unfold handleKey, moveCursorUp, moveCursorDown.
  repeat match goal with
         | |- context [if ?b then _ else _] => destruct b
         end;
    try (intros [= <- <-]; left; reflexivity).
  intros Ht. right.
  destruct (index (files m) (cursor m)) as [f|] eqn:Hf;
    [|unfold toggle in Ht; rewrite Hf in Ht; discriminate].
  rewrite (toggle_spec m w f Hf) in Ht. injection Ht as <- <-.
  exists f, (startedAfterRun (toggleCmd f) (toggleStarted f) w).
  split; reflexivity.
Qed.

(** The same for a whole message. *)
Lemma Update_files (m m' : model) (msg : Msg) (cmd : teaCmd) (w w' : World) :
  Update m msg w = Some (m', cmd, w') ->
  files m' = files m
  \/ exists f started, index (files m) (cursor m) = Some f
       /\ files m' = <[Z.to_nat (cursor m) := afterToggle f started]> (files m).
Proof.
  intros Hu. unfold Update in Hu. destruct msg as [? Height|key|].
  - injection Hu as <- _ _. left. reflexivity.
  - destruct ((key =? "ctrl+c")%string || (key =? "q")%string).
    + injection Hu as <- _ _. left. reflexivity.
    + destruct (handleKey m key w) as [[m1 w1]|] eqn:Hh; [|discriminate].
      apply handleKey_files in Hh.
      assert (files m' = files m1) as ->; [|exact Hh].
      unfold refreshDiff in Hu. destruct (diffMode m1).
      * destruct (index (files m1) (cursor m1)); [|discriminate].
        destruct (getDiff f w1). injection Hu as <- _. reflexivity.
      * injection Hu as <- _. reflexivity.
  - injection Hu as <- _ _. left. reflexivity.
Qed.

(** No event makes an entry PartiallyStaged: an entry with that
    classification after an event is the entry that was there before. *)
Lemma Update_never_partially_stages (m m' : model) (msg : Msg) (cmd : teaCmd)
    (w w' : World) (i : Z) (f' : fileEntry) :
  Update m msg w = Some (m', cmd, w') ->
  index (files m') i = Some f' ->
  status f' = PartiallyStaged ->
  index (files m) i = Some f'.
Proof.
  intros Hu Hi Hs.
  destruct (Update_files _ _ _ _ _ _ Hu) as [Heq|(f & started & Hf & Heq)];
    rewrite Heq in Hi; [exact Hi|].
  destruct (Nat.eq_dec (Z.to_nat i) (Z.to_nat (cursor m))) as [Hsame|Hother].
  - exfalso. pose proof (index_Some _ _ _ Hf) as Hr.
    unfold index in Hi. destruct (0 <=? i); [|discriminate].
    rewrite Hsame, list_lookup_insert_eq in Hi by (unfold len in Hr; lia).
    injection Hi as <-. rewrite afterToggle_status in Hs.
    destruct (status f); discriminate.
  - apply (index_insert_other _ _ _ _ _ Hi Hother).
Qed.

Lemma run_never_partially_stages (msgs : list Msg) :
  forall (m m' : model) (w w' : World) (i : Z) (f' : fileEntry),
  run m msgs w = Some (m', w') ->
  index (files m') i = Some f' ->
  status f' = PartiallyStaged ->
  index (files m) i = Some f'.
Proof.
  induction msgs as [|msg msgs IH]; intros m m' w w' i f' Hrun Hi Hs.
  - injection Hrun as <- _. exact Hi.
  - cbn [run] in Hrun.
    destruct (Update m msg w) as [[[m1 cmd] w1]|] eqn:Hu; [|discriminate].
    apply (Update_never_partially_stages _ _ _ _ _ _ _ _ Hu); [|exact Hs].
    destruct cmd.
    + apply (IH _ _ _ _ _ _ Hrun Hi Hs).
    + injection Hrun as <- _. exact Hi.
Qed.

(** The invariant of the session state: the cursor is an index of the
    list.  Under it no message makes [Update] panic, and [Update] keeps it;
    the list never changes its length. *)
Lemma handleKey_total (m : model) (key : string) (w : World) :
  0 <= cursor m < len (files m) ->
  exists m1 w1,
    handleKey m key w = Some (m1, w1)
    /\ 0 <= cursor m1 < len (files m1)
    /\ len (files m1) = len (files m).
Proof.
  intros Hc. destruct (index_in_range _ _ Hc) as [f Hf].
  unfold handleKey, moveCursorUp, moveCursorDown.
  rewrite (toggle_spec m w f Hf).
  repeat match goal with
         | |- context [if ?b then _ else _] => destruct b eqn:?
         end;
    repeat match goal with
           | H : (_ >? _) = true |- _ => apply Z.gtb_lt in H
           | H : (_ <? _) = true |- _ => apply Z.ltb_lt in H
           end;
    eexists _, _; (split; [reflexivity|]); cbn;
    unfold len in *; rewrite ?length_insert; lia.
Qed.

Lemma Update_total (m : model) (msg : Msg) (w : World) :
  0 <= cursor m < len (files m) ->
  exists m' cmd w',
    Update m msg w = Some (m', cmd, w')
    /\ 0 <= cursor m' < len (files m')
    /\ len (files m') = len (files m).
Proof.
  intros Hc. unfold Update. destruct msg as [? Height|key|].
  - eexists _, _, _. split; [reflexivity|]. cbn. lia.
  - destruct (_ || _); [eexists _, _, _; split; [reflexivity|]; cbn; lia|].
    destruct (handleKey_total m key w Hc) as (m1 & w1 & -> & Hc1 & Hl1).
    unfold refreshDiff. destruct (diffMode m1).
    + destruct (index_in_range _ _ Hc1) as [f1 ->].
      destruct (getDiff f1 w1).
      eexists _, _, _. split; [reflexivity|]. cbn. lia.
    + eexists _, _, _. split; [reflexivity|]. lia.
  - eexists _, _, _. split; [reflexivity|]. lia.
Qed.

Lemma run_total (msgs : list Msg) : forall (m : model) (w : World),
  0 <= cursor m < len (files m) ->
  exists m' w',
    run m msgs w = Some (m', w')
    /\ 0 <= cursor m' < len (files m')
    /\ len (files m') = len (files m).
Proof.
  induction msgs as [|msg msgs IH]; intros m w Hc.
  - exists m, w. cbn. auto.
  - cbn [run].
    destruct (Update_total m msg w Hc) as (m1 & cmd & w1 & -> & Hc1 & Hl1).
    destruct cmd.
    + destruct (IH m1 w1 Hc1) as (m' & w' & Hrun & Hc' & Hl').
      exists m', w'. split; [exact Hrun|]. split; [exact Hc' | congruence].
    + exists m1, w1. auto.
Qed.

End Toggle.

(** C3 fails on the code. Each entry holds one [exec.Cmd] for staging and
    one for unstaging, built when the entry is loaded, and such an object
    starts only once.  The session moves the cursor to the entry
    ["A  added.txt"], which is Staged: the first toggle spawns
    [git rm --cached added.txt], the second spawns [git add added.txt], and
    the entry is Staged again; the third toggle calls [Run] on the unstage
    command once more, which spawns nothing, and the entry is shown as
    Unstaged all the same.  Every frame of the run is drawn. *)
Theorem third_toggle_spawns_nothing :
  let msgs := [WindowSizeMsg 80 25; KeyMsg "down"; KeyMsg "down";
               KeyMsg " "; KeyMsg " "] in
  let spawned := [Command "git" ["rm"; "--cached"; "added.txt"];
                  Command "git" ["add"; "added.txt"]] in
  main (C := scripted demoRepo) []
  = Some (EntersLoop (initialModel demoFiles), [checkCmd; statusCmd])
  /\ exists m2 m3,
    run (C := scripted demoRepo) (initialModel demoFiles) msgs []
    = Some (m2, spawned)
    /\ diffMode m2 = false
    /\ cursor m2 = 2
    /\ option_map name (index (files m2) 2) = Some "added.txt"
    /\ option_map status (index (files m2) 2) = Some Staged
    /\ option_map unstageCmd (index (files m2) 2)
       = Some (Command "git" ["rm"; "--cached"; "added.txt"])
    /\ Update (C := scripted demoRepo) m2 (KeyMsg " ") spawned
       = Some (m3, NoCmd, spawned)
    /\ option_map status (index (files m3) 2) = Some Unstaged
    /\ run (C := scripted demoRepo) (initialModel demoFiles)
           (msgs ++ [KeyMsg " "]) []
       = Some (m3, spawned)
    /\ map drawn (runFrames (C := scripted demoRepo) (initialModel demoFiles)
                    (msgs ++ [KeyMsg " "]) [])
       = [true; true; true; true; true; true].
Proof.
  split; [vm_compute; reflexivity|].
  eexists _, _. repeat (split; [vm_compute; reflexivity|]).
  vm_compute. reflexivity.
Qed.

(** ** C4: the scroll offset under scroll events *)

Section Scroll.
Context {C : Collaborators}.

Lemma Update_key (m : model) (key : string) (w : World) :
  (key =? "ctrl+c")%string = false -> (key =? "q")%string = false ->
  Update m (KeyMsg key) w
  = match handleKey m key w with
    | Some (m1, w1) =>
        match refreshDiff m1 w1 with
        | Some (m2, w2) => Some (m2, NoCmd, w2)
        | None => None
        end
    | None => None
    end.
Proof. intros H1 H2. unfold Update. rewrite H1, H2. reflexivity. Qed.

Lemma scrollKey_cases (key : string) :
  scrollKey key ->
  key = "up" \/ key = "down" \/ key = "pgup" \/ key = "pgdown"
  \/ key = "g" \/ key = "G".
Proof.
  unfold scrollKey. intros H.
  repeat (apply elem_of_cons in H as [H|H]; [tauto|]).
  apply elem_of_nil in H. contradiction.
Qed.

Lemma refreshDiff_diffMode (m : model) (w : World) (f : fileEntry) :
  diffMode m = true ->
  index (files m) (cursor m) = Some f ->
  refreshDiff m w
  = Some (set_diffContent m (fst (getDiff f w)), snd (getDiff f w)).
Proof.
  intros Hd Hf. unfold refreshDiff. rewrite Hd, Hf.
  destruct (getDiff f w). reflexivity.
Qed.

Lemma refreshDiff_browsing (m : model) (w : World) :
  diffMode m = false -> refreshDiff m w = Some (m, w).
Proof. intros Hb. unfold refreshDiff. rewrite Hb. reflexivity. Qed.

(** Closes the bookkeeping goals of one case of a scroll key. *)
Ltac scroll_case :=
  repeat split; try assumption; try lia;
  solve [ left; repeat split; (assumption || lia || reflexivity)
        | right; reflexivity ].

(** What a scroll key does before the diff is fetched again: either the
    cursor stays and the offset stays in range, or the cursor moves to
    another entry and the offset is reset to 0. *)
Lemma handleKey_scroll (m : model) (key : string) (w : World) :
  diffMode m = true ->
  0 <= cursor m < len (files m) ->
  0 <= viewportHeight m ->
  clamped m ->
  scrollKey key ->
  exists m1,
    handleKey m key w = Some (m1, w)
    /\ diffMode m1 = true
    /\ viewportHeight m1 = viewportHeight m
    /\ files m1 = files m
    /\ 0 <= cursor m1 < len (files m)
    /\ ((cursor m1 = cursor m /\ diffContent m1 = diffContent m
         /\ 0 <= scrollOffset m1 <= getMaxScroll m)
        \/ scrollOffset m1 = 0).
Proof.
  intros Hd Hc Hv [Hlo Hhi] Hk.
  pose proof (getMaxScroll_nonneg m) as Hmax.
  assert (Hq : 0 <= viewportHeight m ÷ 2) by (apply Z.quot_pos; lia).
  destruct (scrollKey_cases key Hk) as [->|[->|[->|[->|[->| ->]]]]];
    unfold handleKey; cbn; rewrite Hd.
  - (* up *)
    destruct (Z.gtb_spec (scrollOffset m) 0) as [Hs|Hs].
    + eexists. split; [reflexivity|]. cbn.
      scroll_case.
    + unfold moveCursorUp. destruct (Z.gtb_spec (cursor m) 0) as [Hp|Hp].
      * eexists. split; [reflexivity|]. cbn.
        scroll_case.
      * eexists. split; [reflexivity|].
        scroll_case.
  - (* down *)
    destruct (Z.ltb_spec (scrollOffset m) (getMaxScroll m)) as [Hs|Hs].
    + eexists. split; [reflexivity|]. cbn.
      scroll_case.
    + unfold moveCursorDown.
      destruct (Z.ltb_spec (cursor m) (len (files m) - 1)) as [Hp|Hp].
      * eexists. split; [reflexivity|]. cbn.
        scroll_case.
      * eexists. split; [reflexivity|].
        scroll_case.
  - (* pgup *)
    eexists. split; [reflexivity|]. cbn.
    destruct (Z.ltb_spec (scrollOffset m - viewportHeight m ÷ 2) 0);
      scroll_case.
  - (* pgdown *)
    eexists. split; [reflexivity|]. cbn.
    destruct (Z.gtb_spec (scrollOffset m + viewportHeight m ÷ 2)
                (getMaxScroll m)); scroll_case.
  - (* g *)
    eexists. split; [reflexivity|]. cbn.
    scroll_case.
  - (* G *)
    eexists. split; [reflexivity|]. cbn.
    scroll_case.
Qed.

(** One scroll event keeps the offset within [[0, maxScroll]] of the diff
    that is shown after it, when the fetch that ends it returns the diff of
    the entry as before. *)
Lemma scroll_step (diffOf : fileEntry -> string) (m : model) (key : string)
    (w : World) :
  showsDiff diffOf m ->
  0 <= viewportHeight m ->
  clamped m ->
  scrollKey key ->
  fetchReturns diffOf m key w ->
  exists m' w',
    Update m (KeyMsg key) w = Some (m', NoCmd, w')
    /\ showsDiff diffOf m'
    /\ viewportHeight m' = viewportHeight m
    /\ files m' = files m
    /\ clamped m'.
Proof.
  intros (Hd & f & Hf & Hdc) Hv Hcl Hk Hfetch.
  pose proof (index_Some _ _ _ Hf) as Hc.
  destruct (handleKey_scroll m key w Hd Hc Hv Hcl Hk)
    as (m1 & Hh & Hd1 & Hv1 & Hf1 & Hc1 & Hcase).
  rewrite <- Hf1 in Hc1.
  destruct (index_in_range _ _ Hc1) as [f1 Hidx1].
  assert (Hnq : (key =? "ctrl+c")%string = false
                /\ (key =? "q")%string = false)
    by (destruct (scrollKey_cases key Hk) as [->|[->|[->|[->|[->| ->]]]]];
        split; reflexivity).
  destruct Hnq as [Hq1 Hq2].
  unfold fetchReturns in Hfetch.
  rewrite Hq1, Hq2, Hh, Hd1, Hidx1 in Hfetch. cbn in Hfetch.
  rewrite Update_key by assumption.
  rewrite Hh, (refreshDiff_diffMode m1 w f1 Hd1 Hidx1), Hfetch.
  eexists _, _. split; [reflexivity|].
  split; [|split; [|split]].
  - split; [exact Hd1|]. exists f1. split; [exact Hidx1 | reflexivity].
  - exact Hv1.
  - exact Hf1.
  - destruct Hcase as [(Hcur & Hcont & Hs)|Hzero].
    + assert (f1 = f) as -> by (rewrite Hf1, Hcur, Hf in Hidx1; congruence).
      unfold clamped, getMaxScroll, lineCount in *. cbn.
      rewrite <- Hdc, Hv1. exact Hs.
    + unfold clamped. cbn [scrollOffset set_diffContent]. rewrite Hzero.
      split; [lia | apply getMaxScroll_nonneg].
Qed.

Lemma scroll_run (diffOf : fileEntry -> string) (keys : list string) :
  forall (m : model) (w : World),
  showsDiff diffOf m ->
  0 <= viewportHeight m ->
  clamped m ->
  Forall scrollKey keys ->
  everyFetchReturns diffOf m keys w ->
  exists m' w',
    run m (map KeyMsg keys) w = Some (m', w')
    /\ showsDiff diffOf m'
    /\ viewportHeight m' = viewportHeight m
    /\ files m' = files m
    /\ clamped m'.
Proof.
  induction keys as [|key keys IH]; intros m w Hshow Hv Hcl Hks Hfetch.
  - exists m, w. cbn. auto.
  - inversion Hks as [|? ? Hk Hrest]; subst.
    destruct Hfetch as [Hfirst Hlater].
    destruct (scroll_step diffOf m key w Hshow Hv Hcl Hk Hfirst)
      as (m1 & w1 & Hu & Hshow1 & Hv1 & Hf1 & Hcl1).
    rewrite Hu in Hlater.
    destruct (IH m1 w1 Hshow1 ltac:(lia) Hcl1 Hrest Hlater)
      as (m' & w' & Hrun & Hshow' & Hv' & Hf' & Hcl').
    exists m', w'. cbn [map run]. rewrite Hu.
    split; [exact Hrun|]. split; [exact Hshow'|].
    split; [congruence|]. split; [congruence | exact Hcl'].
Qed.

End Scroll.

(** C4 fails on the code. In a viewport of 20 lines the 30-line diff of
    the first entry is scrolled down by two lines; diff mode is left, the
    entry is staged, and diff mode is entered again with [scrollOffset]
    still 2: the diff fetched is now 3 lines long, so [maxScroll] is
    [max(0, 3 - 20) = 0].  The frame is drawn (it shows the last line), and
    the scroll event "up" that follows is processed in diff mode and leaves
    [scrollOffset] at 1, outside [[0, max(0, L - H)] = [0, 0]].  Every frame
    of the run is drawn. *)
Theorem scroll_event_leaves_offset_above_maxScroll :
  let before := [WindowSizeMsg 80 25; KeyMsg "d"; KeyMsg "down";
                 KeyMsg "down"; KeyMsg "d"; KeyMsg " "; KeyMsg "d"] in
  main (C := scripted demoRepo) []
  = Some (EntersLoop (initialModel demoFiles), [checkCmd; statusCmd])
  /\ scrollKey "up"
  /\ exists m w m' w',
      run (C := scripted demoRepo) (initialModel demoFiles) before []
      = Some (m, w)
      /\ diffMode m = true
      /\ viewportHeight m = 20 /\ lineCount m = 3 /\ scrollOffset m = 2
      /\ Update (C := scripted demoRepo) m (KeyMsg "up") w
         = Some (m', NoCmd, w')
      /\ diffMode m' = true
      /\ viewportHeight m' = 20 /\ lineCount m' = 3 /\ scrollOffset m' = 1
      /\ Z.max 0 (lineCount m' - viewportHeight m') = 0
      /\ getMaxScroll m' = 0
      /\ ~ (0 <= scrollOffset m'
            <= Z.max 0 (lineCount m' - viewportHeight m'))
      /\ map drawn (runFrames (C := scripted demoRepo)
                      (initialModel demoFiles) (before ++ [KeyMsg "up"]) [])
         = [true; true; true; true; true; true; true; true].
Proof.
  split; [vm_compute; reflexivity|].
  split; [unfold scrollKey; repeat constructor|].
  eexists _, _, _, _. split; [vm_compute; reflexivity|].
  do 4 (split; [vm_compute; reflexivity|]).
  split; [vm_compute; reflexivity|].
  do 6 (split; [vm_compute; reflexivity|]).
  split; [|vm_compute; reflexivity].
  vm_compute. intros [_ H]. apply H. reflexivity.
Qed.

(** ** C5: entering and leaving diff mode *)

(** What "d" does.  In diff mode it switches back to browsing mode and
    changes nothing else.  In browsing mode it switches to diff mode and
    the diff of the entry under the cursor is fetched into [diffContent];
    no other field is assigned. *)
Lemma Update_d {C : Collaborators} (m : model) (w : World) :
  (diffMode m = true ->
   Update m (KeyMsg "d") w = Some (set_diffMode m false, NoCmd, w))
  /\ (diffMode m = false ->
      forall f : fileEntry, index (files m) (cursor m) = Some f ->
      Update m (KeyMsg "d") w
      = Some (set_diffContent (set_diffMode m true) (fst (getDiff f w)),
              NoCmd, snd (getDiff f w))).
Proof.
  assert (Hkey : handleKey m "d" w
                 = Some (set_diffMode m (negb (diffMode m)), w))
    by reflexivity.
  split.
  - intros Hd. rewrite Update_key, Hkey, Hd by reflexivity.
    rewrite refreshDiff_browsing; reflexivity.
  - intros Hb f Hf. rewrite Update_key, Hkey, Hb by reflexivity.
    rewrite (refreshDiff_diffMode _ w f) by (cbn; auto).
    reflexivity.
Qed.

(** C5 fails on the code. "d" in diff mode switches back to browsing mode,
    and "d" in browsing mode switches to diff mode and fetches the diff of
    the entry under the cursor, but [scrollOffset] is not set to 0: the
    "d" case assigns [diffMode] alone, while the two other ways to another
    diff, [moveCursorUp] and [moveCursorDown], do reset it.  After
    scrolling to the bottom of the 30-line diff of the first entry in a
    viewport of 20 lines and leaving diff mode, "d" enters diff mode with
    [scrollOffset] still 10.  Every frame of the run is drawn. *)
Theorem d_keeps_scroll_offset :
  exists m w m' w',
    run (C := scripted demoRepo) (initialModel demoFiles)
        [WindowSizeMsg 80 25; KeyMsg "d"; KeyMsg "G"; KeyMsg "d"] []
      = Some (m, w)
    /\ diffMode m = false
    /\ Update (C := scripted demoRepo) m (KeyMsg "d") w = Some (m', NoCmd, w')
    /\ diffMode m' = true
    /\ diffContent m' = textOfLines 29
    /\ scrollOffset m' = 10
    /\ scrollOffset m' <> 0
    /\ scrollOffset (moveCursorDown m) = 0
    /\ map drawn (runFrames (C := scripted demoRepo) (initialModel demoFiles)
                    [WindowSizeMsg 80 25; KeyMsg "d"; KeyMsg "G"; KeyMsg "d";
                     KeyMsg "d"] [])
       = [true; true; true; true; true].
Proof.
  eexists _, _, _, _. split; [vm_compute; reflexivity|].
  split; [reflexivity|]. split; [vm_compute; reflexivity|].
  split; [reflexivity|]. split; [vm_compute; reflexivity|].
  split; [reflexivity|]. split; [discriminate|].
  split; vm_compute; reflexivity.
Qed.

(** ** C6: page scrolling *)

Section Frames.
Context {C : Collaborators}.

Lemma drawn_diff_iff (m : model) :
  quitting m = false -> diffMode m = true ->
  (drawn (View m) = true
   <-> 0 <= viewportHeight m /\ 0 <= scrollOffset m <= lineCount m).
Proof.
  intros Hq Hd. unfold View. rewrite Hq, Hd.
  unfold slice, visibleEnd. fold (lineCount m).
  destruct (Z.gtb_spec (scrollOffset m + viewportHeight m) (lineCount m));
    destruct (Z.leb_spec 0 (scrollOffset m));
    match goal with
    | |- context [scrollOffset m <=? ?b] =>
        destruct (Z.leb_spec (scrollOffset m) b)
    end;
    match goal with
    | |- context [?a <=? lineCount m] =>
        destruct (Z.leb_spec a (lineCount m))
    end; cbn; split; intros; try discriminate; try reflexivity; lia.
Qed.

End Frames.

(** C6. In diff mode, page-down sets [scrollOffset] to
    [min(maxScroll, scrollOffset + viewportHeight/2)] and page-up sets it to
    [max(0, scrollOffset - viewportHeight/2)], where [/] is Go's division
    and [maxScroll] is that of the diff on display when the key is pressed
    (it is the same after the event when the diff fetched again is the
    same text).  From [scrollOffset = 0] with [viewportHeight = 20],
    page-down ends at [min(maxScroll, 10)]: at 10 when the diff is long
    enough for it.  Page-down never ends above [maxScroll] and page-up
    never below 0; and in every state that [View] has drawn, which every
    state is in which a key arrives, page-down does not end below 0 either
    and page-up does not raise the offset, so that it does not bring it
    above [maxScroll]. *)
Theorem page_scroll_is_clamped {C : Collaborators}
    (m : model) (w : World) (f : fileEntry) :
  diffMode m = true ->
  index (files m) (cursor m) = Some f ->
  exists m1 m2 w',
    Update m (KeyMsg "pgdown") w = Some (m1, NoCmd, w')
    /\ Update m (KeyMsg "pgup") w = Some (m2, NoCmd, w')
    /\ scrollOffset m1
       = Z.min (getMaxScroll m) (scrollOffset m + viewportHeight m ÷ 2)
    /\ scrollOffset m2 = Z.max 0 (scrollOffset m - viewportHeight m ÷ 2)
    /\ scrollOffset m1 <= getMaxScroll m
    /\ 0 <= scrollOffset m2
    /\ (scrollOffset m = 0 -> viewportHeight m = 20 ->
        scrollOffset m1 = Z.min (getMaxScroll m) 10
        /\ (10 <= getMaxScroll m -> scrollOffset m1 = 10))
    /\ (quitting m = false -> drawn (View m) = true ->
        0 <= scrollOffset m1 <= getMaxScroll m
        /\ 0 <= scrollOffset m2 <= scrollOffset m
        /\ (scrollOffset m <= getMaxScroll m ->
            scrollOffset m2 <= getMaxScroll m))
    /\ (fst (getDiff f w) = diffContent m ->
        getMaxScroll m1 = getMaxScroll m /\ getMaxScroll m2 = getMaxScroll m).
Proof.
  intros Hd Hf.
  assert (Hdown : handleKey m "pgdown" w
            = Some (set_scrollOffset m
                      (if scrollOffset m + viewportHeight m ÷ 2
                          >? getMaxScroll m
                       then getMaxScroll m
                       else scrollOffset m + viewportHeight m ÷ 2), w)).
  { unfold handleKey. cbn. rewrite Hd. reflexivity. }
  assert (Hup : handleKey m "pgup" w
            = Some (set_scrollOffset m
                      (if scrollOffset m - viewportHeight m ÷ 2 <? 0
                       then 0
                       else scrollOffset m - viewportHeight m ÷ 2), w)).
  { unfold handleKey. cbn. rewrite Hd. reflexivity. }
  rewrite !Update_key by reflexivity. rewrite Hdown, Hup.
  rewrite !(refreshDiff_diffMode _ w f) by (cbn; auto).
  eexists _, _, _. split; [reflexivity|]. split; [reflexivity|]. cbn.
  pose proof (getMaxScroll_nonneg m) as Hmax.
  assert (Hq : quitting m = false -> drawn (View m) = true ->
               0 <= viewportHeight m ÷ 2 /\ 0 <= scrollOffset m).
  { intros Hnq Hdr. apply (drawn_diff_iff m Hnq Hd) in Hdr.
    split; [apply Z.quot_pos; lia | lia]. }
  destruct (Z.gtb_spec (scrollOffset m + viewportHeight m ÷ 2)
              (getMaxScroll m));
    destruct (Z.ltb_spec (scrollOffset m - viewportHeight m ÷ 2) 0);
    (split; [lia|]); (split; [lia|]); (split; [lia|]); (split; [lia|]);
    (split; [intros Hs Hv; rewrite Hs, Hv in *;
             change (20 ÷ 2) with 10 in *; lia|]);
    (split; [intros Hnq Hdr; specialize (Hq Hnq Hdr); lia|]);
    intros ->; split; reflexivity.
Qed.

(** Page-down and page-up in the 30-line diff of the first entry, in a
    viewport of 20 lines: from the top and from the bottom. *)
Lemma page_scroll_is_clamped_witness :
  let top := mkModel demoFiles 0 false true (textOfLines 29) 0 20 in
  let bottom := mkModel demoFiles 0 false true (textOfLines 29) 10 20 in
  (exists m1 w',
     Update (C := scripted demoRepo) top (KeyMsg "pgdown") []
       = Some (m1, NoCmd, w')
     /\ scrollOffset m1 = 10)
  /\ (exists m2 w',
     Update (C := scripted demoRepo) bottom (KeyMsg "pgup") []
       = Some (m2, NoCmd, w')
     /\ 0 <= scrollOffset m2 <= 10).
Proof.
  split.
  - destruct (page_scroll_is_clamped (C := scripted demoRepo)
                (mkModel demoFiles 0 false true (textOfLines 29) 0 20) []
                (entry "??" "newfile.txt") eq_refl eq_refl)
      as (m1 & m2 & w' & Hdown & _ & _ & _ & _ & _ & Hten & _).
    exists m1, w'. split; [exact Hdown|].
    apply (Hten eq_refl eq_refl). vm_compute. discriminate.
  - destruct (page_scroll_is_clamped (C := scripted demoRepo)
                (mkModel demoFiles 0 false true (textOfLines 29) 10 20) []
                (entry "??" "newfile.txt") eq_refl eq_refl)
      as (m1 & m2 & w' & _ & Hup & _ & _ & _ & _ & _ & Hdrawn & _).
    exists m2, w'. split; [exact Hup|].
    apply (Hdrawn eq_refl eq_refl).
Defined.

(** ** C7: the diff fetcher *)

(** C7. [getDiff] spawns one command, chosen by the classification of the
    entry: [git d --staged <name>] (index against HEAD) for a Staged entry,
    [git d <name>] for an Unstaged one, [git d HEAD <name>] for a
    PartiallyStaged one.  It always returns a text: when the command exits
    with a non-zero code the text is ["Failed to show diff: exit status
    <code>"], when it cannot be run the text is ["Failed to show diff: "]
    followed by the reason, and otherwise it is the command's output. *)
Theorem getDiff_failure_is_text {C : Collaborators} (f : fileEntry) (w : World) :
  let r := fst (spawn (diffCmd f) w) in
  snd (getDiff f w) = snd (spawn (diffCmd f) w)
  /\ (forall code : Z, exit r = Exited code -> code <> 0 ->
      fst (getDiff f w) = "Failed to show diff: exit status " +:+ showInt code)
  /\ (forall reason : string, exit r = NotStarted reason ->
      fst (getDiff f w) = "Failed to show diff: " +:+ reason)
  /\ (exit r = Exited 0 -> fst (getDiff f w) = combined r)
  /\ (status f = Staged -> diffCmd f = Command "git" ["d"; "--staged"; name f])
  /\ (status f = Unstaged -> diffCmd f = Command "git" ["d"; name f])
  /\ (status f = PartiallyStaged ->
      diffCmd f = Command "git" ["d"; "HEAD"; name f]).
Proof.
  cbn zeta. unfold getDiff, CombinedOutput.
  destruct (spawn (diffCmd f) w) as [r w'] eqn:Hspawn. cbn [fst snd].
  split; [destruct (errOf (exit r)); reflexivity|].
  split; [|split; [|split]].
  - intros code Hexit Hcode. rewrite Hexit. cbn.
    destruct (Z.eqb_spec code 0); [contradiction | reflexivity].
  - intros reason Hexit. rewrite Hexit. reflexivity.
  - intros Hexit. rewrite Hexit. reflexivity.
  - unfold diffCmd. repeat split; intros ->; reflexivity.
Qed.

Lemma getDiff_failure_is_text_witness :
  getDiff (C := scripted noRepo) (entry "A " "added.txt") []
  = ("Failed to show diff: exit status 128",
     [Command "git" ["d"; "--staged"; "added.txt"]]).
Proof.
  pose proof (getDiff_failure_is_text (C := scripted noRepo)
                (entry "A " "added.txt") []) as (Hw & Hfail & _).
  rewrite (surjective_pairing (getDiff _ _)), Hw.
  rewrite (Hfail 128 eq_refl ltac:(discriminate)). reflexivity.
Defined.

(** ** C8 and C9: start-up *)

Section Startup.
Context {C : Collaborators}.

Lemma errOf_None (st : ExitStatus) : errOf st = None <-> st = Exited 0.
Proof.
  destruct st as [c|r]; cbn.
  - destruct (Z.eqb_spec c 0) as [->|Hc]; split; try congruence.
  - split; discriminate.
Qed.

Lemma loadLines_short (lines : list string) (acc : list fileEntry) :
  Forall (fun l => (String.length l < 4)%nat) lines ->
  loadLines lines acc = Some acc.
Proof.
  induction 1 as [|l lines Hl _ IH]; cbn; [reflexivity|].
  destruct (Z.ltb_spec (Z.of_nat (String.length l)) 4); [exact IH | lia].
Qed.

Lemma getGitChanges_not_a_repository (w : World) :
  exit (fst (spawn checkCmd w)) <> Exited 0
  \/ TrimSpace (stdout (fst (spawn checkCmd w))) <> "true" ->
  getGitChanges w
  = Some ([], Some (ErrorString "Not inside a git repository"),
          snd (spawn checkCmd w)).
Proof.
  intros Hbad. unfold getGitChanges, Output. fold checkCmd.
  destruct (spawn checkCmd w) as [r w1]. cbn [fst snd] in *.
  destruct Hbad as [Hexit|Hout].
  - rewrite bool_decide_eq_true_2; [reflexivity|].
    intros Hnone. apply errOf_None in Hnone. contradiction.
  - destruct (String.eqb_spec (TrimSpace (stdout r)) "true") as [Heq|_];
      [contradiction|].
    rewrite orb_true_r. reflexivity.
Qed.

Lemma getGitChanges_no_lines (w : World) :
  exit (fst (spawn checkCmd w)) = Exited 0 ->
  TrimSpace (stdout (fst (spawn checkCmd w))) = "true" ->
  exit (fst (spawn statusCmd (snd (spawn checkCmd w)))) = Exited 0 ->
  Forall (fun l => (String.length l < 4)%nat)
         (Split (stdout (fst (spawn statusCmd (snd (spawn checkCmd w))))) LF) ->
  getGitChanges w
  = Some ([], None, snd (spawn statusCmd (snd (spawn checkCmd w)))).
Proof.
  intros Hexit Hout Hexit2 Hshort. unfold getGitChanges, Output.
  fold checkCmd statusCmd.
  destruct (spawn checkCmd w) as [r w1]. cbn [fst snd] in *.
  destruct (spawn statusCmd w1) as [r2 w2]. cbn [fst snd] in *.
  rewrite Hexit, Hout, Hexit2. cbn.
  rewrite (loadLines_short _ [] Hshort). reflexivity.
Qed.

(** The loader never panics: a line of at least four bytes has a status
    code of two bytes. *)
Lemma loadLines_total (lines : list string) :
  forall acc : list fileEntry, exists fs, loadLines lines acc = Some fs.
Proof.
  induction lines as [|l lines IH]; intros acc; cbn [loadLines];
    [exists acc; reflexivity|].
  destruct (Z.ltb_spec (Z.of_nat (String.length l)) 4) as [_|Hlong];
    [apply IH|].
  destruct l as [|a [|b [|c [|d rest]]]]; cbn in Hlong; try lia.
  cbn. destruct (interpretXY a b _) as [[stagingStatus stage] unstage].
  apply IH.
Qed.

Lemma getGitChanges_total (w : World) : exists r, getGitChanges w = Some r.
Proof.
  unfold getGitChanges.
  destruct (Output _ w) as [[checkOutput err] w1].
  destruct (_ || _); [eexists; reflexivity|].
  destruct (Output _ w1) as [[out err2] w2].
  destruct err2; [eexists; reflexivity|].
  destruct (loadLines_total (Split out LF) []) as [fs ->].
  eexists; reflexivity.
Qed.

End Startup.

(** The four status lines of the specification's end-to-end scenario. *)
Example loader_end_to_end :
  option_map (fun r => map (fun f => (name f, status f)) (fst (fst r)))
             (getGitChanges (C := scripted demoRepo) [])
  = Some [ ("newfile.txt", Unstaged); ("changed.txt", Unstaged);
           ("added.txt", Staged); ("addedmod.txt", PartiallyStaged) ].
Proof. vm_compute. reflexivity. Qed.

(** C8. When the working-tree check does not exit with code 0, or its
    output, trimmed, is not ["true"], [getGitChanges] returns the error
    "Not inside a git repository" and no file list, without running the
    status query; [main] prints "Error: Not inside a git repository" and
    ends the process with exit code 1: it does not enter the event loop. *)
Theorem not_a_repository_is_fatal {C : Collaborators} (w : World) :
  exit (fst (spawn checkCmd w)) <> Exited 0
  \/ TrimSpace (stdout (fst (spawn checkCmd w))) <> "true" ->
  getGitChanges w
  = Some ([], Some (ErrorString "Not inside a git repository"),
          snd (spawn checkCmd w))
  /\ main w
     = Some (Exits ("Error: Not inside a git repository" +:+ String LF "") 1,
             snd (spawn checkCmd w))
  /\ (forall m w', main w <> Some (EntersLoop m, w')).
Proof.
  intros Hbad. pose proof (getGitChanges_not_a_repository w Hbad) as Hload.
  assert (Hmain : main w
     = Some (Exits ("Error: Not inside a git repository" +:+ String LF "") 1,
             snd (spawn checkCmd w))).
  { unfold main. rewrite Hload. reflexivity. }
  split; [exact Hload|]. split; [exact Hmain|].
  intros m w'. rewrite Hmain. discriminate.
Qed.

Lemma not_a_repository_is_fatal_witness :
  main (C := scripted noRepo) []
  = Some (Exits ("Error: Not inside a git repository" +:+ String LF "") 1,
          [checkCmd]).
Proof.
  apply (not_a_repository_is_fatal (C := scripted noRepo) []).
  left. discriminate.
Defined.

(** C9. When the check passes and the status query succeeds with an output
    in which no line is at least four bytes long, [getGitChanges] returns
    the empty list and no error; and whenever [getGitChanges] returns the
    empty list and no error, [main] prints "No changes to stage or
    unstage." and returns, which ends the process with exit code 0, without
    entering the event loop. *)
Theorem no_changes_exits_zero {C : Collaborators} (w : World) :
  (exit (fst (spawn checkCmd w)) = Exited 0 ->
   TrimSpace (stdout (fst (spawn checkCmd w))) = "true" ->
   exit (fst (spawn statusCmd (snd (spawn checkCmd w)))) = Exited 0 ->
   Forall (fun l => (String.length l < 4)%nat)
          (Split (stdout (fst (spawn statusCmd (snd (spawn checkCmd w))))) LF) ->
   getGitChanges w
   = Some ([], None, snd (spawn statusCmd (snd (spawn checkCmd w)))))
  /\ (forall w' : World,
      getGitChanges w = Some ([], None, w') ->
      main w
      = Some (Exits ("No changes to stage or unstage." +:+ String LF "") 0, w')
      /\ forall m w'', main w <> Some (EntersLoop m, w'')).
Proof.
  split; [apply getGitChanges_no_lines|].
  intros w' Hload.
  assert (Hmain : main w
     = Some (Exits ("No changes to stage or unstage." +:+ String LF "") 0, w')).
  { unfold main. rewrite Hload. reflexivity. }
  split; [exact Hmain|]. intros m w''. rewrite Hmain. discriminate.
Qed.

Lemma no_changes_exits_zero_witness :
  getGitChanges (C := scripted cleanRepo) []
  = Some ([], None, [checkCmd; statusCmd])
  /\ main (C := scripted cleanRepo) []
     = Some (Exits ("No changes to stage or unstage." +:+ String LF "") 0,
             [checkCmd; statusCmd]).
Proof.
  pose proof (no_changes_exits_zero (C := scripted cleanRepo) [])
    as [Hload Hmain].
  assert (Hl : getGitChanges (C := scripted cleanRepo) []
               = Some ([], None, [checkCmd; statusCmd])).
  { apply Hload; try reflexivity. repeat constructor. }
  split; [exact Hl|]. apply (Hmain _ Hl).
Defined.

(** ** C10: the slice of visible lines *)

Section Render.
Context {C : Collaborators}.

(** When the offset is within [[0, maxScroll]] and the viewport height is
    not negative, the slice of [View] is in range. *)
Lemma clamped_view_is_drawn (m : model) :
  0 <= viewportHeight m -> clamped m -> drawn (View m) = true.
Proof.
  intros Hv [Hlo Hhi]. rewrite getMaxScroll_max in Hhi.
  pose proof (lineCount_pos m) as HL.
  unfold View. destruct (quitting m); [reflexivity|].
  destruct (diffMode m); [|reflexivity].
  unfold slice, visibleEnd. fold (lineCount m).
  destruct (Z.gtb_spec (scrollOffset m + viewportHeight m) (lineCount m));
    repeat match goal with
           | |- context [?a <=? ?b] => destruct (Z.leb_spec a b); [|lia]
           end; reflexivity.
Qed.

(** In diff mode, a negative viewport height always makes the slice of
    [View] panic: its upper bound is below its lower bound. *)
Lemma negative_viewport_view_panics (m : model) :
  quitting m = false -> diffMode m = true -> viewportHeight m < 0 ->
  View m = None.
Proof.
  intros Hq Hd Hv. unfold View. rewrite Hq, Hd.
  unfold slice, visibleEnd. fold (lineCount m).
  destruct (Z.gtb_spec (scrollOffset m + viewportHeight m) (lineCount m));
    match goal with
    | |- context [scrollOffset m <=? ?b] =>
        destruct (Z.leb_spec (scrollOffset m) b); [lia|]
    end; rewrite andb_false_r; reflexivity.
Qed.

(** As long as only scroll events arrive, the viewport height is not
    negative and each fetch returns the diff of the entry as before, every
    frame of the diff viewer is drawn. *)
Lemma scroll_events_are_drawn (diffOf : fileEntry -> string)
    (keys : list string) : forall (m : model) (w : World),
  showsDiff diffOf m ->
  0 <= viewportHeight m ->
  clamped m ->
  Forall scrollKey keys ->
  everyFetchReturns diffOf m keys w ->
  map drawn (runFrames m (map KeyMsg keys) w) = repeat true (length keys).
Proof.
  induction keys as [|key keys IH]; intros m w Hshow Hv Hcl Hks Hfetch;
    [reflexivity|].
  inversion Hks as [|? ? Hk Hrest]; subst.
  destruct Hfetch as [Hfirst Hlater].
  destruct (scroll_step diffOf m key w Hshow ltac:(lia) Hcl Hk Hfirst)
    as (m1 & w1 & Hu & Hshow1 & Hv1 & _ & Hcl1).
  rewrite Hu in Hlater.
  assert (Hdr : drawn (View m1) = true)
    by (apply clamped_view_is_drawn; [lia | exact Hcl1]).
  cbn [map runFrames length repeat]. rewrite Hu.
  destruct (View m1) as [frame|]; [|discriminate].
  cbn [map drawn]. f_equal.
  apply IH; [exact Hshow1 | lia | exact Hcl1 | exact Hrest | exact Hlater].
Qed.

End Render.

(** C10 fails on the code. In a viewport of 20 lines the 30-line diff of
    the first entry is scrolled to the bottom ([scrollOffset = 10]); diff
    mode is left, the entry is staged, and diff mode is entered again: the
    diff fetched is now 3 lines long, [scrollOffset] is still 10, and the
    slice [lines[10:3]] of [View] panics.  The five frames before were
    drawn. *)
Theorem stale_scroll_offset_panics_view :
  let msgs := [WindowSizeMsg 80 25; KeyMsg "d"; KeyMsg "G"; KeyMsg "d";
               KeyMsg " "; KeyMsg "d"] in
  main (C := scripted demoRepo) []
  = Some (EntersLoop (initialModel demoFiles), [checkCmd; statusCmd])
  /\ exists m w,
      run (C := scripted demoRepo) (initialModel demoFiles) msgs [] = Some (m, w)
      /\ diffMode m = true
      /\ viewportHeight m = 20
      /\ lineCount m = 3
      /\ scrollOffset m = 10
      /\ visibleEnd m = 3
      /\ slice (Split (diffContent m) LF) (scrollOffset m) (visibleEnd m) = None
      /\ View (C := scripted demoRepo) m = None
      /\ map drawn (runFrames (C := scripted demoRepo)
                      (initialModel demoFiles) msgs [])
         = [true; true; true; true; true; false].
Proof.
  split; [vm_compute; reflexivity|].
  eexists _, _. repeat (split; [vm_compute; reflexivity|]).
  vm_compute. reflexivity.
Qed.

(** * Further properties of the code *)

(** ** The status interpreter *)

(** X1. [interpretGitStatus] panics exactly on a status code shorter than
    two bytes; on a longer one the result depends on the first two bytes
    only. *)
Theorem interpretGitStatus_panics_iff_short (xy filename : string) :
  (interpretGitStatus xy filename = None <-> (String.length xy < 2)%nat)
  /\ (forall (x y : ascii) (rest : string),
        interpretGitStatus (String x (String y rest)) filename
        = interpretGitStatus (String x (String y "")) filename).
Proof.
  split; [|reflexivity].
  unfold interpretGitStatus.
  destruct xy as [|x [|y rest]]; cbn; split; intros H;
    try reflexivity; try discriminate; lia.
Qed.

(** X2. The classification read off the two sides of the status code: an
    entry is Staged exactly when the index side [x] is not a space and the
    work-tree side [y] is; Unstaged exactly when [x] is a space or the code
    is ["??"]; PartiallyStaged in the remaining cases.  The stage command is
    always [git add]; the unstage command is [git rm --cached] exactly when
    [x] is ['A'] or the code is ["??"], and [git restore --staged]
    otherwise. *)
Theorem classification_by_sides (x y : ascii) (filename : string) :
  let '(st, stage, unstage) := interpretXY x y filename in
  stage = git_add filename
  /\ (st = Staged <-> x <> " "%char /\ y = " "%char)
  /\ (st = Unstaged <-> x = " "%char \/ (x = "?"%char /\ y = "?"%char))
  /\ (st = PartiallyStaged <->
      x <> " "%char /\ y <> " "%char /\ ~ (x = "?"%char /\ y = "?"%char))
  /\ (unstage = git_rm_cached filename <->
      x = "A"%char \/ (x = "?"%char /\ y = "?"%char))
  /\ (unstage = git_restore_staged filename <->
      ~ (x = "A"%char \/ (x = "?"%char /\ y = "?"%char))).
Proof.
  unfold interpretXY, neqb, git_rm_cached, git_restore_staged.
  destruct (Ascii.eqb_spec x "?") as [Hxq|Hxq];
    destruct (Ascii.eqb_spec y "?") as [Hyq|Hyq];
    destruct (Ascii.eqb_spec x "A") as [HxA|HxA];
    destruct (Ascii.eqb_spec y " ") as [Hys|Hys];
    destruct (Ascii.eqb_spec x " ") as [Hxs|Hxs];
    cbn; try (exfalso; congruence);
    repeat split; try intros; try discriminate; try congruence;
    try tauto; try (exfalso; intuition congruence);
    intuition (try discriminate; try congruence).
Qed.

(** ** The loader and [main] *)

Section Loader.
Context {C : Collaborators}.

Lemma interpretGitStatus_of_line (l : string) (filename : string) :
  longEnough l = true ->
  interpretGitStatus (substring 0 2 l) filename
  = Some (interpretXY (default " "%char (String.get 0 l))
                      (default " "%char (String.get 1 l)) filename).
Proof.
  unfold longEnough. destruct (Z.ltb_spec (Z.of_nat (String.length l)) 4)
    as [|Hlong]; [discriminate|]. intros _.
  destruct l as [|a [|b [|c [|d rest]]]]; cbn in Hlong; try lia.
  reflexivity.
Qed.

Lemma loadLines_filter_map (lines : list string) :
  forall acc : list fileEntry,
  loadLines lines acc
  = Some (acc ++ map entryOfLine (List.filter longEnough lines)).
Proof.
  induction lines as [|l lines IH]; intros acc; cbn [loadLines List.filter map].
  - rewrite app_nil_r. reflexivity.
  - destruct (longEnough l) eqn:Hlong.
    + pose proof Hlong as Hl. unfold longEnough in Hl.
      apply negb_true_iff in Hl. rewrite Hl.
      rewrite (interpretGitStatus_of_line l _ Hlong).
      cbn [map]. unfold entryOfLine at 1.
      destruct (interpretXY _ _ _) as [[st stage] unstage].
      rewrite IH, <- app_assoc. reflexivity.
    + pose proof Hlong as Hl. unfold longEnough in Hl.
      apply negb_false_iff in Hl. rewrite Hl. apply IH.
Qed.

Lemma getGitChanges_success (w : World) :
  exit (fst (spawn checkCmd w)) = Exited 0 ->
  TrimSpace (stdout (fst (spawn checkCmd w))) = "true" ->
  exit (fst (spawn statusCmd (snd (spawn checkCmd w)))) = Exited 0 ->
  getGitChanges w
  = Some (map entryOfLine
            (List.filter longEnough
               (Split (stdout (fst (spawn statusCmd (snd (spawn checkCmd w)))))
                      LF)),
          None, snd (spawn statusCmd (snd (spawn checkCmd w)))).
Proof.
  intros Hexit Hout Hexit2. unfold getGitChanges, Output.
  fold checkCmd statusCmd.
  destruct (spawn checkCmd w) as [r w1]. cbn [fst snd] in *.
  destruct (spawn statusCmd w1) as [r2 w2]. cbn [fst snd] in *.
  rewrite Hexit, Hout, Hexit2. cbn.
  rewrite loadLines_filter_map. reflexivity.
Qed.

Lemma getGitChanges_status_failure (w : World) :
  exit (fst (spawn checkCmd w)) = Exited 0 ->
  TrimSpace (stdout (fst (spawn checkCmd w))) = "true" ->
  forall e : error,
  errOf (exit (fst (spawn statusCmd (snd (spawn checkCmd w))))) = Some e ->
  getGitChanges w
  = Some ([], Some e, snd (spawn statusCmd (snd (spawn checkCmd w)))).
Proof.
  intros Hexit Hout e He. unfold getGitChanges, Output.
  fold checkCmd statusCmd.
  destruct (spawn checkCmd w) as [r w1]. cbn [fst snd] in *.
  destruct (spawn statusCmd w1) as [r2 w2]. cbn [fst snd] in *.
  rewrite Hexit, Hout, He. reflexivity.
Qed.

End Loader.

(** X3. When the check passes and the status query succeeds, the loader
    returns one entry for each line of the status output that is at least
    four bytes long, in the order of the output, and skips every shorter
    line (the empty piece after the last newline among them); the entry of
    a line has the trimmed bytes from offset 3 on as its name and the
    classification and commands of the line's first two bytes. *)
Theorem loader_keeps_long_lines_in_order {C : Collaborators} (w : World) :
  exit (fst (spawn checkCmd w)) = Exited 0 ->
  TrimSpace (stdout (fst (spawn checkCmd w))) = "true" ->
  exit (fst (spawn statusCmd (snd (spawn checkCmd w)))) = Exited 0 ->
  let out := stdout (fst (spawn statusCmd (snd (spawn checkCmd w)))) in
  exists fs,
    getGitChanges w
    = Some (fs, None, snd (spawn statusCmd (snd (spawn checkCmd w))))
    /\ fs = map entryOfLine (List.filter longEnough (Split out LF))
    /\ length fs = length (List.filter longEnough (Split out LF))
    /\ map name fs
       = map (fun l => TrimSpace (substring 3 (String.length l - 3) l))
             (List.filter longEnough (Split out LF)).
Proof.
  intros Hexit Hout Hexit2 out. eexists. split.
  - apply getGitChanges_success; assumption.
  - split; [reflexivity|]. split; [apply length_map|].
    rewrite map_map. apply map_ext. intros l. unfold entryOfLine.
    destruct (interpretXY _ _ _) as [[st stage] unstage]. reflexivity.
Qed.

Lemma loader_keeps_long_lines_in_order_witness :
  exists fs,
    getGitChanges (C := scripted demoRepo) []
    = Some (fs, None, [checkCmd; statusCmd])
    /\ map name fs
       = ["newfile.txt"; "changed.txt"; "added.txt"; "addedmod.txt"].
Proof.
  destruct (loader_keeps_long_lines_in_order (C := scripted demoRepo) []
              eq_refl eq_refl eq_refl) as (fs & Hload & _ & _ & Hnames).
  exists fs. split; [exact Hload|]. rewrite Hnames. reflexivity.
Defined.

(** X4. When the check passes and the status query fails (it does not exit
    with code 0), the loader returns that error and no entries, and [main]
    prints "Error: " followed by the error's text and ends the process with
    exit code 1 without entering the event loop. *)
Theorem status_query_failure_is_fatal {C : Collaborators} (w : World) :
  exit (fst (spawn checkCmd w)) = Exited 0 ->
  TrimSpace (stdout (fst (spawn checkCmd w))) = "true" ->
  exit (fst (spawn statusCmd (snd (spawn checkCmd w)))) <> Exited 0 ->
  exists e : error,
    errOf (exit (fst (spawn statusCmd (snd (spawn checkCmd w))))) = Some e
    /\ getGitChanges w
       = Some ([], Some e, snd (spawn statusCmd (snd (spawn checkCmd w))))
    /\ main w
       = Some (Exits ("Error: " +:+ Error e +:+ String LF "") 1,
               snd (spawn statusCmd (snd (spawn checkCmd w)))).
Proof.
  intros Hexit Hout Hfail.
  destruct (errOf (exit (fst (spawn statusCmd (snd (spawn checkCmd w))))))
    as [e|] eqn:He; [|apply errOf_None in He; contradiction].
  exists e. split; [reflexivity|].
  pose proof (getGitChanges_status_failure w Hexit Hout e He) as Hload.
  split; [exact Hload|]. unfold main. rewrite Hload. reflexivity.
Qed.

Lemma status_query_failure_is_fatal_witness :
  main (C := scripted brokenIndex) []
  = Some (Exits ("Error: exit status 128" +:+ String LF "") 1,
          [checkCmd; statusCmd]).
Proof.
  destruct (status_query_failure_is_fatal (C := scripted brokenIndex) []
              eq_refl eq_refl ltac:(discriminate)) as (e & He & _ & Hmain).
  injection He as <-. exact Hmain.
Defined.

(** X5. [main] never panics, and it enters the event loop exactly when the
    loader returns a non-empty list without an error; the model it starts
    the loop with is in browsing mode, with that list, the cursor on the
    first entry, an empty diff, scroll offset 0 and viewport height 0. *)
Theorem main_enters_loop_iff {C : Collaborators}
    (w w' : World) (m : model) :
  (exists r, main w = Some r)
  /\ (main w = Some (EntersLoop m, w') <->
      exists fs, fs <> [] /\ getGitChanges w = Some (fs, None, w')
                 /\ m = mkModel fs 0 false false "" 0 0).
Proof.
  split.
  - unfold main. destruct (getGitChanges_total w) as [[[fs err] w1] ->].
    destruct err; [eexists; reflexivity|].
    destruct (len fs =? 0); eexists; reflexivity.
  - unfold main. split.
    + destruct (getGitChanges w) as [[[fs err] w1]|]; [|discriminate].
      destruct err; [discriminate|].
      destruct (Z.eqb_spec (len fs) 0) as [|Hne]; [discriminate|].
      intros [= <- <-]. exists fs. split; [|split; reflexivity].
      intros ->. apply Hne. reflexivity.
    + intros (fs & Hne & -> & ->).
      destruct (Z.eqb_spec (len fs) 0) as [Hz|_]; [|reflexivity].
      destruct fs; [contradiction | discriminate].
Qed.

(** ** Sessions *)

Section Sessions.
Context {C : Collaborators}.

Lemma main_EntersLoop_cursor (w w' : World) (m : model) :
  main w = Some (EntersLoop m, w') ->
  0 <= cursor m < len (files m) /\ diffMode m = false /\ scrollOffset m = 0.
Proof.
  unfold main.
  destruct (getGitChanges w) as [[[fs err] w1]|]; [|discriminate].
  destruct err; [discriminate|].
  destruct (Z.eqb_spec (len fs) 0) as [|Hne]; [discriminate|].
  intros [= <- <-]. cbn. pose proof (len_nonneg fs). repeat split; lia.
Qed.

(** One message changes an entry at most in its classification. *)
Lemma Update_sameButStatus (m m' : model) (msg : Msg) (cmd : teaCmd)
    (w w' : World) :
  Update m msg w = Some (m', cmd, w') ->
  length (files m') = length (files m)
  /\ forall (i : Z) (f' : fileEntry),
       index (files m') i = Some f' ->
       exists f, index (files m) i = Some f /\ sameButStatus f f'.
Proof.
  intros Hu.
  destruct (Update_files _ _ _ _ _ _ Hu) as [->|(f & started & Hf & ->)].
  - split; [reflexivity|]. intros i f' Hi. exists f'.
    split; [exact Hi | repeat split].
  - split; [apply length_insert|]. intros i f' Hi.
    destruct (Nat.eq_dec (Z.to_nat i) (Z.to_nat (cursor m))) as [Hsame|Hother].
    + pose proof (index_Some _ _ _ Hf) as Hr.
      assert (Hii : index (files m) i = Some f).
      { unfold index in *. destruct (0 <=? i); [|discriminate].
        destruct (Z.leb_spec 0 (cursor m)); [|lia]. rewrite Hsame. exact Hf. }
      exists f. split; [exact Hii|].
      unfold index in Hi. destruct (0 <=? i); [|discriminate].
      rewrite Hsame, list_lookup_insert_eq in Hi by (unfold len in Hr; lia).
      injection Hi as <-. apply afterToggle_same.
    + exists f'. split; [|repeat split].
      apply (index_insert_other _ _ _ _ _ Hi Hother).
Qed.

Lemma run_sameButStatus (msgs : list Msg) :
  forall (m m' : model) (w w' : World),
  run m msgs w = Some (m', w') ->
  length (files m') = length (files m)
  /\ forall (i : Z) (f' : fileEntry),
       index (files m') i = Some f' ->
       exists f, index (files m) i = Some f /\ sameButStatus f f'.
Proof.
  induction msgs as [|msg msgs IH]; intros m m' w w' Hrun.
  - injection Hrun as <- _. split; [reflexivity|].
    intros i f' Hi. exists f'. split; [exact Hi | repeat split].
  - cbn [run] in Hrun.
    destruct (Update m msg w) as [[[m1 cmd] w1]|] eqn:Hu; [|discriminate].
    destruct (Update_sameButStatus _ _ _ _ _ _ Hu) as [Hl1 He1].
    destruct cmd.
    + destruct (IH _ _ _ _ Hrun) as [Hl He]. split; [congruence|].
      intros i f' Hi. destruct (He i f' Hi) as (f1 & Hi1 & Hs1).
      destruct (He1 i f1 Hi1) as (f & Hi0 & Hs0).
      exists f. split; [exact Hi0|].
      destruct Hs0 as (? & ? & ?), Hs1 as (? & ? & ?).
      repeat split; congruence.
    + injection Hrun as <- _. split; [exact Hl1 | exact He1].
Qed.

End Sessions.

(** X6. A session never panics in [Update]: from the model with which [main]
    enters the event loop, every sequence of messages, run in any world, is
    processed to the end (or to the quit key), and the cursor is an index
    of the list after it. *)
Theorem session_never_panics_in_Update {C : Collaborators}
    (w w1 : World) (m : model) (msgs : list Msg) (w2 : World) :
  main w = Some (EntersLoop m, w1) ->
  exists m' w',
    run m msgs w2 = Some (m', w')
    /\ 0 <= cursor m' < len (files m')
    /\ len (files m') = len (files m).
Proof.
  intros Hmain. apply run_total.
  apply (main_EntersLoop_cursor _ _ _ Hmain).
Qed.

Lemma session_never_panics_in_Update_witness :
  exists m' w',
    run (C := scripted demoRepo) (initialModel demoFiles)
        [KeyMsg "down"; KeyMsg " "; KeyMsg "d"; KeyMsg "x"; WindowSizeMsg 80 2;
         KeyMsg "pgup"; KeyMsg "up"; OtherMsg] [] = Some (m', w')
    /\ 0 <= cursor m' < len (files m')
    /\ len (files m') = len (files (initialModel demoFiles)).
Proof.
  apply (session_never_panics_in_Update (C := scripted demoRepo)
           [] [checkCmd; statusCmd]).
  vm_compute. reflexivity.
Defined.

(** X7. The list of entries is fixed for the session: whatever messages are
    processed, the list keeps its length and its order, and every entry
    keeps its name, its stage command and its unstage command; only its
    classification (and whether the two commands have been started) can
    differ. *)
Theorem entries_change_only_in_classification {C : Collaborators}
    (m m' : model) (msgs : list Msg) (w w' : World) :
  run m msgs w = Some (m', w') ->
  length (files m') = length (files m)
  /\ forall (i : Z) (f' : fileEntry),
       index (files m') i = Some f' ->
       exists f, index (files m) i = Some f
         /\ name f' = name f
         /\ stageCmd f' = stageCmd f
         /\ unstageCmd f' = unstageCmd f.
Proof.
  intros Hrun. destruct (run_sameButStatus msgs _ _ _ _ Hrun) as [Hl He].
  split; [exact Hl|]. intros i f' Hi.
  destruct (He i f' Hi) as (f & Hf & Hn & Hs & Hu).
  exists f. auto.
Qed.

Lemma entries_change_only_in_classification_witness :
  exists m' w',
    run (C := scripted demoRepo) (initialModel demoFiles)
        [KeyMsg " "; KeyMsg "down"; KeyMsg " "; KeyMsg "d"; KeyMsg "down"] []
      = Some (m', w')
    /\ length (files m') = 4%nat
    /\ map name (files m') = map name demoFiles.
Proof.
  eexists _, _. split; [vm_compute; reflexivity|].
  split; [|reflexivity].
  exact (proj1 (entries_change_only_in_classification (C := scripted demoRepo)
                  (initialModel demoFiles) _
                  [KeyMsg " "; KeyMsg "down"; KeyMsg " "; KeyMsg "d";
                   KeyMsg "down"] [] _ eq_refl)).
Defined.

(** ** The renderer *)

Lemma slice_Some {A} (l : list A) (lo hi : Z) (v : list A) :
  slice l lo hi = Some v ->
  0 <= lo /\ lo <= hi /\ hi <= len l
  /\ v = take (Z.to_nat (hi - lo)) (drop (Z.to_nat lo) l).
Proof.
  unfold slice.
  destruct (Z.leb_spec 0 lo); [|discriminate].
  destruct (Z.leb_spec lo hi); [|discriminate].
  destruct (Z.leb_spec hi (len l)); [|discriminate].
  cbn. intros [= <-]. auto.
Qed.

Lemma slice_whole {A} (l : list A) : slice l 0 (len l) = Some l.
Proof.
  unfold slice. pose proof (len_nonneg l).
  destruct (Z.leb_spec 0 0); [|lia].
  destruct (Z.leb_spec 0 (len l)); [|lia].
  destruct (Z.leb_spec (len l) (len l)); [|lia]. cbn.
  rewrite drop_0, take_ge; [reflexivity | unfold len; lia].
Qed.

Lemma Split_cons (s : string) (sep : ascii) :
  exists piece pieces, Split s sep = piece :: pieces.
Proof.
  pose proof (Split_nonempty s sep) as H.
  destruct (Split s sep) as [|piece pieces]; [cbn in H; lia | eauto].
Qed.

(** Joining the pieces with the separator gives the string back. *)
Lemma Join_Split (s : string) (sep : ascii) :
  Join (Split s sep) (String sep "") = s.
Proof.
  unfold Join. induction s as [|c s IH]; [reflexivity|].
  assert (Hcons : forall x y l,
            String.concat (String sep "") (x :: y :: l)
            = x +:+ String sep "" +:+ String.concat (String sep "") (y :: l))
    by reflexivity.
  cbn [Split]. destruct (Split_cons s sep) as (piece & pieces & Hs).
  rewrite Hs in *. destruct (Ascii.eqb_spec c sep) as [->|Hne].
  - rewrite Hcons, IH. reflexivity.
  - destruct pieces as [|p ps].
    + cbn in *. rewrite IH. reflexivity.
    + rewrite Hcons in *. rewrite <- IH. reflexivity.
Qed.

(** X8. [View] panics exactly when, in diff mode and not quitting, the
    viewport height is negative or the scroll offset is negative or greater
    than the number of lines of the diff; a quitting model and a model in
    browsing mode are always drawn. *)
Theorem view_is_drawn_iff {C : Collaborators} (m : model) :
  (quitting m = true -> View m = Some "")
  /\ (diffMode m = false -> drawn (View m) = true)
  /\ (quitting m = false -> diffMode m = true ->
      (View m = None
       <-> viewportHeight m < 0 \/ scrollOffset m < 0
           \/ lineCount m < scrollOffset m)).
Proof.
  split; [|split].
  - intros Hq. unfold View. rewrite Hq. reflexivity.
  - intros Hb. unfold View. rewrite Hb. destruct (quitting m); reflexivity.
  - intros Hq Hd. pose proof (drawn_diff_iff m Hq Hd) as Hiff.
    destruct (View m); cbn in Hiff; split; intros H;
      try discriminate; try reflexivity.
    + destruct Hiff as [Hok _]. specialize (Hok eq_refl). lia.
    + destruct (Z.lt_ge_cases (viewportHeight m) 0); [tauto|].
      destruct (Z.lt_ge_cases (scrollOffset m) 0); [tauto|].
      destruct (Z.lt_ge_cases (lineCount m) (scrollOffset m)); [tauto|].
      destruct Hiff as [_ Hbad]. discriminate Hbad. lia.
Qed.

Lemma view_is_drawn_iff_witness :
  View (C := scripted demoRepo)
       (mkModel demoFiles 0 false true (textOfLines 2) 4 20) = None
  /\ drawn (View (C := scripted demoRepo)
              (mkModel demoFiles 0 false true (textOfLines 2) 3 20)) = true.
Proof.
  pose proof (view_is_drawn_iff (C := scripted demoRepo)
                (mkModel demoFiles 0 false true (textOfLines 2) 4 20))
    as (_ & _ & Hpanic).
  split; [|reflexivity].
  apply (Hpanic eq_refl eq_refl). right. right. vm_compute. reflexivity.
Defined.

(** X9. What the diff viewer shows: when [View] draws a model in diff mode,
    the lines it joins are the lines of the diff from index [scrollOffset]
    on, [min(viewportHeight, totalLines - scrollOffset)] of them: never
    more than the viewport holds, and in the order of the diff. *)
Theorem visible_lines_window {C : Collaborators} (m : model)
    (visibleLines : list string) :
  slice (Split (diffContent m) LF) (scrollOffset m) (visibleEnd m)
    = Some visibleLines ->
  len visibleLines
    = Z.min (viewportHeight m) (lineCount m - scrollOffset m)
  /\ len visibleLines <= viewportHeight m
  /\ forall i : Z, 0 <= i < len visibleLines ->
       index visibleLines i
       = index (Split (diffContent m) LF) (scrollOffset m + i).
Proof.
  intros Hs. apply slice_Some in Hs as (Hlo & Hle & Hhi & ->).
  fold (lineCount m) in Hhi. unfold visibleEnd in *.
  assert (Hlen : len (take (Z.to_nat
                   ((if scrollOffset m + viewportHeight m >? lineCount m
                     then lineCount m
                     else scrollOffset m + viewportHeight m)
                    - scrollOffset m))
                   (drop (Z.to_nat (scrollOffset m))
                      (Split (diffContent m) LF)))
                = Z.min (viewportHeight m) (lineCount m - scrollOffset m)).
  { unfold len. rewrite length_take, length_drop.
    unfold lineCount, len in *.
    destruct (Z.gtb_spec (scrollOffset m + viewportHeight m)
                (Z.of_nat (length (Split (diffContent m) LF)))); lia. }
  split; [exact Hlen|]. split; [lia|].
  intros i Hi. rewrite Hlen in Hi. unfold index.
  destruct (Z.leb_spec 0 i); [|lia].
  destruct (Z.leb_spec 0 (scrollOffset m + i)); [|lia].
  rewrite lookup_take, lookup_drop.
  destruct (decide (Z.to_nat i < Z.to_nat _)%nat) as [_|Hge].
  - f_equal. lia.
  - exfalso. apply Hge.
    destruct (Z.gtb_spec (scrollOffset m + viewportHeight m) (lineCount m));
      lia.
Qed.

Lemma visible_lines_window_witness :
  exists visibleLines,
    slice (Split (textOfLines 29) LF) 25 30 = Some visibleLines
    /\ len visibleLines = 5.
Proof.
  eexists. split; [vm_compute; reflexivity|].
  exact (proj1 (visible_lines_window (C := scripted demoRepo)
                  (mkModel demoFiles 0 false true (textOfLines 29) 25 20)
                  _ eq_refl)).
Defined.

(** X10. A diff that fits the viewport is shown whole and unchanged: in
    diff mode, at scroll offset 0 and with at least as many viewport lines
    as the diff has lines, the frame is the text of the diff followed by
    the footer, which counts all the lines. *)
Theorem short_diff_is_shown_whole {C : Collaborators} (m : model) :
  quitting m = false -> diffMode m = true ->
  scrollOffset m = 0 -> lineCount m <= viewportHeight m ->
  View m
  = Some (diffContent m
          +:+ String LF "↑/↓/PageUp/PageDown scroll ("
          +:+ showInt (lineCount m) +:+ "/" +:+ showInt (lineCount m)
          +:+ ")  g: top  G: bottom  d: back  q: quit" +:+ String LF "").
Proof.
  intros Hq Hd Hs Hfit. unfold View. rewrite Hq, Hd.
  assert (He : visibleEnd m = lineCount m).
  { unfold visibleEnd. rewrite Hs.
    destruct (Z.gtb_spec (0 + viewportHeight m) (lineCount m)); lia. }
  rewrite He, Hs. unfold lineCount. rewrite slice_whole, Join_Split.
  reflexivity.
Qed.

Lemma short_diff_is_shown_whole_witness :
  View (C := scripted demoRepo)
       (mkModel demoFiles 0 false true (textOfLines 2) 0 20)
  = Some (textOfLines 2
          +:+ String LF "↑/↓/PageUp/PageDown scroll (3/3)"
          +:+ "  g: top  G: bottom  d: back  q: quit" +:+ String LF "").
Proof.
  rewrite (short_diff_is_shown_whole (C := scripted demoRepo)); try reflexivity.
  vm_compute. discriminate.
Defined.

(** ** Keys and messages *)

Section Keys.
Context {C : Collaborators}.

(** In diff mode a key touches neither the entries nor the world; only "d"
    leaves the mode. *)
Lemma handleKey_diffMode (m m1 : model) (key : string) (w w1 : World) :
  diffMode m = true ->
  handleKey m key w = Some (m1, w1) ->
  files m1 = files m /\ w1 = w
  /\ ((key =? "d")%string = false -> diffMode m1 = true).
Proof.
  intros Hd. unfold handleKey, moveCursorUp, moveCursorDown. rewrite Hd.
  repeat match goal with
         | |- context [(key =? ?k)%string] =>
             destruct (String.eqb_spec key k) as [->|?]
         end;
    repeat match goal with
           | |- context [if ?b then _ else _] => destruct b
           end;
    intros [= <- <-]; cbn; repeat split; auto; discriminate.
Qed.

(** In browsing mode every key but the space bar and "d" leaves the world,
    the entries and the diff text alone; a key without a case changes
    nothing. *)
Lemma handleKey_browsing (m m1 : model) (key : string) (w w1 : World) :
  diffMode m = false ->
  key <> " " -> key <> "d" ->
  handleKey m key w = Some (m1, w1) ->
  w1 = w /\ files m1 = files m /\ diffContent m1 = diffContent m
  /\ diffMode m1 = false
  /\ (key ∉ boundKeys -> m1 = m).
Proof.
  intros Hb Hsp Hdk. unfold handleKey, moveCursorUp, moveCursorDown.
  rewrite Hb.
  repeat match goal with
         | |- context [(key =? ?k)%string] =>
             destruct (String.eqb_spec key k) as [->|?]
         end; try congruence;
    repeat match goal with
           | |- context [if ?b then _ else _] => destruct b
           end;
    intros [= <- <-]; cbn; repeat split; auto;
    intros Hnot; try reflexivity; exfalso; apply Hnot;
    unfold boundKeys; repeat constructor.
Qed.

End Keys.

Section Quitting.
Context {C : Collaborators}.

(** No key of the inner [switch] touches [quitting]. *)
Lemma handleKey_quitting (m m1 : model) (key : string) (w w1 : World) :
  handleKey m key w = Some (m1, w1) -> quitting m1 = quitting m.
Proof.
  unfold handleKey, moveCursorUp, moveCursorDown.
  repeat match goal with
         | |- context [if ?b then _ else _] => destruct b
         end;
    try (intros [= <- <-]; reflexivity).
  intros Ht.
  destruct (index (files m) (cursor m)) as [f|] eqn:Hf;
    [|unfold toggle in Ht; rewrite Hf in Ht; discriminate].
  rewrite (toggle_spec m w f Hf) in Ht. injection Ht as <- <-. reflexivity.
Qed.

(** [Update] returns [tea.Quit] on the two quit keys and on nothing else,
    and [quitting] is set then and only then. *)
Lemma Update_quitting (m m' : model) (msg : Msg) (cmd : teaCmd)
    (w w' : World) :
  Update m msg w = Some (m', cmd, w') ->
  (cmd = Quit /\ (msg = KeyMsg "q" \/ msg = KeyMsg "ctrl+c")
   /\ m' = set_quitting m true /\ w' = w)
  \/ (cmd = NoCmd /\ msg <> KeyMsg "q" /\ msg <> KeyMsg "ctrl+c"
      /\ quitting m' = quitting m).
Proof.
  intros Hu. unfold Update in Hu. destruct msg as [? Height|key|].
  - injection Hu as <- <- _. right. repeat split; discriminate.
  - destruct (String.eqb_spec key "ctrl+c") as [->|Hc].
    { injection Hu as <- <- <-. left. auto. }
    destruct (String.eqb_spec key "q") as [->|Hq].
    { injection Hu as <- <- <-. left. auto. }
    cbn [orb] in Hu.
    destruct (handleKey m key w) as [[m1 w1]|] eqn:Hh; [|discriminate].
    apply handleKey_quitting in Hh.
    assert (Hm : cmd = NoCmd /\ quitting m' = quitting m1).
    { unfold refreshDiff in Hu. destruct (diffMode m1).
      - destruct (index (files m1) (cursor m1)); [|discriminate].
        destruct (getDiff f w1). injection Hu as <- <- _. auto.
      - injection Hu as <- <- _. auto. }
    destruct Hm as [-> Hm]. right.
    split; [reflexivity|]. split; [congruence|]. split; congruence.
  - injection Hu as <- <- _. right. repeat split; discriminate.
Qed.

End Quitting.

(** X11. A session ends on the quit keys and on nothing else: [Update]
    returns [tea.Quit] exactly for "q" and "ctrl+c", no other message sets
    [quitting], and so a run that started with [quitting] unset ends with
    it set exactly when one of the two keys was among its messages; the
    frame of a quitting model is empty. *)
Theorem session_quits_only_on_quit_keys {C : Collaborators}
    (msgs : list Msg) (m m' : model) (w w' : World) :
  quitting m = false ->
  run m msgs w = Some (m', w') ->
  (quitting m' = true <-> KeyMsg "q" ∈ msgs \/ KeyMsg "ctrl+c" ∈ msgs)
  /\ (quitting m' = true -> View m' = Some "")
  /\ (forall (msg : Msg) (m1 : model) (cmd : teaCmd) (w1 : World),
        Update m' msg w' = Some (m1, cmd, w1) ->
        (cmd = Quit <-> msg = KeyMsg "q" \/ msg = KeyMsg "ctrl+c")).
Proof.
  intros Hq Hrun. split; [|split].
  - revert m w Hq Hrun.
    induction msgs as [|msg msgs IH]; intros m w Hq Hrun.
    + injection Hrun as <- _. rewrite Hq. split; [discriminate|].
      intros [Hin|Hin]; inversion Hin.
    + cbn [run] in Hrun.
      destruct (Update m msg w) as [[[m1 cmd] w1]|] eqn:Hu; [|discriminate].
      destruct (Update_quitting _ _ _ _ _ _ Hu)
        as [(-> & Hkey & -> & ->)|(-> & Hnq & Hnc & Hsame)].
      * injection Hrun as <- _. split; [|reflexivity].
        intros _. destruct Hkey as [-> | ->];
          [left | right]; apply elem_of_cons; left; reflexivity.
      * rewrite (IH m1 w1 ltac:(congruence) Hrun).
        rewrite !elem_of_cons. split.
        -- intros [H|H]; auto.
        -- intros [[H|H]|[H|H]]; auto; congruence.
  - intros Hquit. unfold View. rewrite Hquit. reflexivity.
  - intros msg m1 cmd w1 Hu.
    destruct (Update_quitting _ _ _ _ _ _ Hu)
      as [(-> & Hkey & _)|(-> & Hnq & Hnc & _)].
    + split; auto.
    + split; [discriminate|]. intros [H|H]; contradiction.
Qed.

Lemma session_quits_only_on_quit_keys_witness :
  exists m' w',
    run (C := scripted demoRepo) (initialModel demoFiles)
        [KeyMsg "down"; KeyMsg " "; KeyMsg "d"; KeyMsg "q"; KeyMsg " "] []
    = Some (m', w')
    /\ quitting m' = true
    /\ View (C := scripted demoRepo) m' = Some "".
Proof.
  eexists _, _. split; [vm_compute; reflexivity|].
  destruct (session_quits_only_on_quit_keys (C := scripted demoRepo)
              [KeyMsg "down"; KeyMsg " "; KeyMsg "d"; KeyMsg "q"; KeyMsg " "]
              (initialModel demoFiles) _ [] _ eq_refl eq_refl)
    as (Hiff & Hview & _).
  assert (Hquit : KeyMsg "q" ∈ [KeyMsg "down"; KeyMsg " "; KeyMsg "d";
                                KeyMsg "q"; KeyMsg " "])
    by repeat constructor.
  split; [apply Hiff; left; exact Hquit | apply Hview, Hiff; left; exact Hquit].
Defined.

(** X12. A resize sets the viewport height to the terminal height minus
    the number of entries minus one and touches nothing else: the width is
    ignored, no command is spawned, the diff is not fetched again and the
    scroll offset is not clamped again.  In diff mode, with the scroll
    offset within the lines of the diff, the frame after a resize is drawn
    exactly when the terminal has at least one row more than there are
    entries. *)
Theorem resize_is_drawn_iff_tall_enough {C : Collaborators}
    (m : model) (Width Height : Z) (w : World) :
  Update m (WindowSizeMsg Width Height) w
  = Some (set_viewportHeight m (Height - len (files m) - 1), NoCmd, w)
  /\ (quitting m = false -> diffMode m = true ->
      0 <= scrollOffset m <= lineCount m ->
      (drawn (View (set_viewportHeight m (Height - len (files m) - 1))) = true
       <-> len (files m) + 1 <= Height)).
Proof.
  split; [reflexivity|]. intros Hq Hd Hs.
  rewrite (drawn_diff_iff (set_viewportHeight m _)) by assumption.
  cbn [viewportHeight scrollOffset set_viewportHeight].
  change (lineCount (set_viewportHeight m (Height - len (files m) - 1)))
    with (lineCount m).
  lia.
Qed.

Lemma resize_is_drawn_iff_tall_enough_witness :
  let m := mkModel demoFiles 0 false true (textOfLines 29) 10 20 in
  drawn (View (C := scripted demoRepo) (set_viewportHeight m (5 - 4 - 1)))
    = true
  /\ ~ drawn (View (C := scripted demoRepo) (set_viewportHeight m (4 - 4 - 1)))
       = true.
Proof.
  pose proof (resize_is_drawn_iff_tall_enough (C := scripted demoRepo)
                (mkModel demoFiles 0 false true (textOfLines 29) 10 20)
                80 5 []) as [_ Hfive].
  pose proof (resize_is_drawn_iff_tall_enough (C := scripted demoRepo)
                (mkModel demoFiles 0 false true (textOfLines 29) 10 20)
                80 4 []) as [_ Hfour].
  split.
  - apply Hfive; try reflexivity; vm_compute; split; discriminate.
  - intros Hdrawn. apply Hfour in Hdrawn; try reflexivity.
    + vm_compute in Hdrawn. apply Hdrawn. reflexivity.
    + vm_compute. split; discriminate.
Defined.

Section DiffModeWorld.
Context {C : Collaborators}.

(** [getDiff] spawns its one command and nothing else. *)
Lemma getDiff_world (f : fileEntry) (w : World) :
  snd (getDiff f w) = snd (spawn (diffCmd f) w).
Proof.
  unfold getDiff, CombinedOutput. destruct (spawn (diffCmd f) w) as [r w1].
  destruct (errOf (exit r)); reflexivity.
Qed.

Lemma index_elem_of {A} (l : list A) (i : Z) (a : A) :
  index l i = Some a -> a ∈ l.
Proof.
  unfold index. destruct (0 <=? i); [|discriminate].
  apply list_elem_of_lookup_2.
Qed.

(** One message in diff mode, "d" apart: the entries stay, the mode stays,
    and the world is left alone or the diff of one entry is fetched. *)
Lemma Update_diffMode_world (m m1 : model) (msg : Msg) (cmd : teaCmd)
    (w w1 : World) :
  diffMode m = true ->
  msg <> KeyMsg "d" ->
  Update m msg w = Some (m1, cmd, w1) ->
  files m1 = files m /\ diffMode m1 = true
  /\ exists fetched : list fileEntry,
       (forall f, f ∈ fetched -> f ∈ files m)
       /\ w1 = spawnAll (map diffCmd fetched) w.
Proof.
  intros Hd Hmsg Hu. unfold Update in Hu. destruct msg as [? Height|key|].
  - injection Hu as <- _ <-. split; [auto|]. split; [auto|].
    exists []. split; [intros f Hin; inversion Hin | reflexivity].
  - destruct ((key =? "ctrl+c")%string || (key =? "q")%string).
    + injection Hu as <- _ <-. split; [auto|]. split; [auto|].
      exists []. split; [intros f Hin; inversion Hin | reflexivity].
    + destruct (handleKey m key w) as [[m2 w2]|] eqn:Hh; [|discriminate].
      destruct (handleKey_diffMode _ _ _ _ _ Hd Hh) as (Hf & -> & Hmode).
      assert (Hd2 : diffMode m2 = true).
      { apply Hmode. destruct (String.eqb_spec key "d") as [->|];
          [contradiction | reflexivity]. }
      unfold refreshDiff in Hu. rewrite Hd2 in Hu.
      destruct (index (files m2) (cursor m2)) as [f|] eqn:Hidx;
        [|discriminate].
      pose proof (getDiff_world f w) as Hw.
      destruct (getDiff f w) as [text w3]. injection Hu as <- _ <-.
      cbn in Hw. split; [exact Hf|]. split; [exact Hd2|].
      exists [f]. split; [|rewrite Hw; reflexivity].
      intros f' Hin. apply list_elem_of_singleton in Hin as ->.
      rewrite <- Hf. exact (index_elem_of _ _ _ Hidx).
  - injection Hu as <- _ <-. split; [auto|]. split; [auto|].
    exists []. split; [intros f Hin; inversion Hin | reflexivity].
Qed.

End DiffModeWorld.

(** X13. Nothing is staged or unstaged from the diff viewer: as long as no
    "d" is pressed, every sequence of messages that starts in diff mode
    leaves the list of entries as it is and ends in diff mode, and all that
    is spawned on the way is the diff command of entries of the list, one
    after the other. *)
Theorem diff_mode_never_stages {C : Collaborators}
    (msgs : list Msg) (m m' : model) (w w' : World) :
  diffMode m = true ->
  KeyMsg "d" ∉ msgs ->
  run m msgs w = Some (m', w') ->
  files m' = files m /\ diffMode m' = true
  /\ exists fetched : list fileEntry,
       (forall f, f ∈ fetched -> f ∈ files m)
       /\ w' = spawnAll (map diffCmd fetched) w.
Proof.
  revert m w. induction msgs as [|msg msgs IH]; intros m w Hd Hno Hrun.
  - injection Hrun as <- <-. split; [auto|]. split; [auto|].
    exists []. split; [intros f Hin; inversion Hin | reflexivity].
  - apply not_elem_of_cons in Hno as [Hmsg Hno]. cbn [run] in Hrun.
    destruct (Update m msg w) as [[[m1 cmd] w1]|] eqn:Hu; [|discriminate].
    destruct (Update_diffMode_world _ _ _ _ _ _ Hd (not_eq_sym Hmsg) Hu)
      as (Hf1 & Hd1 & step & Hstep & ->).
    destruct cmd.
    + destruct (IH m1 _ Hd1 Hno Hrun) as (Hf & Hdm & rest & Hrest & ->).
      split; [congruence|]. split; [exact Hdm|].
      exists (step ++ rest). split.
      * intros f Hin. apply elem_of_app in Hin as [Hin|Hin];
          [apply Hstep, Hin | rewrite <- Hf1; apply Hrest, Hin].
      * unfold spawnAll. rewrite map_app, fold_left_app. reflexivity.
    + injection Hrun as <- <-. split; [exact Hf1|]. split; [exact Hd1|].
      exists step. split; [exact Hstep | reflexivity].
Qed.

Lemma diff_mode_never_stages_witness :
  exists m' w',
    run (C := scripted demoRepo)
        (mkModel demoFiles 2 false true (textOfLines 2) 0 20)
        [KeyMsg " "; KeyMsg "up"; KeyMsg " "; WindowSizeMsg 80 30; KeyMsg "G";
         KeyMsg " "] [] = Some (m', w')
    /\ files m' = demoFiles
    /\ exists fetched : list fileEntry,
         (forall f, f ∈ fetched -> f ∈ demoFiles)
         /\ w' = spawnAll (C := scripted demoRepo) (map diffCmd fetched) [].
Proof.
  eexists _, _. split; [vm_compute; reflexivity|].
  assert (Hno : KeyMsg "d" ∉ [KeyMsg " "; KeyMsg "up"; KeyMsg " ";
                               WindowSizeMsg 80 30; KeyMsg "G"; KeyMsg " "]).
  { intros Hin. repeat (apply elem_of_cons in Hin as [Hin|Hin];
                        [discriminate|]).
    apply elem_of_nil in Hin. exact Hin. }
  destruct (diff_mode_never_stages (C := scripted demoRepo)
              [KeyMsg " "; KeyMsg "up"; KeyMsg " "; WindowSizeMsg 80 30;
               KeyMsg "G"; KeyMsg " "]
              (mkModel demoFiles 2 false true (textOfLines 2) 0 20)
              _ [] _ eq_refl Hno eq_refl) as (Hfiles & _ & Hworld).
  split; [exact Hfiles | exact Hworld].
Defined.

(** X14. In browsing mode only the space bar and "d" reach the outside
    world: every other key leaves the world, the entries and the diff text
    alone and stays in browsing mode, and a key [Update] has no case for
    changes nothing at all. *)
Theorem browsing_keys_spawn_nothing {C : Collaborators}
    (m m' : model) (key : string) (cmd : teaCmd) (w w' : World) :
  diffMode m = false ->
  key <> " " -> key <> "d" ->
  Update m (KeyMsg key) w = Some (m', cmd, w') ->
  w' = w /\ files m' = files m /\ diffContent m' = diffContent m
  /\ diffMode m' = false
  /\ (key ∉ boundKeys -> m' = m /\ cmd = NoCmd).
Proof.
  intros Hb Hsp Hdk Hu. unfold Update in Hu.
  destruct ((key =? "ctrl+c")%string || (key =? "q")%string) eqn:Hquit.
  - injection Hu as <- <- <-. cbn.
    do 4 (split; [auto|]).
    intros Hnot. exfalso. apply Hnot. unfold boundKeys.
    apply orb_true_iff in Hquit as [Hk|Hk];
      apply String.eqb_eq in Hk; subst; repeat constructor.
  - destruct (handleKey m key w) as [[m1 w1]|] eqn:Hh; [|discriminate].
    destruct (handleKey_browsing _ _ _ _ _ Hb Hsp Hdk Hh)
      as (Hw & Hf & Hc & Hd1 & Hsame).
    rewrite (refreshDiff_browsing m1 w1 Hd1) in Hu.
    injection Hu as <- <- <-.
    do 4 (split; [auto|]).
    intros Hnot. split; [apply Hsame, Hnot | reflexivity].
Qed.

Lemma browsing_keys_spawn_nothing_witness :
  exists m' cmd w',
    Update (C := scripted demoRepo) (initialModel demoFiles) (KeyMsg "down") []
      = Some (m', cmd, w')
    /\ w' = [] /\ files m' = demoFiles.
Proof.
  eexists _, _, _. split; [vm_compute; reflexivity|].
  destruct (browsing_keys_spawn_nothing (C := scripted demoRepo)
              (initialModel demoFiles) _ "down" _ [] _ eq_refl
              ltac:(discriminate) ltac:(discriminate) eq_refl)
    as (Hw & Hf & _).
  split; assumption.
Defined.

(** ** The diff viewer *)

(** X15. The diff shown is never stale after a key: whenever a key leaves
    the model in diff mode, the text in [diffContent] is the one [getDiff]
    has just returned for the entry that is now under the cursor. *)
Theorem diff_is_fetched_after_every_key {C : Collaborators}
    (m m' : model) (key : string) (w w' : World) :
  Update m (KeyMsg key) w = Some (m', NoCmd, w') ->
  diffMode m' = true ->
  exists (f : fileEntry) (w1 : World),
    index (files m') (cursor m') = Some f
    /\ diffContent m' = fst (getDiff f w1)
    /\ w' = snd (getDiff f w1).
Proof.
  intros Hu Hd. unfold Update in Hu.
  destruct ((key =? "ctrl+c")%string || (key =? "q")%string);
    [discriminate|].
  destruct (handleKey m key w) as [[m1 w1]|]; [|discriminate].
  unfold refreshDiff in Hu. destruct (diffMode m1) eqn:Hd1.
  - destruct (index (files m1) (cursor m1)) as [f|] eqn:Hf; [|discriminate].
    destruct (getDiff f w1) as [text w2] eqn:Hg.
    injection Hu as <- <-. exists f, w1. rewrite Hg. cbn. auto.
  - injection Hu as <- _. congruence.
Qed.

Lemma diff_is_fetched_after_every_key_witness :
  exists m' w',
    Update (C := scripted demoRepo)
           (mkModel demoFiles 1 false true "stale" 0 20) (KeyMsg "down") []
      = Some (m', NoCmd, w')
    /\ cursor m' = 2
    /\ diffContent m' = textOfLines 2.
Proof.
  eexists _, _. split; [vm_compute; reflexivity|]. split; [reflexivity|].
  destruct (diff_is_fetched_after_every_key (C := scripted demoRepo)
              (mkModel demoFiles 1 false true "stale" 0 20) _ "down" [] _
              eq_refl eq_refl) as (f & w1 & Hf & Hc & _).
  etransitivity; [exact Hc|]. injection Hf as <-. reflexivity.
Defined.

(** X16. Moving from file to file inside the diff viewer: at the top of a
    diff "up" goes to the entry before, and at the bottom "down" goes to
    the entry after; the scroll offset is reset to 0 and the diff of the
    new entry is fetched.  On the first entry "up" at the top, and on the
    last entry "down" at the bottom, move nothing. *)
Theorem diff_viewer_steps_through_files {C : Collaborators}
    (m : model) (w : World) (f : fileEntry) :
  diffMode m = true ->
  index (files m) (cursor m) = Some f ->
  (scrollOffset m <= 0 ->
   forall g, index (files m) (cursor m - 1) = Some g ->
     Update m (KeyMsg "up") w
     = Some (set_diffContent (set_scrollOffset (set_cursor m (cursor m - 1)) 0)
               (fst (getDiff g w)),
             NoCmd, snd (getDiff g w)))
  /\ (getMaxScroll m <= scrollOffset m ->
      forall g, index (files m) (cursor m + 1) = Some g ->
        Update m (KeyMsg "down") w
        = Some (set_diffContent
                  (set_scrollOffset (set_cursor m (cursor m + 1)) 0)
                  (fst (getDiff g w)),
                NoCmd, snd (getDiff g w)))
  /\ (scrollOffset m <= 0 -> cursor m = 0 ->
      Update m (KeyMsg "up") w
      = Some (set_diffContent m (fst (getDiff f w)), NoCmd,
              snd (getDiff f w)))
  /\ (getMaxScroll m <= scrollOffset m -> cursor m = len (files m) - 1 ->
      Update m (KeyMsg "down") w
      = Some (set_diffContent m (fst (getDiff f w)), NoCmd,
              snd (getDiff f w))).
Proof.
  intros Hd Hf. pose proof (index_Some _ _ _ Hf) as Hc.
  assert (Hup : scrollOffset m <= 0 ->
                handleKey m "up" w = Some (moveCursorUp m, w)).
  { intros Hs. unfold handleKey. cbn. rewrite Hd.
    destruct (Z.gtb_spec (scrollOffset m) 0); [lia | reflexivity]. }
  assert (Hdown : getMaxScroll m <= scrollOffset m ->
                  handleKey m "down" w = Some (moveCursorDown m, w)).
  { intros Hs. unfold handleKey. cbn. rewrite Hd.
    destruct (Z.ltb_spec (scrollOffset m) (getMaxScroll m));
      [lia | reflexivity]. }
  split; [|split; [|split]].
  - intros Hs g Hg. pose proof (index_Some _ _ _ Hg) as Hcg.
    rewrite Update_key, (Hup Hs) by reflexivity. unfold moveCursorUp.
    destruct (Z.gtb_spec (cursor m) 0); [|lia].
    rewrite (refreshDiff_diffMode _ w g) by (cbn; auto). reflexivity.
  - intros Hs g Hg. pose proof (index_Some _ _ _ Hg) as Hcg.
    rewrite Update_key, (Hdown Hs) by reflexivity. unfold moveCursorDown.
    destruct (Z.ltb_spec (cursor m) (len (files m) - 1)); [|lia].
    rewrite (refreshDiff_diffMode _ w g) by (cbn; auto). reflexivity.
  - intros Hs Hz. rewrite Update_key, (Hup Hs) by reflexivity.
    unfold moveCursorUp. destruct (Z.gtb_spec (cursor m) 0); [lia|].
    rewrite (refreshDiff_diffMode _ w f) by auto. reflexivity.
  - intros Hs Hz. rewrite Update_key, (Hdown Hs) by reflexivity.
    unfold moveCursorDown.
    destruct (Z.ltb_spec (cursor m) (len (files m) - 1)); [lia|].
    rewrite (refreshDiff_diffMode _ w f) by auto. reflexivity.
Qed.

Lemma diff_viewer_steps_through_files_witness :
  exists m' w',
    Update (C := scripted demoRepo)
           (mkModel demoFiles 1 false true (textOfLines 29) 10 20)
           (KeyMsg "down") [] = Some (m', NoCmd, w')
    /\ cursor m' = 2 /\ scrollOffset m' = 0
    /\ diffContent m' = textOfLines 2.
Proof.
  destruct (diff_viewer_steps_through_files (C := scripted demoRepo)
              (mkModel demoFiles 1 false true (textOfLines 29) 10 20) []
              (entry " M" "changed.txt") eq_refl eq_refl)
    as (_ & Hdown & _).
  eexists _, _. split.
  - apply (Hdown ltac:(vm_compute; discriminate) (entry "A " "added.txt")
             eq_refl).
  - repeat split.
Defined.

Section Viewer.
Context {C : Collaborators}.

Lemma Update_G (m : model) (w : World) (f : fileEntry) :
  diffMode m = true -> index (files m) (cursor m) = Some f ->
  Update m (KeyMsg "G") w
  = Some (set_diffContent (set_scrollOffset m (getMaxScroll m))
            (fst (getDiff f w)), NoCmd, snd (getDiff f w)).
Proof.
  intros Hd Hf. rewrite Update_key by reflexivity.
  unfold handleKey. cbn. rewrite Hd.
  change (if diffMode m then ?a else ?b) with a.
  rewrite (refreshDiff_diffMode _ w f) by (cbn; auto). reflexivity.
Qed.

Lemma Update_g (m : model) (w : World) (f : fileEntry) :
  diffMode m = true -> index (files m) (cursor m) = Some f ->
  Update m (KeyMsg "g") w
  = Some (set_diffContent (set_scrollOffset m 0) (fst (getDiff f w)),
          NoCmd, snd (getDiff f w)).
Proof.
  intros Hd Hf. rewrite Update_key by reflexivity.
  unfold handleKey. cbn. rewrite Hd.
  rewrite (refreshDiff_diffMode _ w f) by (cbn; auto). reflexivity.
Qed.

End Viewer.

Lemma slice_to_end_last {A} (l : list A) (lo : Z) :
  0 <= lo < len l ->
  exists v, slice l lo (len l) = Some v /\ last v = last l.
Proof.
  intros Hlo. unfold slice, len in *.
  destruct (Z.leb_spec 0 lo); [|lia].
  destruct (Z.leb_spec lo (Z.of_nat (length l))); [|lia].
  destruct (Z.leb_spec (Z.of_nat (length l)) (Z.of_nat (length l))); [|lia].
  cbn. eexists. split; [reflexivity|].
  rewrite take_ge by (rewrite length_drop; lia).
  rewrite !last_lookup, lookup_drop, length_drop. f_equal. lia.
Qed.

Lemma slice_from_start_head {A} (l : list A) (hi : Z) :
  0 < hi <= len l ->
  exists v, slice l 0 hi = Some v /\ head v = head l.
Proof.
  intros Hhi. unfold slice, len in *.
  destruct (Z.leb_spec 0 hi); [|lia].
  destruct (Z.leb_spec hi (Z.of_nat (length l))); [|lia].
  cbn. eexists. split; [reflexivity|].
  rewrite drop_0, !head_lookup, lookup_take_lt by lia. reflexivity.
Qed.

(** X17. "G" shows the end of the diff and "g" its beginning: with a
    viewport height that is not negative and a diff that comes back
    unchanged, after "G" the frame is drawn and the lines on display end
    where the diff ends, and after "g" the frame is drawn from the first
    line on.  When the viewport has at least one line, the last line on
    display after "G" is the last line of the diff, and the first line on
    display after "g" is its first line; a viewport of height 0 displays no
    line at all. *)
Theorem G_shows_the_last_line {C : Collaborators}
    (m : model) (w : World) (f : fileEntry) :
  quitting m = false -> diffMode m = true ->
  index (files m) (cursor m) = Some f ->
  fst (getDiff f w) = diffContent m ->
  0 <= viewportHeight m ->
  (exists m' w',
     Update m (KeyMsg "G") w = Some (m', NoCmd, w')
     /\ scrollOffset m' = Z.max 0 (lineCount m - viewportHeight m)
     /\ visibleEnd m' = lineCount m'
     /\ drawn (View m') = true
     /\ (0 < viewportHeight m ->
         exists (visibleLines : list string) (line : string),
           slice (Split (diffContent m') LF) (scrollOffset m') (visibleEnd m')
           = Some visibleLines
           /\ last (Split (diffContent m') LF) = Some line
           /\ last visibleLines = Some line)
     /\ (viewportHeight m = 0 ->
         slice (Split (diffContent m') LF) (scrollOffset m') (visibleEnd m')
         = Some []))
  /\ (exists m' w',
     Update m (KeyMsg "g") w = Some (m', NoCmd, w')
     /\ scrollOffset m' = 0
     /\ visibleEnd m' = Z.min (viewportHeight m) (lineCount m')
     /\ drawn (View m') = true
     /\ (0 < viewportHeight m ->
         exists (visibleLines : list string) (line : string),
           slice (Split (diffContent m') LF) (scrollOffset m') (visibleEnd m')
           = Some visibleLines
           /\ head (Split (diffContent m') LF) = Some line
           /\ head visibleLines = Some line)
     /\ (viewportHeight m = 0 ->
         slice (Split (diffContent m') LF) (scrollOffset m') (visibleEnd m')
         = Some [])).
Proof.
  intros Hq Hd Hf Hsame Hv. pose proof (lineCount_pos m) as HL.
  destruct (Split_cons (diffContent m) LF) as (piece & pieces & Hlines).
  split.
  - rewrite (Update_G m w f Hd Hf), Hsame. eexists _, _.
    split; [reflexivity|].
    assert (Hl : lineCount (set_diffContent
                   (set_scrollOffset m (getMaxScroll m)) (diffContent m))
                 = lineCount m) by reflexivity.
    assert (Hend : visibleEnd (set_diffContent
                     (set_scrollOffset m (getMaxScroll m)) (diffContent m))
                   = lineCount m).
    { unfold visibleEnd. rewrite Hl. cbn [scrollOffset viewportHeight
        set_diffContent set_scrollOffset]. rewrite getMaxScroll_max.
      destruct (Z.gtb_spec (Z.max 0 (lineCount m - viewportHeight m)
                            + viewportHeight m) (lineCount m)); lia. }
    split; [cbn; apply getMaxScroll_max|].
    split; [rewrite Hend, Hl; reflexivity|].
    split.
    { apply drawn_diff_iff; [exact Hq | exact Hd|].
      rewrite Hl. cbn [scrollOffset viewportHeight set_diffContent
        set_scrollOffset]. rewrite getMaxScroll_max. lia. }
    rewrite Hend.
    cbn [scrollOffset diffContent set_diffContent set_scrollOffset].
    rewrite getMaxScroll_max. unfold lineCount in *.
    split.
    + intros Hpos.
      destruct (slice_to_end_last (Split (diffContent m) LF)
                  (Z.max 0 (len (Split (diffContent m) LF) - viewportHeight m))
                  ltac:(lia)) as (v & Hslice & Hlast).
      destruct (last (Split (diffContent m) LF)) as [line|] eqn:Hline.
      * exists v, line. auto.
      * rewrite Hlines in Hline. apply last_None in Hline. discriminate.
    + intros Hzero. rewrite Hzero, Z.sub_0_r, Z.max_r by lia.
      unfold slice.
      destruct (Z.leb_spec 0 (len (Split (diffContent m) LF))); [|lia].
      destruct (Z.leb_spec (len (Split (diffContent m) LF))
                  (len (Split (diffContent m) LF))); [|lia].
      cbn. rewrite Z.sub_diag. reflexivity.
  - rewrite (Update_g m w f Hd Hf), Hsame. eexists _, _.
    split; [reflexivity|].
    assert (Hl : lineCount (set_diffContent (set_scrollOffset m 0)
                              (diffContent m)) = lineCount m) by reflexivity.
    assert (Hend : visibleEnd (set_diffContent (set_scrollOffset m 0)
                                 (diffContent m))
                   = Z.min (viewportHeight m) (lineCount m)).
    { unfold visibleEnd. rewrite Hl. cbn [scrollOffset viewportHeight
        set_diffContent set_scrollOffset].
      destruct (Z.gtb_spec (0 + viewportHeight m) (lineCount m)); lia. }
    split; [reflexivity|].
    split; [rewrite Hend, Hl; reflexivity|].
    split.
    { apply drawn_diff_iff; [exact Hq | exact Hd|].
      rewrite Hl. cbn [scrollOffset viewportHeight set_diffContent
        set_scrollOffset]. lia. }
    rewrite Hend.
    cbn [scrollOffset diffContent set_diffContent set_scrollOffset].
    unfold lineCount in *.
    split.
    + intros Hpos.
      destruct (slice_from_start_head (Split (diffContent m) LF)
                  (Z.min (viewportHeight m) (len (Split (diffContent m) LF)))
                  ltac:(lia)) as (v & Hslice & Hhead).
      exists v, piece. split; [exact Hslice|].
      rewrite Hhead, Hlines. split; reflexivity.
    + intros Hzero. rewrite Hzero, Z.min_l by lia. unfold slice.
      destruct (Z.leb_spec 0 (len (Split (diffContent m) LF))); [|lia].
      reflexivity.
Qed.

Lemma G_shows_the_last_line_witness :
  exists m' w',
    Update (C := scripted demoRepo)
           (mkModel demoFiles 0 false true (textOfLines 29) 3 20)
           (KeyMsg "G") [] = Some (m', NoCmd, w')
    /\ scrollOffset m' = 10
    /\ visibleEnd m' = 30.
Proof.
  destruct (G_shows_the_last_line (C := scripted demoRepo)
              (mkModel demoFiles 0 false true (textOfLines 29) 3 20) []
              (entry "??" "newfile.txt") eq_refl eq_refl eq_refl eq_refl
              ltac:(vm_compute; discriminate))
    as [(m' & w' & Hu & Hs & He & _) _].
  exists m', w'. split; [exact Hu|].
  split; [rewrite Hs; reflexivity|].
  rewrite He. vm_compute in Hu. injection Hu as <- _. reflexivity.
Defined.

Section LineScroll.
Context {C : Collaborators}.

Lemma set_scrollOffset_same (m : model) :
  set_scrollOffset m (scrollOffset m) = m.
Proof. destruct m; reflexivity. Qed.

Lemma set_files_same (m : model) : set_files m (files m) = m.
Proof. destruct m; reflexivity. Qed.

Variable f : fileEntry.
Variable m : model.
Hypothesis Hd : diffMode m = true.
Hypothesis Hf : index (files m) (cursor m) = Some f.

Lemma handleKey_down_line (v : Z) (w : World) :
  v < getMaxScroll m ->
  handleKey (set_scrollOffset m v) "down" w
  = Some (set_scrollOffset m (v + 1), w).
Proof.
  intros Hv. unfold handleKey. cbn. rewrite Hd.
  change (getMaxScroll (set_scrollOffset m v)) with (getMaxScroll m).
  destruct (Z.ltb_spec v (getMaxScroll m)); [reflexivity | lia].
Qed.

Lemma handleKey_up_line (v : Z) (w : World) :
  0 < v ->
  handleKey (set_scrollOffset m v) "up" w
  = Some (set_scrollOffset m (v - 1), w).
Proof.
  intros Hv. unfold handleKey. cbn. rewrite Hd.
  destruct (Z.gtb_spec v 0); [reflexivity | lia].
Qed.

Lemma Update_down_line (v : Z) (w : World) :
  v < getMaxScroll m ->
  fetchReturns (fun _ => diffContent m) (set_scrollOffset m v) "down" w ->
  Update (set_scrollOffset m v) (KeyMsg "down") w
  = Some (set_scrollOffset m (v + 1), NoCmd, snd (getDiff f w)).
Proof.
  intros Hv Hfetch. unfold fetchReturns in Hfetch.
  change (("down" =? "ctrl+c")%string || ("down" =? "q")%string)
    with false in Hfetch. cbv iota in Hfetch.
  rewrite (handleKey_down_line v w Hv) in Hfetch.
  cbn [diffMode files cursor set_scrollOffset] in Hfetch.
  rewrite Hd, Hf in Hfetch.
  rewrite Update_key by reflexivity. rewrite (handleKey_down_line v w Hv).
  rewrite (refreshDiff_diffMode _ w f) by (cbn; auto). rewrite Hfetch.
  destruct m; reflexivity.
Qed.

Lemma Update_up_line (v : Z) (w : World) :
  0 < v ->
  fetchReturns (fun _ => diffContent m) (set_scrollOffset m v) "up" w ->
  Update (set_scrollOffset m v) (KeyMsg "up") w
  = Some (set_scrollOffset m (v - 1), NoCmd, snd (getDiff f w)).
Proof.
  intros Hv Hfetch. unfold fetchReturns in Hfetch.
  change (("up" =? "ctrl+c")%string || ("up" =? "q")%string)
    with false in Hfetch. cbv iota in Hfetch.
  rewrite (handleKey_up_line v w Hv) in Hfetch.
  cbn [diffMode files cursor set_scrollOffset] in Hfetch.
  rewrite Hd, Hf in Hfetch.
  rewrite Update_key by reflexivity. rewrite (handleKey_up_line v w Hv).
  rewrite (refreshDiff_diffMode _ w f) by (cbn; auto). rewrite Hfetch.
  destruct m; reflexivity.
Qed.

Lemma run_down_lines (k : nat) (rest : list string) :
  forall (v : Z) (w : World),
  v + Z.of_nat k <= getMaxScroll m ->
  everyFetchReturns (fun _ => diffContent m) (set_scrollOffset m v)
    (repeat "down" k ++ rest) w ->
  exists w', run (set_scrollOffset m v) (presses "down" k) w
             = Some (set_scrollOffset m (v + Z.of_nat k), w')
             /\ everyFetchReturns (fun _ => diffContent m)
                  (set_scrollOffset m (v + Z.of_nat k)) rest w'.
Proof.
  induction k as [|k IH]; intros v w Hv Hfetch.
  - exists w. cbn [presses repeat run app] in *. rewrite Z.add_0_r.
    auto.
  - cbn [repeat app everyFetchReturns] in Hfetch.
    destruct Hfetch as [Hfirst Hlater].
    unfold presses. cbn [repeat run].
    rewrite Update_down_line in Hlater |- * by (lia || exact Hfirst).
    destruct (IH (v + 1) (snd (getDiff f w)) ltac:(lia) Hlater)
      as (w' & Hrun & Hrest).
    exists w'. unfold presses in Hrun. rewrite Hrun.
    replace (v + Z.of_nat (S k)) with (v + 1 + Z.of_nat k) by lia. auto.
Qed.

Lemma run_up_lines (k : nat) : forall (v : Z) (w : World),
  0 <= v - Z.of_nat k ->
  everyFetchReturns (fun _ => diffContent m) (set_scrollOffset m v) (repeat "up" k) w ->
  exists w', run (set_scrollOffset m v) (presses "up" k) w
             = Some (set_scrollOffset m (v - Z.of_nat k), w').
Proof.
  induction k as [|k IH]; intros v w Hv Hfetch.
  - exists w. cbn. rewrite Z.sub_0_r. reflexivity.
  - cbn [repeat everyFetchReturns] in Hfetch.
    destruct Hfetch as [Hfirst Hlater].
    unfold presses. cbn [repeat run].
    rewrite Update_up_line in Hlater |- * by (lia || exact Hfirst).
    destruct (IH (v - 1) (snd (getDiff f w)) ltac:(lia) Hlater)
      as [w' Hrun].
    exists w'. unfold presses in Hrun. rewrite Hrun. do 3 f_equal. lia.
Qed.

End LineScroll.

(** X18. Line scrolling: as long as the bottom is not passed, [k] presses
    of "down" in the diff viewer move the scroll offset down by [k] lines
    and leave the cursor on the same entry, and [k] presses of "up" after
    them bring the model back to what it was, the diff coming back
    unchanged at each of the [2k] fetches of this run. *)
Theorem scroll_down_then_up_returns {C : Collaborators}
    (m : model) (f : fileEntry) (k : nat) (w : World) :
  diffMode m = true ->
  index (files m) (cursor m) = Some f ->
  everyFetchReturns (fun _ => diffContent m) m
    (repeat "down" k ++ repeat "up" k) w ->
  0 <= scrollOffset m ->
  scrollOffset m + Z.of_nat k <= getMaxScroll m ->
  exists m1 w1 w2,
    run m (presses "down" k) w = Some (m1, w1)
    /\ scrollOffset m1 = scrollOffset m + Z.of_nat k
    /\ cursor m1 = cursor m
    /\ run m1 (presses "up" k) w1 = Some (m, w2).
Proof.
  intros Hd Hf Hsame Hs Hk.
  assert (Hsame' : everyFetchReturns (fun _ => diffContent m)
                      (set_scrollOffset m (scrollOffset m))
                      (repeat "down" k ++ repeat "up" k) w)
    by (rewrite set_scrollOffset_same; exact Hsame).
  destruct (run_down_lines f m Hd Hf k (repeat "up" k) (scrollOffset m) w
              Hk Hsame') as (w1 & Hdown & Hrest).
  destruct (run_up_lines f m Hd Hf k (scrollOffset m + Z.of_nat k) w1
              ltac:(lia) Hrest) as [w2 Hup].
  rewrite set_scrollOffset_same in Hdown.
  replace (scrollOffset m + Z.of_nat k - Z.of_nat k) with (scrollOffset m)
    in Hup by lia.
  rewrite set_scrollOffset_same in Hup.
  eexists _, w1, w2. split; [exact Hdown|].
  split; [reflexivity|]. split; [reflexivity | exact Hup].
Qed.

Lemma scroll_down_then_up_returns_witness :
  let m := mkModel demoFiles 0 false true (textOfLines 29) 2 20 in
  exists m1 w1 w2,
    run (C := scripted demoRepo) m (presses "down" 8) [] = Some (m1, w1)
    /\ scrollOffset m1 = 10
    /\ run (C := scripted demoRepo) m1 (presses "up" 8) w1 = Some (m, w2).
Proof.
  destruct (scroll_down_then_up_returns (C := scripted demoRepo)
              (mkModel demoFiles 0 false true (textOfLines 29) 2 20)
              (entry "??" "newfile.txt") 8 [] eq_refl eq_refl)
    as (m1 & w1 & w2 & Hdown & Hs & _ & Hup).
  - vm_compute. repeat split.
  - vm_compute. discriminate.
  - vm_compute. discriminate.
  - exists m1, w1, w2. split; [exact Hdown|]. split; [exact Hs | exact Hup].
Defined.

(** X26. Scroll events keep a clamped offset clamped.  Let the model be in
    diff mode, showing the diff of the entry under its cursor, with a
    viewport height that is not negative and [scrollOffset] within
    [[0, max(0, L - H)]]; and let each entry's diff come back unchanged at
    each fetch of the run.  Then every sequence of scroll events (up, down,
    pgup, pgdown, g, G) is processed without a panic, every frame is drawn,
    the entries and the viewport height stay, and at the end
    [scrollOffset] is within [[0, max(0, L' - H)]] for the [L'] lines of
    the diff then on display. *)
Theorem scroll_events_keep_a_clamped_offset_clamped {C : Collaborators}
    (diffOf : fileEntry -> string) (keys : list string) (m : model)
    (w : World) :
  showsDiff diffOf m ->
  0 <= viewportHeight m ->
  0 <= scrollOffset m <= Z.max 0 (lineCount m - viewportHeight m) ->
  Forall scrollKey keys ->
  everyFetchReturns diffOf m keys w ->
  exists m' w',
    run m (map KeyMsg keys) w = Some (m', w')
    /\ showsDiff diffOf m'
    /\ viewportHeight m' = viewportHeight m
    /\ files m' = files m
    /\ 0 <= scrollOffset m' <= Z.max 0 (lineCount m' - viewportHeight m')
    /\ map drawn (runFrames m (map KeyMsg keys) w)
       = repeat true (length keys).
Proof.
  intros Hshow Hv Hcl Hkeys Hfetch.
  rewrite <- getMaxScroll_max in Hcl.
  destruct (scroll_run diffOf keys m w Hshow ltac:(lia) Hcl Hkeys Hfetch)
    as (m' & w' & Hrun & Hshow' & Hv' & Hf' & Hcl').
  exists m', w'. rewrite <- getMaxScroll_max.
  split; [exact Hrun|]. split; [exact Hshow'|]. split; [exact Hv'|].
  split; [exact Hf'|]. split; [exact Hcl'|].
  apply (scroll_events_are_drawn diffOf); assumption.
Qed.

Lemma scroll_events_keep_a_clamped_offset_clamped_witness :
  let m := mkModel demoFiles 0 false true (textOfLines 29) 0 20 in
  let keys := ["pgdown"; "down"; "G"; "down"; "pgup"; "up"; "g"; "up"] in
  exists m' w',
    run (C := scripted demoRepo) m (map KeyMsg keys) [] = Some (m', w')
    /\ 0 <= scrollOffset m' <= Z.max 0 (lineCount m' - viewportHeight m')
    /\ map drawn (runFrames (C := scripted demoRepo) m (map KeyMsg keys) [])
       = repeat true 8.
Proof.
  destruct (scroll_events_keep_a_clamped_offset_clamped
              (C := scripted demoRepo)
              (fun f => fst (getDiff (C := scripted demoRepo) f []))
              ["pgdown"; "down"; "G"; "down"; "pgup"; "up"; "g"; "up"]
              (mkModel demoFiles 0 false true (textOfLines 29) 0 20) [])
    as (m' & w' & Hrun & _ & _ & _ & Hcl & Hframes).
  - split; [reflexivity|]. exists (entry "??" "newfile.txt").
    split; reflexivity.
  - vm_compute. discriminate.
  - vm_compute. split; discriminate.
  - repeat constructor.
  - vm_compute. repeat split.
  - exists m', w'. split; [exact Hrun|]. split; [exact Hcl | exact Hframes].
Defined.

(** ** The commands of an entry start once *)

Section StartOnce.
Context {C : Collaborators}.

Lemma set_status_same (f : fileEntry) : set_status f (status f) = f.
Proof. destruct f; reflexivity. Qed.

Lemma afterToggle_started (f : fileEntry) :
  toggleStarted f = true ->
  afterToggle f true = set_status f (toggled (status f)).
Proof.
  destruct f as [n st sc uc ss us]. unfold toggleStarted, afterToggle. cbn.
  destruct st; cbn; intros ->; reflexivity.
Qed.

(** Once both commands of the entry under the cursor have been started,
    toggling flips its classification and spawns nothing. *)
Lemma run_started_toggles (k : nat) :
  forall (m : model) (w : World) (f : fileEntry),
  diffMode m = false ->
  index (files m) (cursor m) = Some f ->
  stageStarted f = true -> unstageStarted f = true ->
  run m (presses " " k) w
  = Some (set_files m
            (<[Z.to_nat (cursor m)
               := set_status f (Nat.iter k toggled (status f))]> (files m)),
          w).
Proof.
  induction k as [|k IH]; intros m w f Hb Hf Hs Hu.
  - assert (Hlook : files m !! Z.to_nat (cursor m) = Some f).
    { unfold index in Hf. destruct (0 <=? cursor m); [exact Hf|discriminate]. }
    cbn [presses repeat run Nat.iter nat_rect].
    rewrite set_status_same, (list_insert_id _ _ _ Hlook), set_files_same.
    reflexivity.
  - assert (Hst : toggleStarted f = true)
      by (unfold toggleStarted; destruct (status f); assumption).
    unfold presses. cbn [repeat run].
    rewrite (Update_space_browsing m w f Hb Hf), Hst.
    rewrite startedAfterRun_started, worldAfterRun_started,
      (afterToggle_started f Hst).
    set (f1 := set_status f (toggled (status f))).
    fold (presses " " k).
    rewrite (IH _ w f1); [| exact Hb | apply (index_insert_same _ _ f), Hf
                          | exact Hs | exact Hu].
    cbn [files cursor set_files]. rewrite list_insert_insert_eq.
    unfold f1. cbn [status set_status].
    rewrite iter_toggled_shift, <- Nat.iter_succ.
    destruct f; reflexivity.
Qed.

End StartOnce.

(** X19. The two commands of an entry are run at most once each in a
    session.  Let the entry under the cursor hold two commands that have
    not been started, and let the processes of the first two toggles start
    (whatever their exit codes).  Then the first toggle spawns one of the
    two commands and the second toggle the other, and every later toggle
    spawns nothing: after [2 + k] toggles the world is the one the two
    commands left, while the classification has been flipped [2 + k]
    times. *)
Theorem commands_run_at_most_once {C : Collaborators}
    (k : nat) (m : model) (w : World) (f : fileEntry) :
  diffMode m = false ->
  index (files m) (cursor m) = Some f ->
  stageStarted f = false -> unstageStarted f = false ->
  let first := toggleCmd f in
  let second := toggleCmd (set_status f (toggled (status f))) in
  let w1 := snd (spawn first w) in
  let w2 := snd (spawn second w1) in
  (exists code : Z, exit (fst (spawn first w)) = Exited code) ->
  (exists code : Z, exit (fst (spawn second w1)) = Exited code) ->
  (first = stageCmd f /\ second = unstageCmd f
   \/ first = unstageCmd f /\ second = stageCmd f)
  /\ run m (presses " " 1) w
     = Some (set_files m
               (<[Z.to_nat (cursor m) := afterToggle f true]> (files m)), w1)
  /\ run m (presses " " (2 + k)) w
     = Some (set_files m
               (<[Z.to_nat (cursor m)
                  := mkFileEntry (name f)
                       (Nat.iter (2 + k) toggled (status f))
                       (stageCmd f) (unstageCmd f) true true]> (files m)),
             w2).
Proof.
  intros Hb Hf Hs Hu first second w1 w2 [code1 Hfirst] [code2 Hsecond].
  unfold first in Hfirst.
  assert (Hst : toggleStarted f = false)
    by (unfold toggleStarted; destruct (status f); assumption).
  set (f1 := afterToggle f true).
  assert (Hcmd1 : toggleCmd f1 = second).
  { unfold f1, second, toggleCmd, afterToggle.
    destruct f as [n st sc uc ss us]. destruct st; reflexivity. }
  assert (Hst1 : toggleStarted f1 = false).
  { unfold f1, toggleStarted, afterToggle.
    destruct f as [n st sc uc ss us]. cbn in *. destruct st; assumption. }
  assert (Hstep1 : Update m (KeyMsg " ") w
                   = Some (set_files m (<[Z.to_nat (cursor m) := f1]> (files m)),
                           NoCmd, w1)).
  { rewrite (Update_space_browsing m w f Hb Hf), Hst.
    rewrite (startedAfterRun_fresh _ _ _ Hfirst), worldAfterRun_fresh.
    reflexivity. }
  split; [|split].
  - unfold first, second, toggleCmd. destruct f as [n st sc uc ss us]. cbn.
    destruct st; cbn; auto.
  - unfold presses. cbn [repeat run]. rewrite Hstep1. reflexivity.
  - set (m1 := set_files m (<[Z.to_nat (cursor m) := f1]> (files m))) in *.
    assert (Hf1 : index (files m1) (cursor m1) = Some f1)
      by apply (index_insert_same _ _ f), Hf.
    set (f2 := afterToggle f1 true).
    assert (Hstep2 : Update m1 (KeyMsg " ") w1
              = Some (set_files m1 (<[Z.to_nat (cursor m1) := f2]> (files m1)),
                      NoCmd, w2)).
    { rewrite (Update_space_browsing m1 w1 f1 Hb Hf1), Hst1, Hcmd1.
      rewrite (startedAfterRun_fresh _ _ _ Hsecond), worldAfterRun_fresh.
      reflexivity. }
    change (2 + k)%nat with (S (S k)). unfold presses. cbn [repeat run].
    rewrite Hstep1, Hstep2. fold (presses " " k).
    rewrite (run_started_toggles k _ w2 f2); cycle 1.
    + exact Hb.
    + apply (index_insert_same _ _ f1), Hf1.
    + unfold f2, f1, afterToggle. destruct f as [n st sc uc ss us].
      destruct st; reflexivity.
    + unfold f2, f1, afterToggle. destruct f as [n st sc uc ss us].
      destruct st; reflexivity.
    + cbn [files cursor set_files]. unfold m1. cbn [files cursor set_files].
      rewrite !list_insert_insert_eq. do 4 f_equal.
      rewrite !Nat.iter_succ, <- !iter_toggled_shift.
      unfold f2, f1, afterToggle. destruct f as [n st sc uc ss us].
      destruct st; reflexivity.
Qed.

Lemma commands_run_at_most_once_witness :
  let m := set_cursor (initialModel demoFiles) 2 in
  exists m',
    run (C := scripted demoRepo) m (presses " " 5) []
    = Some (m', [Command "git" ["rm"; "--cached"; "added.txt"];
                 Command "git" ["add"; "added.txt"]])
    /\ option_map status (index (files m') 2) = Some Unstaged.
Proof.
  destruct (commands_run_at_most_once (C := scripted demoRepo) 3
              (set_cursor (initialModel demoFiles) 2) []
              (entry "A " "added.txt") eq_refl eq_refl eq_refl eq_refl)
    as (_ & _ & Hrun).
  - exists 0. reflexivity.
  - exists 0. reflexivity.
  - eexists. split; [exact Hrun | reflexivity].
Defined.

(** ** The earlier revisions *)

Section LegacyCursor.
Context {C : Collaborators}.

Lemma legacy_up (m : Legacy.model) (w : World) :
  0 <= Legacy.cursor m < len (Legacy.files m) ->
  Legacy.Update m (KeyMsg "up") w
  = Some (Legacy.mkModel (Legacy.files m)
            ((Legacy.cursor m - 1) mod len (Legacy.files m))
            (Legacy.quitting m), NoCmd, w).
Proof.
  intros Hc. unfold Legacy.Update. cbn.
  destruct (Z.gtb_spec (Legacy.cursor m) 0) as [Hpos|Hzero].
  - rewrite Z.mod_small by lia. reflexivity.
  - replace (Legacy.cursor m) with 0 by lia.
    replace (0 - 1) with (-1 * len (Legacy.files m)
                          + (len (Legacy.files m) - 1)) by lia.
    rewrite Z.add_comm, Z.mod_add by lia. rewrite Z.mod_small by lia.
    reflexivity.
Qed.

Lemma legacy_down (m : Legacy.model) (w : World) :
  0 <= Legacy.cursor m < len (Legacy.files m) ->
  Legacy.Update m (KeyMsg "down") w
  = Some (Legacy.mkModel (Legacy.files m)
            ((Legacy.cursor m + 1) mod len (Legacy.files m))
            (Legacy.quitting m), NoCmd, w).
Proof.
  intros Hc. unfold Legacy.Update. cbn.
  destruct (Z.ltb_spec (Legacy.cursor m) (len (Legacy.files m) - 1))
    as [Hlt|Hlast].
  - rewrite Z.mod_small by lia. reflexivity.
  - replace (Legacy.cursor m + 1) with (len (Legacy.files m)) by lia.
    rewrite Z.mod_same by lia. reflexivity.
Qed.

Lemma legacy_ups (k : nat) : forall (m : Legacy.model) (w : World),
  0 <= Legacy.cursor m < len (Legacy.files m) ->
  legacyRun m (presses "up" k) w
  = Some (Legacy.mkModel (Legacy.files m)
            ((Legacy.cursor m - Z.of_nat k) mod len (Legacy.files m))
            (Legacy.quitting m), w).
Proof.
  induction k as [|k IH]; intros m w Hc.
  - cbn. rewrite Z.sub_0_r, Z.mod_small by lia. destruct m; reflexivity.
  - unfold presses. cbn [repeat legacyRun]. rewrite (legacy_up m w Hc).
    unfold presses in IH. rewrite IH by (cbn; apply Z.mod_pos_bound; lia).
    cbn [Legacy.files Legacy.cursor Legacy.quitting].
    rewrite Zminus_mod_idemp_l. do 3 f_equal. f_equal. lia.
Qed.

Lemma legacy_downs (k : nat) : forall (m : Legacy.model) (w : World),
  0 <= Legacy.cursor m < len (Legacy.files m) ->
  legacyRun m (presses "down" k) w
  = Some (Legacy.mkModel (Legacy.files m)
            ((Legacy.cursor m + Z.of_nat k) mod len (Legacy.files m))
            (Legacy.quitting m), w).
Proof.
  induction k as [|k IH]; intros m w Hc.
  - cbn. rewrite Z.add_0_r, Z.mod_small by lia. destruct m; reflexivity.
  - unfold presses. cbn [repeat legacyRun]. rewrite (legacy_down m w Hc).
    unfold presses in IH. rewrite IH by (cbn; apply Z.mod_pos_bound; lia).
    cbn [Legacy.files Legacy.cursor Legacy.quitting].
    rewrite Zplus_mod_idemp_l. do 3 f_equal. f_equal. lia.
Qed.

End LegacyCursor.

(** X20. In the first revision the cursor goes round: with [N] entries and
    the cursor on one of them, [k] presses of "up" put it at
    [(c - k) mod N] and [k] presses of "down" at [(c + k) mod N]; so [N]
    presses of either bring the model back to what it was, and so does
    "up" followed by "down". *)
Theorem legacy_cursor_goes_round {C : Collaborators}
    (m : Legacy.model) (w : World) (k : nat) :
  0 <= Legacy.cursor m < len (Legacy.files m) ->
  (exists m', legacyRun m (presses "up" k) w = Some (m', w)
     /\ Legacy.cursor m'
        = (Legacy.cursor m - Z.of_nat k) mod len (Legacy.files m))
  /\ (exists m', legacyRun m (presses "down" k) w = Some (m', w)
     /\ Legacy.cursor m'
        = (Legacy.cursor m + Z.of_nat k) mod len (Legacy.files m))
  /\ legacyRun m (presses "up" (length (Legacy.files m))) w = Some (m, w)
  /\ legacyRun m (presses "down" (length (Legacy.files m))) w = Some (m, w)
  /\ legacyRun m [KeyMsg "up"; KeyMsg "down"] w = Some (m, w).
Proof.
  intros Hc.
  assert (Hback : forall c', c' = Legacy.cursor m ->
            Legacy.mkModel (Legacy.files m) c' (Legacy.quitting m) = m)
    by (intros c' ->; destruct m; reflexivity).
  split; [|split; [|split; [|split]]].
  - eexists. split; [apply legacy_ups, Hc | reflexivity].
  - eexists. split; [apply legacy_downs, Hc | reflexivity].
  - rewrite legacy_ups by exact Hc. rewrite Hback; [reflexivity|].
    fold (len (Legacy.files m)).
    replace (Legacy.cursor m - len (Legacy.files m))
      with (Legacy.cursor m + (-1) * len (Legacy.files m)) by lia.
    rewrite Z.mod_add by lia. apply Z.mod_small, Hc.
  - rewrite legacy_downs by exact Hc. rewrite Hback; [reflexivity|].
    fold (len (Legacy.files m)).
    replace (Legacy.cursor m + len (Legacy.files m))
      with (Legacy.cursor m + 1 * len (Legacy.files m)) by lia.
    rewrite Z.mod_add by lia. apply Z.mod_small, Hc.
  - cbn [legacyRun]. rewrite (legacy_up m w Hc).
    rewrite legacy_down by (cbn; apply Z.mod_pos_bound; lia).
    cbn [Legacy.files Legacy.cursor Legacy.quitting].
    rewrite Zplus_mod_idemp_l. rewrite Hback; [reflexivity|].
    replace (Legacy.cursor m - 1 + 1) with (Legacy.cursor m) by lia.
    apply Z.mod_small, Hc.
Qed.

Lemma legacy_cursor_goes_round_witness :
  let m := Legacy.mkModel demoFiles 0 false in
  (exists m', legacyRun (C := scripted demoRepo) m (presses "up" 1) []
              = Some (m', [])
     /\ Legacy.cursor m' = 3)
  /\ legacyRun (C := scripted demoRepo) m (presses "up" 4) [] = Some (m, []).
Proof.
  pose proof (legacy_cursor_goes_round (C := scripted demoRepo)
                (Legacy.mkModel demoFiles 0 false) [])
    as Hround.
  split.
  - destruct (Hround 1%nat ltac:(vm_compute; split; discriminate || reflexivity))
      as [(m' & Hrun & Hc) _].
    exists m'. split; [exact Hrun | exact Hc].
  - apply (Hround 0%nat). vm_compute. split; discriminate || reflexivity.
Defined.

Section InterimFacts.
Context {C : Collaborators}.

Lemma interim_afterSwitch (m : Interim.model) (w : World) :
  0 <= Interim.cursor m < len (Interim.files m) ->
  exists m' w',
    Interim.afterSwitch m w = Some (m', NoCmd, w')
    /\ Interim.cursor m' = Interim.cursor m
    /\ Interim.files m' = Interim.files m
    /\ Interim.diffMode m' = Interim.diffMode m
    /\ (Interim.diffMode m = true ->
        exists f, index (Interim.files m) (Interim.cursor m) = Some f
          /\ Interim.diffContent m' = fst (getDiff f w)
          /\ w' = snd (getDiff f w))
    /\ (Interim.diffMode m = false -> m' = m /\ w' = w).
Proof.
  intros Hc. unfold Interim.afterSwitch, Interim.refreshDiff.
  destruct (Interim.diffMode m) eqn:Hd.
  - destruct (index_in_range _ _ Hc) as [f Hf]. rewrite Hf.
    destruct (getDiff f w) as [text w1] eqn:Hg.
    eexists _, _. split; [reflexivity|]. cbn.
    repeat split; auto; try discriminate.
    exists f. rewrite Hg. auto.
  - eexists _, _. split; [reflexivity|]. repeat split; auto; discriminate.
Qed.

Lemma interim_handleKey_total (m : Interim.model) (key : string) (w : World) :
  0 <= Interim.cursor m < len (Interim.files m) ->
  exists m1 w1,
    Interim.handleKey m key w = Some (m1, w1)
    /\ 0 <= Interim.cursor m1 < len (Interim.files m1)
    /\ len (Interim.files m1) = len (Interim.files m).
Proof.
  intros Hc. destruct (index_in_range _ _ Hc) as [f Hf].
  unfold Interim.handleKey, Run. rewrite Hf.
  repeat match goal with
         | |- context [if ?b then _ else _] => destruct b eqn:?
         | |- context [match status f with _ => _ end] => destruct (status f)
         | |- context [spawn ?c w] => destruct (spawn c w)
         end;
    repeat match goal with
           | H : (_ >? _) = true |- _ => apply Z.gtb_lt in H
           | H : (_ <? _) = true |- _ => apply Z.ltb_lt in H
           end;
    eexists _, _; (split; [reflexivity|]); cbn;
    unfold len in *; rewrite ?length_insert; lia.
Qed.

End InterimFacts.

(** X21. The interim revision keeps the same session invariant: with the
    cursor on an entry, no message makes its [Update] panic, the cursor
    stays on an entry and the list keeps its length. *)
Theorem interim_Update_never_panics {C : Collaborators}
    (m : Interim.model) (msg : Msg) (w : World) :
  0 <= Interim.cursor m < len (Interim.files m) ->
  exists m' cmd w',
    Interim.Update m msg w = Some (m', cmd, w')
    /\ 0 <= Interim.cursor m' < len (Interim.files m')
    /\ len (Interim.files m') = len (Interim.files m).
Proof.
  intros Hc. unfold Interim.Update.
  assert (Hafter : forall m1 w1,
            0 <= Interim.cursor m1 < len (Interim.files m1) ->
            len (Interim.files m1) = len (Interim.files m) ->
            exists m' cmd w',
              Interim.afterSwitch m1 w1 = Some (m', cmd, w')
              /\ 0 <= Interim.cursor m' < len (Interim.files m')
              /\ len (Interim.files m') = len (Interim.files m)).
  { intros m1 w1 Hc1 Hl1.
    destruct (interim_afterSwitch m1 w1 Hc1)
      as (m' & w' & -> & Hcur & Hfiles & _).
    exists m', NoCmd, w'. split; [reflexivity|].
    rewrite Hcur, Hfiles. split; [exact Hc1 | exact Hl1]. }
  destruct msg as [? Height|key|]; [apply Hafter; auto| |apply Hafter; auto].
  destruct (_ || _).
  - eexists _, _, _. split; [reflexivity|]. cbn. lia.
  - destruct (interim_handleKey_total m key w Hc) as (m1 & w1 & -> & Hc1 & Hl1).
    apply Hafter; assumption.
Qed.

Lemma interim_Update_never_panics_witness :
  exists m' cmd w',
    Interim.Update (C := scripted noRepo)
      (Interim.mkModel demoFiles 3 false true "") (KeyMsg "down") []
    = Some (m', cmd, w')
    /\ 0 <= Interim.cursor m' < len (Interim.files m')
    /\ len (Interim.files m') = 4.
Proof.
  apply (interim_Update_never_panics (C := scripted noRepo)
           (Interim.mkModel demoFiles 3 false true "")).
  vm_compute. split; discriminate || reflexivity.
Defined.

(** X22. In the interim revision the diff is fetched again after every
    message that does not quit, a resize or any other message included,
    and the frame is exactly the text fetched; the latest revision fetches
    it after keys only: a message that is not a key spawns nothing and
    leaves the diff text as it was. *)
Theorem interim_fetches_on_every_message {C : Collaborators}
    (m : Interim.model) (msg : Msg) (w : World) (f : fileEntry) :
  Interim.diffMode m = true ->
  Interim.quitting m = false ->
  index (Interim.files m) (Interim.cursor m) = Some f ->
  (forall key, msg <> KeyMsg key) ->
  (exists m',
     Interim.Update m msg w = Some (m', NoCmd, snd (getDiff f w))
     /\ Interim.diffContent m' = fst (getDiff f w)
     /\ Interim.View m' = fst (getDiff f w))
  /\ (forall m0 : model, exists m0',
       Update m0 msg w = Some (m0', NoCmd, w)
       /\ diffContent m0' = diffContent m0
       /\ files m0' = files m0 /\ cursor m0' = cursor m0).
Proof.
  intros Hd Hq Hf Hnokey. split.
  - assert (Hafter : Interim.afterSwitch m w
              = Some (Interim.mkModel (Interim.files m) (Interim.cursor m)
                        (Interim.quitting m) (Interim.diffMode m)
                        (fst (getDiff f w)), NoCmd, snd (getDiff f w))).
    { unfold Interim.afterSwitch, Interim.refreshDiff. rewrite Hd, Hf.
      destruct (getDiff f w). reflexivity. }
    eexists. split.
    + unfold Interim.Update. destruct msg as [? Height|key|];
        [exact Hafter | exfalso; apply (Hnokey key); reflexivity
        | exact Hafter].
    + split; [reflexivity|]. unfold Interim.View. cbn. rewrite Hq, Hd.
      reflexivity.
  - intros m0. destruct msg as [? Height|key|];
      [|exfalso; apply (Hnokey key); reflexivity|];
      eexists; (split; [reflexivity|]); repeat split.
Qed.

Lemma interim_fetches_on_every_message_witness :
  exists m',
    Interim.Update (C := scripted demoRepo)
      (Interim.mkModel demoFiles 0 false true "stale") OtherMsg []
    = Some (m', NoCmd, [Command "git" ["d"; "newfile.txt"]])
    /\ Interim.View (C := scripted demoRepo) m' = textOfLines 29.
Proof.
  destruct (interim_fetches_on_every_message (C := scripted demoRepo)
              (Interim.mkModel demoFiles 0 false true "stale") OtherMsg []
              (entry "??" "newfile.txt") eq_refl eq_refl eq_refl
              ltac:(discriminate))
    as [(m' & Hu & _ & Hv) _].
  exists m'. split; [exact Hu | exact Hv].
Defined.

(** X23. In browsing mode the latest revision does to the list, the
    cursor, the mode, the diff text and the outside world exactly what the
    interim revision does, for every key; the two revisions differ only
    inside the diff viewer. *)
Theorem latest_refines_interim_in_browsing {C : Collaborators}
    (m : model) (key : string) (w : World) :
  diffMode m = false ->
  forgetResult (Update m (KeyMsg key) w)
  = Interim.Update (forget m) (KeyMsg key) w.
Proof.
  intros Hb. unfold Update, Interim.Update.
  destruct ((key =? "ctrl+c")%string || (key =? "q")%string);
    [reflexivity|].
  unfold handleKey, Interim.handleKey, toggle, moveCursorUp, moveCursorDown,
    Interim.afterSwitch, Interim.refreshDiff, refreshDiff, Run.
  cbn [forget Interim.files Interim.cursor Interim.quitting Interim.diffMode
       Interim.diffContent].
  rewrite Hb.
  repeat match goal with
         | |- context [(key =? ?k)%string] =>
             destruct (String.eqb_spec key k) as [->|?]
         end;
    repeat match goal with
           | |- context [cursor m >? 0] => destruct (cursor m >? 0)
           | |- context [cursor m <? ?x] => destruct (cursor m <? x)
           | |- context [index (files m) (cursor m)] =>
               destruct (index (files m) (cursor m))
           | |- context [match status ?f with _ => _ end] =>
               destruct (status f)
           | |- context [if stageStarted ?f then _ else _] =>
               destruct (stageStarted f)
           | |- context [if unstageStarted ?f then _ else _] =>
               destruct (unstageStarted f)
           | |- context [spawn ?c w] => destruct (spawn c w)
           end;
    cbn; rewrite ?Hb; cbn;
    repeat match goal with
           | |- context [index (files m) (cursor m)] =>
               destruct (index (files m) (cursor m))
           | |- context [getDiff ?f ?w] => destruct (getDiff f w)
           end;
    unfold forgetResult, forget; cbn; rewrite ?Hb; reflexivity.
Qed.

Lemma latest_refines_interim_in_browsing_witness :
  forgetResult (Update (C := scripted demoRepo) (initialModel demoFiles)
                  (KeyMsg " ") [])
  = Some (Interim.mkModel
            (<[0%nat := set_status
                           (set_stageStarted (entry "??" "newfile.txt") true)
                           Staged]>
               demoFiles) 0 false false "",
          NoCmd, [Command "git" ["add"; "newfile.txt"]]).
Proof.
  rewrite (latest_refines_interim_in_browsing (C := scripted demoRepo));
    reflexivity.
Defined.

(** X24. Where the wrap-around went: on a model in browsing mode the
    interim revision does exactly what the first revision does, for every
    key but "d", except for "up" on the first entry and "down" on the last
    one, where the first revision wraps and the interim one stays. *)
Theorem interim_agrees_with_legacy_but_at_the_ends {C : Collaborators}
    (m : Interim.model) (key : string) (w : World) :
  Interim.diffMode m = false ->
  key <> "d" ->
  ~ (key = "up" /\ Interim.cursor m <= 0) ->
  ~ (key = "down" /\ len (Interim.files m) - 1 <= Interim.cursor m) ->
  forgetDiffResult (Interim.Update m (KeyMsg key) w)
  = Legacy.Update (forgetDiff m) (KeyMsg key) w.
Proof.
  intros Hb Hd Hup Hdown. unfold Interim.Update, Legacy.Update.
  destruct ((key =? "ctrl+c")%string || (key =? "q")%string);
    [reflexivity|].
  unfold Interim.handleKey, Interim.afterSwitch, Interim.refreshDiff, Run.
  cbn [forgetDiff Legacy.files Legacy.cursor Legacy.quitting].
  rewrite Hb.
  repeat match goal with
         | |- context [(key =? ?k)%string] =>
             destruct (String.eqb_spec key k) as [->|?]
         end; try congruence.
  - destruct (Z.gtb_spec (Interim.cursor m) 0); [|exfalso; apply Hup; auto].
    cbn. rewrite ?Hb. reflexivity.
  - destruct (Z.ltb_spec (Interim.cursor m) (len (Interim.files m) - 1));
      [|exfalso; apply Hdown; auto].
    cbn. rewrite ?Hb. reflexivity.
  - destruct (index (Interim.files m) (Interim.cursor m)) as [f|];
      [|reflexivity].
    destruct (status f);
      match goal with
      | |- context [if stageStarted ?f then _ else _] =>
          destruct (stageStarted f)
      | |- context [if unstageStarted ?f then _ else _] =>
          destruct (unstageStarted f)
      end;
      try match goal with
          | |- context [spawn ?c w] => destruct (spawn c w)
          end;
      cbn; rewrite ?Hb; reflexivity.
  - cbn. rewrite ?Hb. destruct m; reflexivity.
Qed.

Lemma interim_agrees_with_legacy_but_at_the_ends_witness :
  forgetDiffResult
    (Interim.Update (C := scripted demoRepo)
       (Interim.mkModel demoFiles 1 false false "") (KeyMsg "up") [])
  = Some (Legacy.mkModel demoFiles 0 false, NoCmd, []).
Proof.
  rewrite (interim_agrees_with_legacy_but_at_the_ends (C := scripted demoRepo));
    try reflexivity; try discriminate.
  - intros [_ H]. vm_compute in H. apply H. reflexivity.
  - intros [H _]. discriminate H.
Defined.

(** ** Commands and entries *)

Section Commands.
Context {C : Collaborators}.

Lemma entryOfLine_commands (l : string) : commandsNameEntry (entryOfLine l).
Proof.
  unfold commandsNameEntry, entryOfLine, interpretXY.
  repeat match goal with
         | |- context [if ?b then _ else _] => destruct b
         end; cbn; auto.
Qed.

Lemma getGitChanges_commands (w w' : World) (fs : list fileEntry) :
  getGitChanges w = Some (fs, None, w') ->
  forall (i : Z) (f : fileEntry), index fs i = Some f -> commandsNameEntry f.
Proof.
  unfold getGitChanges.
  destruct (Output _ w) as [[checkOutput err] w1].
  destruct (_ || _); [discriminate|].
  destruct (Output _ w1) as [[out err2] w2].
  destruct err2; [discriminate|].
  rewrite loadLines_filter_map. intros [= <- _] i f Hi.
  unfold index in Hi. destruct (0 <=? i); [|discriminate].
  cbn in Hi. apply list_lookup_fmap_Some in Hi as (l & -> & _).
  apply entryOfLine_commands.
Qed.

End Commands.

(** X25. Every command of a session acts on the path of its own entry:
    from [main] on and through any sequence of messages, the stage command
    of every entry is [git add] of the entry's name, and its unstage
    command is [git rm --cached] or [git restore --staged] of that name. *)
Theorem commands_act_on_their_own_entry {C : Collaborators}
    (w w1 w2 w' : World) (m m' : model) (msgs : list Msg) :
  main w = Some (EntersLoop m, w1) ->
  run m msgs w2 = Some (m', w') ->
  forall (i : Z) (f : fileEntry),
    index (files m') i = Some f ->
    stageCmd f = git_add (name f)
    /\ (unstageCmd f = git_rm_cached (name f)
        \/ unstageCmd f = git_restore_staged (name f)).
Proof.
  intros Hmain Hrun i f' Hi.
  destruct (run_sameButStatus msgs _ _ _ _ Hrun) as [_ He].
  destruct (He i f' Hi) as (f & Hf & Hn & Hs & Hu).
  assert (Hcmds : commandsNameEntry f).
  { unfold main in Hmain.
    destruct (getGitChanges w) as [[[fs err] w0]|] eqn:Hload; [|discriminate].
    destruct err; [discriminate|].
    destruct (len fs =? 0); [discriminate|].
    injection Hmain as <- <-. cbn in Hf.
    apply (getGitChanges_commands _ _ _ Hload i f Hf). }
  destruct Hcmds as [Hst Hun]. rewrite <- Hn, <- Hs, <- Hu. auto.
Qed.

Lemma commands_act_on_their_own_entry_witness :
  exists f,
    index (files (initialModel demoFiles)) 3 = Some f
    /\ stageCmd f = git_add (name f)
    /\ (unstageCmd f = git_rm_cached (name f)
        \/ unstageCmd f = git_restore_staged (name f)).
Proof.
  eexists. split; [reflexivity|].
  apply (commands_act_on_their_own_entry (C := scripted demoRepo)
           [] [checkCmd; statusCmd] [] [] (initialModel demoFiles)
           (initialModel demoFiles) [] eq_refl eq_refl 3).
  reflexivity.
Defined.
